(** * VPX light mapper: the export merge of [vlm_export.py]

    A shallow embedding of [export_vpx] (addons/vpx_lightmapper/vlm_export.py):
    the tagged-record reader and writer it drives, the item and image
    passes, the synthesis of bake meshes, materials and textures, the
    integrity hashing and the final commit. *)

From Stdlib Require Import ZArith Lia Bool Ascii String.
From stdpp Require Import base option list gmap strings pretty.

Local Open Scope Z_scope.

(** ** Bytes, Python [str] and [struct.pack] *)

(** A [bytes] or [bytearray] value is a list of integers in [0, 256); a Python
    [str] is the list of its code units.  A literal is written [str "NAME"];
    decoding bytes as latin-1 is the identity on these lists. *)
Definition str (s : string) : list Z :=
  map (fun a => Z.of_N (N_of_ascii a)) (list_ascii_of_string s).

Definition len (l : list Z) : Z := Z.of_nat (length l).

(** The four bytes of a 32-bit word, low byte first. *)
Definition le32 (v : Z) : list Z :=
  [v mod 256; (v / 256) mod 256; (v / 65536) mod 256; (v / 16777216) mod 256].

(** [struct.pack("<I", v)]: raises outside of [0, 2^32). *)
Definition pack_u32 (v : Z) : option (list Z) :=
  if (0 <=? v) && (v <? 4294967296) then Some (le32 v) else None.

(** [struct.pack("<i", v)] *)
Definition pack_i32 (v : Z) : option (list Z) :=
  if (-2147483648 <=? v) && (v <? 2147483648)
  then pack_u32 (v mod 4294967296)
  else None.

(** [struct.pack("<H", v)] *)
Definition pack_u16 (v : Z) : option (list Z) :=
  if (0 <=? v) && (v <? 65536) then Some [v mod 256; (v / 256) mod 256] else None.

(** [struct.unpack("<I", b)] on four bytes *)
Definition unpack_u32 (b : list Z) : option Z :=
  match b with
  | [b0; b1; b2; b3] => Some (b0 + 256 * b1 + 65536 * b2 + 16777216 * b3)
  | _ => None
  end.

Definition to_signed32 (u : Z) : Z :=
  if 2147483648 <=? u then u - 4294967296 else u.

(** The bit patterns of the float constants the export writes
    ([struct.pack("<f", x)] read back as an unsigned word). *)
Definition f32_0 : Z := 0.
Definition f32_1 : Z := 0x3F800000.
Definition f32_m2800 : Z := 0xC52F0000.

(** [data[p:p+n]], failing when the range leaves the buffer. *)
Definition slice (d : list Z) (p n : Z) : option (list Z) :=
  if (0 <=? p) && (0 <=? n) && (p + n <=? len d)
  then Some (take (Z.to_nat n) (drop (Z.to_nat p) d))
  else None.

(** [for i, b in enumerate(v): data[p + i] = b] *)
Definition overwrite (d : list Z) (p : Z) (v : list Z) : option (list Z) :=
  if (0 <=? p) && (p + len v <=? len d)
  then Some (take (Z.to_nat p) d ++ v ++ drop (Z.to_nat (p + len v)) d)
  else None.

(** [for i, b in enumerate(v): data.insert(p + i, b)], for [p] inside the
    buffer. *)
Definition insert_at (d : list Z) (p : Z) (v : list Z) : option (list Z) :=
  if (0 <=? p) && (p <=? len d)
  then Some (take (Z.to_nat p) d ++ v ++ drop (Z.to_nat p) d)
  else None.

(** [del data[p:p+n]] *)
Definition delete_at (d : list Z) (p n : Z) : option (list Z) :=
  if (0 <=? p) && (0 <=? n) && (p + n <=? len d)
  then Some (take (Z.to_nat p) d ++ drop (Z.to_nat (p + n)) d)
  else None.

(** [s.startswith(p)] *)
Fixpoint startswith (s p : list Z) : bool :=
  match p, s with
  | [], _ => true
  | _ :: _, [] => false
  | c :: p', d :: s' => (c =? d) && startswith s' p'
  end.

(** [x in l] for a list of strings *)
Definition str_in (x : list Z) (l : list (list Z)) : bool :=
  bool_decide (x ∈ l).

(** [s.split(sep)] for a one-character separator *)
Fixpoint split_on (sep : Z) (s : list Z) : list (list Z) :=
  match s with
  | [] => [[]]
  | c :: s' =>
      if c =? sep then [] :: split_on sep s'
      else match split_on sep s' with
           | w :: ws => (c :: w) :: ws
           | [] => [[c]]
           end
  end.

(** ** The tagged-record reader and writer *)

Module BIFF.

(** Modelled from the spec: [biff_io.BIFF_reader], the sequential decoder of
    section 4.1 of the specification (the module biff_io is not part of the
    files at hand).  A record is a 32-bit length (counting the tag and the
    payload), the four tag characters, and the payload; [next] leaves the
    position on the payload and [bytes_in_record_remaining] at its length.
    Every read fails when it would leave the buffer. *)
Record reader := mk_reader {
  data : list Z;
  pos : Z;
  bytes_in_record_remaining : Z;
  tag : list Z
}.

Definition BIFF_reader (d : list Z) : reader :=
  {| data := d; pos := 0; bytes_in_record_remaining := 0; tag := [] |}.

Definition set_pos (r : reader) (p : Z) : reader :=
  {| data := data r; pos := p;
     bytes_in_record_remaining := bytes_in_record_remaining r; tag := tag r |}.

(** Modelled from the spec: the end-of-data check; the data ends with the
    buffer or behind the sentinel record [ENDB] that [close] appends. *)
Definition is_eof (r : reader) : bool :=
  (len (data r) <=? pos r) || bool_decide (tag r = str "ENDB").

(** Modelled from the spec: [skip(count)] moves the position ([count] may be
    negative). *)
Definition skip (r : reader) (count : Z) : reader :=
  {| data := data r; pos := pos r + count;
     bytes_in_record_remaining := bytes_in_record_remaining r - count;
     tag := tag r |}.

(** Modelled from the spec: skip-current-payload. *)
Definition skip_tag (r : reader) : reader :=
  {| data := data r; pos := pos r + bytes_in_record_remaining r;
     bytes_in_record_remaining := 0; tag := tag r |}.

(** Modelled from the spec: the raw getter [get(count)]. *)
Definition get (r : reader) (count : Z) : option (list Z * reader) :=
  b ← slice (data r) (pos r) count;
  Some (b, skip r count).

(** Modelled from the spec: the typed getters. *)
Definition get_u32 (r : reader) : option (Z * reader) :=
  '(b, r') ← get r 4;
  v ← unpack_u32 b;
  Some (v, r').

Definition get_32 (r : reader) : option (Z * reader) :=
  '(v, r') ← get_u32 r;
  Some (to_signed32 v, r').

(** A bool is stored on four bytes (the material records of the export count
    it so); any non-zero word reads as [True]. *)
Definition get_bool (r : reader) : option (bool * reader) :=
  '(v, r') ← get_u32 r;
  Some (negb (v =? 0), r').

Definition get_str (r : reader) (count : Z) : option (list Z * reader) :=
  get r count.

Definition get_string (r : reader) : option (list Z * reader) :=
  '(n, r') ← get_u32 r;
  get_str r' n.

(** Two bytes per character, low byte first. *)
Fixpoint decode_wide (b : list Z) : option (list Z) :=
  match b with
  | [] => Some []
  | lo :: hi :: b' => s ← decode_wide b'; Some ((lo + 256 * hi) :: s)
  | _ => None
  end.

Definition get_wide_string (r : reader) : option (list Z * reader) :=
  '(n, r') ← get_u32 r;
  '(b, r'') ← get r' n;
  s ← decode_wide b;
  Some (s, r'').

(** Modelled from the spec: advance-to-next-tag; an unread rest of the
    current payload is skipped first. *)
Definition next (r : reader) : option reader :=
  let r0 := if 0 <? bytes_in_record_remaining r
            then skip r (bytes_in_record_remaining r) else r in
  '(n, r1) ← get_u32 r0;
  '(t, r2) ← get_str r1 4;
  Some {| data := data r2; pos := pos r2;
          bytes_in_record_remaining := n - 4; tag := t |}.

(** Modelled from the spec: the raw record data, tag and payload without the
    length prefix, read from behind the tag to the end of the record. *)
Definition get_record_data (r : reader) (with_tag : bool) : option (list Z * reader) :=
  let back := if with_tag then 4 else 0 in
  b ← slice (data r) (pos r - back) (bytes_in_record_remaining r + back);
  Some (b, skip_tag r).

(** Modelled from the spec: the in-place setters; each overwrites the bytes
    at the position and moves behind them. *)
Definition put_u32 (r : reader) (v : Z) : option reader :=
  b ← pack_u32 v;
  d ← overwrite (data r) (pos r) b;
  Some {| data := d; pos := pos r + 4;
          bytes_in_record_remaining := bytes_in_record_remaining r - 4;
          tag := tag r |}.

Definition put_bool (r : reader) (v : bool) : option reader :=
  put_u32 r (if v then 4294967295 else 0).

(** [put_float] on the bit pattern of the value. *)
Definition put_float (r : reader) (bits : Z) : option reader :=
  put_u32 r bits.

(** Modelled from the spec: in-place delete-N-bytes and insert-bytes at the
    current position; the position stays in front of a deleted range and
    moves behind inserted bytes. *)
Definition delete_bytes (r : reader) (n : Z) : option reader :=
  d ← delete_at (data r) (pos r) n;
  Some {| data := d; pos := pos r;
          bytes_in_record_remaining := bytes_in_record_remaining r; tag := tag r |}.

Definition insert_data (r : reader) (v : list Z) : option reader :=
  d ← insert_at (data r) (pos r) v;
  Some {| data := d; pos := pos r + len v;
          bytes_in_record_remaining := bytes_in_record_remaining r; tag := tag r |}.

(** Deletes the current record, length prefix and tag included. *)
Definition delete_tag (r : reader) : option reader :=
  let start := pos r - 8 in
  d ← delete_at (data r) start (bytes_in_record_remaining r + 8);
  Some {| data := d; pos := start; bytes_in_record_remaining := 0; tag := tag r |}.

End BIFF.

(** Modelled from the spec: [biff_io.BIFF_writer], the builder of section 4.2
    of the specification.  Bytes written while a tag is open go to its
    payload; the length prefix is fixed when the tag is closed. *)
Module Writer.

Record writer := mk_writer {
  wdata : list Z;                           (* the closed records and raw bytes *)
  wopen : option (list Z * list Z)          (* the open tag and its payload *)
}.

Definition BIFF_writer : writer := {| wdata := []; wopen := None |}.

Definition record_bytes (t payload : list Z) : option (list Z) :=
  n ← pack_u32 (4 + len payload);
  Some (n ++ t ++ payload).

Definition end_tag (w : writer) : option writer :=
  match wopen w with
  | None => Some w
  | Some (t, p) =>
      b ← record_bytes t p;
      Some {| wdata := wdata w ++ b; wopen := None |}
  end.

Definition new_tag (w : writer) (t : list Z) : option writer :=
  w' ← end_tag w;
  Some {| wdata := wdata w'; wopen := Some (t, []) |}.

Definition write_data (w : writer) (v : list Z) : writer :=
  match wopen w with
  | None => {| wdata := wdata w ++ v; wopen := None |}
  | Some (t, p) => {| wdata := wdata w; wopen := Some (t, p ++ v) |}
  end.

Definition write_u32 (w : writer) (v : Z) : option writer :=
  b ← pack_u32 v; Some (write_data w b).

Definition write_32 (w : writer) (v : Z) : option writer :=
  b ← pack_i32 v; Some (write_data w b).

Definition write_float (w : writer) (bits : Z) : option writer :=
  write_u32 w bits.

Definition write_bool (w : writer) (v : bool) : option writer :=
  write_u32 w (if v then 4294967295 else 0).

Definition write_string (w : writer) (s : list Z) : option writer :=
  w' ← write_u32 w (len s);
  Some (write_data w' s).

Definition encode_wide (s : list Z) : list Z :=
  flat_map (fun c => [c mod 256; (c / 256) mod 256]) s.

Definition write_wide_string (w : writer) (s : list Z) : option writer :=
  w' ← write_u32 w (2 * len s);
  Some (write_data w' (encode_wide s)).

Definition write_tagged_u32 (w : writer) (t : list Z) (v : Z) : option writer :=
  w1 ← new_tag w t; w2 ← write_u32 w1 v; end_tag w2.

Definition write_tagged_32 (w : writer) (t : list Z) (v : Z) : option writer :=
  w1 ← new_tag w t; w2 ← write_32 w1 v; end_tag w2.

Definition write_tagged_float (w : writer) (t : list Z) (bits : Z) : option writer :=
  w1 ← new_tag w t; w2 ← write_float w1 bits; end_tag w2.

Definition write_tagged_bool (w : writer) (t : list Z) (v : bool) : option writer :=
  w1 ← new_tag w t; w2 ← write_bool w1 v; end_tag w2.

Definition write_tagged_string (w : writer) (t s : list Z) : option writer :=
  w1 ← new_tag w t; w2 ← write_string w1 s; end_tag w2.

Definition write_tagged_wide_string (w : writer) (t s : list Z) : option writer :=
  w1 ← new_tag w t; w2 ← write_wide_string w1 s; end_tag w2.

Definition write_tagged_data (w : writer) (t v : list Z) : option writer :=
  w1 ← new_tag w t; end_tag (write_data w1 v).

Definition write_tagged_empty (w : writer) (t : list Z) : option writer :=
  w1 ← new_tag w t; end_tag w1.

Definition write_tagged_vec2 (w : writer) (t : list Z) (x y : Z) : option writer :=
  w1 ← new_tag w t; w2 ← write_float w1 x; w3 ← write_float w2 y; end_tag w3.

(** [close(write_endb)]: the sentinel record is appended unless it is
    switched off. *)
Definition close (w : writer) (write_endb : bool) : option writer :=
  w1 ← end_tag w;
  if write_endb then write_tagged_empty w1 (str "ENDB") else Some w1.

Definition get_data (w : writer) : list Z := wdata w.

End Writer.

(** ** The scene the export reads *)

Inductive export_mode := mode_default | mode_hide | mode_remove | mode_remove_all.

#[export] Instance export_mode_eq_dec : EqDecision export_mode.
Proof. solve_decision. Defined.

(** An object of the collection [VLM.Bake]: its name, the table parts it was
    made from ([vlmSettings.vpx_object], separated by [;]), the sub part
    ([vlmSettings.vpx_subpart]) and whether
    [vlm_utils.is_part_of_bake_category(o, 'movable')] holds. *)
Record bake_object := mk_bake_object {
  bo_name : list Z;
  bo_vpx_object : list Z;
  bo_vpx_subpart : list Z;
  bo_movable : bool
}.

(** An object of the collection [VLM.Lights]. *)
Record light_object := mk_light_object {
  lo_name : list Z;
  lo_vpx_object : list Z
}.

Record scene := mk_scene {
  sc_export_mode : export_mode;
  sc_playfield_col : option (list Z);       (* the name of the playfield collection *)
  sc_bake_col : list bake_object;           (* bake_col.all_objects *)
  sc_light_col : list light_object;         (* light_col.all_objects *)
  sc_light_children : list (list Z * list light_object);
                                            (* light_col.children, by name *)
  sc_enable_vpx_reflection : bool
}.

Definition is_removal_mode (m : export_mode) : bool :=
  bool_decide (m = mode_remove) || bool_decide (m = mode_remove_all).

(** [list(itertools.chain.from_iterable(o.vlmSettings.vpx_object.split(';') ...))] *)
Definition baked_vpx_lights (sc : scene) : list (list Z) :=
  flat_map (fun o => split_on 59 (lo_vpx_object o)) (sc_light_col sc).

Definition baked_vpx_objects (sc : scene) : list (list Z) :=
  flat_map (fun o => split_on 59 (bo_vpx_object o))
           (filter (fun o => bo_movable o = false) (sc_bake_col sc))
  ++ (if sc_playfield_col sc is Some _ then [str "playfield_mesh"] else []).

(** [name in bake_col.all_objects] *)
Definition in_bake_col (sc : scene) (n : list Z) : bool :=
  existsb (fun o => bool_decide (bo_name o = n)) (sc_bake_col sc).

(** [next((o for o in bake_col.all_objects if o.vlmSettings.vpx_object == name
    and o.vlmSettings.vpx_subpart == part), None) is not None] *)
Definition subpart_baked (sc : scene) (name part : list Z) : bool :=
  existsb (fun o => bool_decide (bo_vpx_object o = name)
                    && bool_decide (bo_vpx_subpart o = part)) (sc_bake_col sc).

(** ** The destination container *)

(** The destination storage is opened transacted: the streams created in it
    become the file's content when [Commit] is called.  [CreateStream] with
    [STGM_CREATE] followed by [Write] is recorded as one entry, in order. *)
Record dst_storage := mk_dst {
  dst_gamestg : list (list Z * list Z);
  dst_tableinfo : list (list Z * list Z);
  dst_committed : bool
}.

Definition create_gamestg (d : dst_storage) (name bytes : list Z) : dst_storage :=
  {| dst_gamestg := dst_gamestg d ++ [(name, bytes)];
     dst_tableinfo := dst_tableinfo d; dst_committed := dst_committed d |}.

Definition create_tableinfo (d : dst_storage) (name bytes : list Z) : dst_storage :=
  {| dst_gamestg := dst_gamestg d;
     dst_tableinfo := dst_tableinfo d ++ [(name, bytes)];
     dst_committed := dst_committed d |}.

Definition Commit (d : dst_storage) : dst_storage :=
  {| dst_gamestg := dst_gamestg d; dst_tableinfo := dst_tableinfo d;
     dst_committed := true |}.

(** What a reader of the destination file can see. *)
Definition visible (d : dst_storage)
  : option (list (list Z * list Z) * list (list Z * list Z)) :=
  if dst_committed d then Some (dst_gamestg d, dst_tableinfo d) else None.

(** The decimal digits of [f'{n}'] for a natural number. *)
Definition decimal (n : nat) : list Z := str (pretty n).

(** [f'{prefix}{n}'] *)
Definition indexed (prefix : string) (n : nat) : list Z := str prefix ++ decimal n.

(** ** The item pass (lines 114 to 240) *)

(** The variables the item loop carries from one stream to the next. *)
Record pass_state := mk_pass {
  ps_dst : dst_storage;
  n_game_items : nat;
  used_images : gmap (list Z) (list (list Z));
  removed_images : gmap (list Z) (list (list Z));
  table_lights : list (list Z);
  table_flashers : list (list Z);
  needs_playfield_physics : bool
}.

Definition pass_init (d : dst_storage) : pass_state :=
  {| ps_dst := d; n_game_items := 0; used_images := ∅; removed_images := ∅;
     table_lights := []; table_flashers := []; needs_playfield_physics := true |}.

(** [prefix], the table of the known item kinds. *)
Definition prefix : list string :=
  ["Wall"; "Flipper"; "Timer"; "Plunger"; "Text"; "Bumper"; "Trigger"; "Light";
   "Kicker"; ""; "Gate"; "Spinner"; "Ramp"; "Table"; "LightCenter"; "DragPoint";
   "Collection"; "DispReel"; "LightSeq"; "Prim"; "Flasher"; "Rubber"; "Target"]%string.

(** [if image not in d: d[image] = [name] else: d[image].append(name)] *)
Definition mark_image (d : gmap (list Z) (list (list Z))) (name image : list Z)
  : gmap (list Z) (list (list Z)) :=
  match d !! image with
  | None => <[image := [name]]> d
  | Some l => <[image := l ++ [name]]> d
  end.

Definition mark_images (d : gmap (list Z) (list (list Z))) (name : list Z)
    (images : list (list Z)) : gmap (list Z) (list (list Z)) :=
  foldl (fun d image => mark_image d name image) d images.

Import BIFF.

Definition tag_is (r : reader) (t : string) : bool := bool_decide (tag r = str t).

(** The first loop over the records of an item (lines 139 to 146): the name
    of the item, ['unknown'] without a NAME record. *)
Fixpoint find_name (fuel : nat) (r : reader) : option (option (list Z)) :=
  match fuel with
  | O => None
  | S fuel =>
      if is_eof r then Some None
      else
        r1 ← next r;
        if tag_is r1 "NAME" then
          '(name, _) ← get_wide_string r1; Some (Some name)
        else find_name fuel (skip_tag r1)
  end.

(** What one turn of the second loop has settled when it reaches line 202. *)
Record tag_state := mk_tag_state {
  ts_reader : reader;
  ts_is_physics : bool;
  ts_item_images : list (list Z);
  ts_needs_playfield_physics : bool;
  ts_table_lights : list (list Z);
  ts_table_flashers : list (list Z)
}.

Definition with_reader (s : tag_state) (r : reader) : tag_state :=
  {| ts_reader := r; ts_is_physics := ts_is_physics s;
     ts_item_images := ts_item_images s;
     ts_needs_playfield_physics := ts_needs_playfield_physics s;
     ts_table_lights := ts_table_lights s;
     ts_table_flashers := ts_table_flashers s |}.

Definition with_physics (s : tag_state) (r : reader) (b : bool) : tag_state :=
  {| ts_reader := r; ts_is_physics := b;
     ts_item_images := ts_item_images s;
     ts_needs_playfield_physics := ts_needs_playfield_physics s;
     ts_table_lights := ts_table_lights s;
     ts_table_flashers := ts_table_flashers s |}.

(** The flags of one turn: [reflection_field], [visibility_field],
    [is_part_baked]. *)
Record tag_flags := mk_flags {
  reflection_field : bool;
  visibility_field : bool;
  is_part_baked : bool
}.

Section ItemPass.

Variable sc : scene.

(** The [if]/[elif] chain of lines 153 to 198, on the record [next] has just
    opened. *)
Definition classify_tag (item_type : Z) (name : list Z) (is_baked : bool)
    (s : tag_state) : option (tag_state * tag_flags) :=
  let r := ts_reader s in
  let plain := mk_flags false false is_baked in
  let visible_part b := mk_flags false true b in
  if tag_is r "NAME" then
    if bool_decide (name = str "playfield_mesh")
       && bool_decide (is_Some (sc_playfield_col sc)) then
      r1 ← put_u32 (skip r 24) 0x00680070;
      r2 ← put_u32 r1 0x00730079;
      Some ({| ts_reader := r2; ts_is_physics := ts_is_physics s;
               ts_item_images := ts_item_images s;
               ts_needs_playfield_physics := false;
               ts_table_lights := ts_table_lights s;
               ts_table_flashers := ts_table_flashers s |}, plain)
    else Some (s, plain)
  else if tag_is r "REEN" then Some (s, mk_flags true false is_baked)
  else if tag_is r "CLDR" || tag_is r "CLDW" then
    '(b, r1) ← get_bool r;
    Some (with_physics s r1 b, plain)
  else if tag_is r "ISTO" then
    '(b, r1) ← get_bool r;
    Some (with_physics s r1 (ts_is_physics s && negb b), plain)
  else if tag_is r "IMAG" || tag_is r "SIMG" || tag_is r "IMAB" then
    '(image, r1) ← get_string r;
    Some ({| ts_reader := r1; ts_is_physics := ts_is_physics s;
             ts_item_images := ts_item_images s ++ [image];
             ts_needs_playfield_physics := ts_needs_playfield_physics s;
             ts_table_lights := ts_table_lights s;
             ts_table_flashers := ts_table_flashers s |}, plain)
  else if (item_type =? 0) && tag_is r "VSBL" then Some (s, visible_part is_baked)
  else if (item_type =? 6) && tag_is r "VSBL" then Some (s, plain)
  else if (item_type =? 0) && tag_is r "SVBL" then Some (s, visible_part is_baked)
  else if ((item_type =? 12) || (item_type =? 21)) && tag_is r "RVIS" then
    Some (s, visible_part is_baked)
  else if (item_type =? 10) && tag_is r "GSUP" then
    if in_bake_col sc (str "VPX.Gate.Bracket." ++ name) then
      r1 ← put_bool r false; Some (with_reader s r1, plain)
    else Some (s, plain)
  else if (item_type =? 11) && tag_is r "SSUP" then
    if in_bake_col sc (str "VPX.Spinner.Bracket." ++ name) then
      r1 ← put_bool r false; Some (with_reader s r1, plain)
    else Some (s, plain)
  else if ((item_type =? 19) || (item_type =? 22)) && tag_is r "TVIS" then
    Some (s, visible_part is_baked)
  else if (item_type =? 20) && tag_is r "FVIS" then Some (s, visible_part is_baked)
  else if (item_type =? 5) && tag_is r "CAVI" then
    Some (s, visible_part (subpart_baked sc name (str "Cap")))
  else if (item_type =? 5) && tag_is r "BSVS" then
    Some (s, visible_part (subpart_baked sc name (str "Base")))
  else if (item_type =? 5) && tag_is r "RIVS" then
    Some (s, visible_part (subpart_baked sc name (str "Ring")))
  else if (item_type =? 5) && tag_is r "SKVS" then
    Some (s, visible_part (subpart_baked sc name (str "Socket")))
  else Some (s, plain).

(** Lines 202 to 208: a light item. *)
Definition patch_light (item_type : Z) (name : list Z) (is_baked_light : bool)
    (s : tag_state) : option tag_state :=
  if item_type =? 7 then
    let s1 := {| ts_reader := ts_reader s; ts_is_physics := ts_is_physics s;
                 ts_item_images := ts_item_images s;
                 ts_needs_playfield_physics := ts_needs_playfield_physics s;
                 ts_table_lights := ts_table_lights s ++ [name];
                 ts_table_flashers := ts_table_flashers s |} in
    if is_baked_light then
      if tag_is (ts_reader s1) "BULT" then
        r1 ← put_bool (ts_reader s1) true; Some (with_reader s1 r1)
      else if tag_is (ts_reader s1) "BHHI" then
        r1 ← put_float (ts_reader s1) f32_m2800; Some (with_reader s1 r1)
      else Some s1
    else Some s1
  else Some s.

(** Lines 209 to 214: a flasher item. *)
Definition patch_flasher (item_type : Z) (name : list Z) (is_baked_light : bool)
    (s : tag_state) : option tag_state :=
  if item_type =? 20 then
    let s1 := {| ts_reader := ts_reader s; ts_is_physics := ts_is_physics s;
                 ts_item_images := ts_item_images s;
                 ts_needs_playfield_physics := ts_needs_playfield_physics s;
                 ts_table_lights := ts_table_lights s;
                 ts_table_flashers := ts_table_flashers s ++ [name] |} in
    if is_baked_light && tag_is (ts_reader s1) "FHEI" then
      r1 ← put_float (skip (ts_reader s1) (-4)) f32_m2800; Some (with_reader s1 r1)
    else Some s1
  else Some s.

(** One turn of the second loop, lines 150 to 217. *)
Definition patch_tag (item_type : Z) (name : list Z) (is_baked is_baked_light : bool)
    (s : tag_state) : option tag_state :=
  r ← next (ts_reader s);
  '(s1, fl) ← classify_tag item_type name is_baked (with_reader s r);
  s2 ← patch_light item_type name is_baked_light s1;
  s3 ← patch_flasher item_type name is_baked_light s2;
  s4 ← (if is_part_baked fl && (visibility_field fl || reflection_field fl)
        then r1 ← put_bool (ts_reader s3) false; Some (with_reader s3 r1)
        else Some s3);
  Some (with_reader s4 (skip_tag (ts_reader s4))).

Fixpoint patch_loop (fuel : nat) (item_type : Z) (name : list Z)
    (is_baked is_baked_light : bool) (s : tag_state) : option tag_state :=
  match fuel with
  | O => None
  | S fuel =>
      if is_eof (ts_reader s) then Some s
      else
        s' ← patch_tag item_type name is_baked is_baked_light s;
        patch_loop fuel item_type name is_baked is_baked_light s'
  end.

(** Line 218 and 219: is the item left out of the destination? *)
Definition item_removed (name : list Z) (is_baked is_physics : bool) : bool :=
  (is_removal_mode (sc_export_mode sc) && is_baked && negb is_physics)
  || startswith name (str "VLM.") || bool_decide (name = str "VLMTimer").

(** The body of the loop over the source items, lines 123 to 240, for the
    stream [data0]. *)
Definition process_item (data0 : list Z) (st : pass_state) : option pass_state :=
  let fuel := S (length data0) in
  '(item_type, r0) ← get_32 (BIFF_reader data0);
  if (item_type <? 0) || (Z.of_nat (length prefix) <=? item_type) then
    Some {| ps_dst := create_gamestg (ps_dst st) (indexed "GameItem" (n_game_items st)) data0;
            n_game_items := S (n_game_items st);
            used_images := used_images st; removed_images := removed_images st;
            table_lights := table_lights st; table_flashers := table_flashers st;
            needs_playfield_physics := needs_playfield_physics st |}
  else
    found ← find_name fuel r0;
    let name := default (str "unknown") found in
    let is_baked := if found is Some n then str_in n (baked_vpx_objects sc) else false in
    let is_baked_light := if found is Some n then str_in n (baked_vpx_lights sc) else false in
    '(_, r1) ← get_32 (BIFF_reader data0);
    s ← patch_loop fuel item_type name is_baked is_baked_light
           {| ts_reader := r1; ts_is_physics := true; ts_item_images := [];
              ts_needs_playfield_physics := needs_playfield_physics st;
              ts_table_lights := table_lights st;
              ts_table_flashers := table_flashers st |};
    let remove := item_removed name is_baked (ts_is_physics s) in
    let as_removed := remove || (is_removal_mode (sc_export_mode sc) && is_baked) in
    Some {| ps_dst := if remove then ps_dst st
                      else create_gamestg (ps_dst st)
                             (indexed "GameItem" (n_game_items st)) (data (ts_reader s));
            n_game_items := if remove then n_game_items st else S (n_game_items st);
            used_images := if as_removed then used_images st
                           else mark_images (used_images st) name (ts_item_images s);
            removed_images := if as_removed
                              then mark_images (removed_images st) name (ts_item_images s)
                              else removed_images st;
            table_lights := ts_table_lights s;
            table_flashers := ts_table_flashers s;
            needs_playfield_physics := ts_needs_playfield_physics s |}.

(** The loop over the source items: [items] are the streams [GameItem0],
    [GameItem1], ... that the probe [src_storage.exists] finds, in order. *)
Fixpoint item_pass (items : list (list Z)) (st : pass_state) : option pass_state :=
  match items with
  | [] => Some st
  | d :: items' => st' ← process_item d st; item_pass items' st'
  end.

End ItemPass.

(** ** Streams as lists of records *)

(** A record is its tag and its payload; [encode_record] is the layout the
    reader expects and the writer emits. *)
Definition encode_record (rc : list Z * list Z) : list Z :=
  le32 (4 + len rc.2) ++ rc.1 ++ rc.2.

Definition encode_records (rs : list (list Z * list Z)) : list Z :=
  flat_map encode_record rs.

(** A game item: the item type, then its records. *)
Definition item_bytes (item_type : Z) (rs : list (list Z * list Z)) : list Z :=
  le32 (item_type mod 4294967296) ++ encode_records rs.

(** Payloads of the usual fields. *)
Definition bool_payload (b : bool) : list Z := le32 (if b then 4294967295 else 0).
Definition string_payload (s : list Z) : list Z := le32 (len s) ++ s.
Definition wide_payload (s : list Z) : list Z :=
  le32 (2 * len s) ++ Writer.encode_wide s.

(** ** The image pass (lines 363 to 399) *)

Import BIFF.

(** The first record of the given tag, read as a length-prefixed string
    (lines 366 to 375 for IMAG, lines 384 to 389 for NAME). *)
Fixpoint find_string (fuel : nat) (t : string) (r : reader) : option (option (list Z)) :=
  match fuel with
  | O => None
  | S fuel =>
      if is_eof r then Some None
      else
        r1 ← next r;
        if tag_is r1 t then '(s, _) ← get_string r1; Some (Some s)
        else find_string fuel t (skip_tag r1)
  end.

(** Lines 364 to 375: the playfield image of the source becomes removable
    when a bake takes the place of the playfield. *)
Definition mark_playfield_image (new_playfield_image : option (list Z))
    (game_data : option (list Z)) (removed : gmap (list Z) (list (list Z)))
  : option (gmap (list Z) (list (list Z))) :=
  match new_playfield_image with
  | None => Some removed
  | Some _ =>
      d ← game_data;
      found ← find_string (S (length d)) "IMAG" (BIFF_reader d);
      match found with
      | Some image => Some (mark_image removed (str "PF") image)
      | None => Some removed
      end
  end.

(** Lines 390 and 391: is the image stream left out of the destination? *)
Definition image_removed (mode : export_mode)
    (used removed : gmap (list Z) (list (list Z))) (name : list Z) : bool :=
  startswith name (str "VLM.")
  || (bool_decide (mode = mode_remove_all)
      && bool_decide (used !! name = None)
      && bool_decide (is_Some (removed !! name))).

(** The variables of the image loop. *)
Record image_state := mk_image_state {
  is_dst : dst_storage;
  n_images : nat
}.

(** The body of the loop over the source images, lines 381 to 399. *)
Definition process_image (mode : export_mode)
    (used removed : gmap (list Z) (list (list Z)))
    (data0 : list Z) (st : image_state) : option image_state :=
  found ← find_string (S (length data0)) "NAME" (BIFF_reader data0);
  let name := default (str "unknown") found in
  if image_removed mode used removed name then Some st
  else Some {| is_dst := create_gamestg (is_dst st) (indexed "Image" (n_images st)) data0;
               n_images := S (n_images st) |}.

(** The loop over the source images: [images] are the streams [Image0],
    [Image1], ... that the probe finds, in order. *)
Fixpoint image_pass (mode : export_mode)
    (used removed : gmap (list Z) (list (list Z)))
    (images : list (list Z)) (st : image_state) : option image_state :=
  match images with
  | [] => Some st
  | d :: images' =>
      st' ← process_image mode used removed d st;
      image_pass mode used removed images' st'
  end.

(** ** The new items (lines 242 to 361) *)

Import Writer.

(** [export_name] *)
Definition export_name (object_name : list Z) : list Z :=
  map (fun c => if (c =? 46) || (c =? 32) || (c =? 45) then 95 else c) object_name.

(** The sync timer, lines 243 to 257. *)
Definition timer_item : option (list Z) :=
  w ← write_u32 BIFF_writer 2;
  w ← write_tagged_vec2 w (str "VCEN") f32_0 f32_0;
  w ← write_tagged_bool w (str "TMON") true;
  w ← write_tagged_32 w (str "TMIN") (-1);
  w ← write_tagged_wide_string w (str "NAME") (str "VLMTimer");
  w ← write_tagged_bool w (str "BGLS") false;
  w ← write_tagged_bool w (str "LOCK") true;
  w ← write_tagged_u32 w (str "LAYR") 0;
  w ← write_tagged_string w (str "LANR") (str "VLM.Visuals");
  w ← write_tagged_bool w (str "LVIS") true;
  w ← close w true;
  Some (get_data w).

(** An object of the collection [VLM.Result], as the export reads it.  The
    floats the export computes from the object (position and size divided by
    the global scale, rotation in degrees) are given by their bit patterns;
    [ro_polygons] lists, per polygon and in the order of its loops, the tuple
    [(x, -y, z, nx, -ny, nz, u, 1.0 - v)] of each loop. *)
Record result_object (V : Type) := mk_result_object {
  ro_name : list Z;
  ro_bake_type : list Z;                    (* 'static', 'active', 'lightmap' *)
  ro_bake_sync_trans : list Z;
  ro_bake_sync_light : list Z;
  ro_bake_objects : list Z;
  ro_bake_nestmap : Z;
  ro_is_hdr : bool;                         (* bake_hdr_range > 1.0 *)
  ro_position : Z * Z * Z;
  ro_size : Z * Z * Z;
  ro_rotation : Z * Z * Z;
  ro_polygons : list (list V)
}.
Arguments mk_result_object {V}.
Arguments ro_name {V}. Arguments ro_bake_type {V}.
Arguments ro_bake_sync_trans {V}. Arguments ro_bake_sync_light {V}.
Arguments ro_bake_objects {V}. Arguments ro_bake_nestmap {V}.
Arguments ro_is_hdr {V}. Arguments ro_position {V}. Arguments ro_size {V}.
Arguments ro_rotation {V}. Arguments ro_polygons {V}.

(** [a < b] on strings, by code units. *)
Fixpoint str_ltb (a b : list Z) : bool :=
  match a, b with
  | _, [] => false
  | [], _ :: _ => true
  | x :: a', y :: b' => (x <? y) || ((x =? y) && str_ltb a' b')
  end.

(** [sorted(l, key=key)]: a stable sort.  The elements are put in place from
    the last one to the first one, each in front of the elements already
    there whose key is not smaller: elements of the same key keep the order
    they had. *)
Fixpoint insert_by {A} (key : A -> list Z) (x : A) (l : list A) : list A :=
  match l with
  | [] => [x]
  | y :: l' => if str_ltb (key y) (key x) then y :: insert_by key x l' else x :: l
  end.

Definition sorted_by {A} (key : A -> list Z) (l : list A) : list A :=
  foldr (insert_by key) [] l.

(** The state of the loop that removes duplicate vertices, lines 310 to 331. *)
Record mesh_state (V : Type) := mk_mesh {
  indices : list Z;
  vertices : list V;
  vert_dict : list (V * Z);
  n_vertices : Z
}.
Arguments mk_mesh {V}. Arguments indices {V}. Arguments vertices {V}.
Arguments vert_dict {V}. Arguments n_vertices {V}.

Section Synthesis.

(** The vertex tuples, the equality the dictionary [vert_dict] compares its
    keys with, [struct.pack('<8f', *vertex)] and [zlib.compress]. *)
Variable V : Type.
Variable vertex_eqb : V -> V -> bool.
Variable pack_vertex : V -> option (list Z).
Variable compress : list Z -> list Z.

Variable sc : scene.

(** [vert_dict.get(vertex, None)] *)
Definition dict_get (d : list (V * Z)) (vertex : V) : option Z :=
  snd <$> find (fun kv => vertex_eqb (fst kv) vertex) d.

(** Lines 319 to 331, for one loop. *)
Definition add_vertex (m : mesh_state V) (vertex : V) : mesh_state V :=
  match dict_get (vert_dict m) vertex with
  | None =>
      {| indices := indices m ++ [n_vertices m];
         vertices := vertices m ++ [vertex];
         vert_dict := vert_dict m ++ [(vertex, n_vertices m)];
         n_vertices := n_vertices m + 1 |}
  | Some existing_index =>
      {| indices := indices m ++ [existing_index];
         vertices := vertices m; vert_dict := vert_dict m;
         n_vertices := n_vertices m |}
  end.

(** Lines 315 to 331, for one polygon. *)
Definition add_polygon (m : mesh_state V) (poly : list V) : mesh_state V :=
  if bool_decide (length poly = 3%nat) then foldl add_vertex m (reverse poly) else m.

Definition build_mesh (polygons : list (list V)) : mesh_state V :=
  foldl add_polygon {| indices := []; vertices := []; vert_dict := []; n_vertices := 0 |}
        polygons.

(** [struct.pack(f'<{n}I', *indices)] and [struct.pack(f'<{n}H', *indices)] *)
Definition pack_indices (wide : bool) (l : list Z) : option (list Z) :=
  (fun b => concat b) <$> mapM (if wide then pack_u32 else pack_u16) l.

(** Lines 342 to 347: the packed and compressed index buffer. *)
Definition compressed_indices (m : mesh_state V) : option (list Z) :=
  if 65535 <? n_vertices m
  then compress <$> pack_indices true (indices m)
  else compress <$> pack_indices false (indices m).

(** Line 337: the packed and compressed vertex buffer. *)
Definition compressed_vertices (m : mesh_state V) : option (list Z) :=
  (fun b => compress (concat b)) <$> mapM pack_vertex (vertices m).

(** Lines 335 to 349. *)
Definition write_mesh (w : writer) (m : mesh_state V) : option writer :=
  w ← write_tagged_u32 w (str "M3VN") (n_vertices m);
  cv ← compressed_vertices m;
  w ← write_tagged_u32 w (str "M3CY") (len cv);
  w ← write_tagged_data w (str "M3CX") cv;
  w ← write_tagged_u32 w (str "M3FN") (len (indices m));
  ci ← compressed_indices m;
  w ← write_tagged_u32 w (str "M3CJ") (len ci);
  write_tagged_data w (str "M3CI") ci.

Definition write_tagged_padded_vector (w : writer) (t : list Z) (v : Z * Z * Z)
  : option writer :=
  w ← new_tag w t;
  w ← write_float w v.1.1; w ← write_float w v.1.2; w ← write_float w v.2;
  w ← write_float w f32_0;
  end_tag w.

Definition is_light (obj : result_object V) : bool :=
  bool_decide (ro_bake_type obj = str "lightmap").

Definition is_playfield (obj : result_object V) : bool :=
  match sc_playfield_col sc with
  | Some playfield_name =>
      negb (is_light obj) && bool_decide (ro_bake_objects obj = playfield_name)
  | None => false
  end.

Definition packmap_name (nestmap : Z) : list Z :=
  str "VLM.Packmap" ++ str (pretty nestmap).

(** Lines 262 to 358: the record of one bake. *)
Definition bake_item (obj : result_object V) : option (list Z) :=
  let is_active := bool_decide (ro_bake_type obj = str "active") in
  let is_static := bool_decide (ro_bake_type obj = str "static") in
  w ← write_u32 BIFF_writer 19;
  w ← write_tagged_padded_vector w (str "VPOS") (ro_position obj);
  w ← write_tagged_padded_vector w (str "VSIZ") (ro_size obj);
  w ← write_tagged_float w (str "RTV0") (ro_rotation obj).1.1;
  w ← write_tagged_float w (str "RTV1") (ro_rotation obj).1.2;
  w ← write_tagged_float w (str "RTV2") (ro_rotation obj).2;
  w ← write_tagged_float w (str "RTV3") f32_0;
  w ← write_tagged_float w (str "RTV4") f32_0;
  w ← write_tagged_float w (str "RTV5") f32_0;
  w ← write_tagged_float w (str "RTV6") f32_0;
  w ← write_tagged_float w (str "RTV7") f32_0;
  w ← write_tagged_float w (str "RTV8") f32_0;
  w ← write_tagged_string w (str "IMAG") (packmap_name (ro_bake_nestmap obj));
  w ← write_tagged_string w (str "NRMA") [];
  w ← write_tagged_u32 w (str "SIDS") 4;
  w ← write_tagged_wide_string w (str "NAME")
        (if is_playfield obj then str "playfield_mesh" else export_name (ro_name obj));
  w ← write_tagged_string w (str "MATR")
        (if is_light obj then str "VLM.Lightmap"
         else if is_active then str "VLM.Bake.Active" else str "VLM.Bake.Solid");
  w ← write_tagged_u32 w (str "SCOL") 0xFFFFFF;
  w ← write_tagged_bool w (str "TVIS") true;
  w ← write_tagged_bool w (str "DTXI") false;
  w ← write_tagged_bool w (str "HTEV") false;
  w ← write_tagged_float w (str "THRS") 0x40000000;
  w ← write_tagged_float w (str "ELAS") 0x3E99999A;
  w ← write_tagged_float w (str "ELFO") f32_0;
  w ← write_tagged_float w (str "RFCT") f32_0;
  w ← write_tagged_float w (str "RSCT") f32_0;
  w ← write_tagged_float w (str "EFUI") f32_0;
  w ← write_tagged_float w (str "CORF") f32_0;
  w ← write_tagged_bool w (str "CLDR") false;
  w ← write_tagged_bool w (str "ISTO") true;
  w ← write_tagged_bool w (str "U3DM") true;
  w ← write_tagged_bool w (str "STRE") is_static;
  w ← write_tagged_u32 w (str "DILI") 255;
  w ← write_tagged_float w (str "DILB") f32_1;
  w ← write_tagged_bool w (str "REEN")
        (negb (is_playfield obj) && sc_enable_vpx_reflection sc);
  w ← write_tagged_bool w (str "EBFC") false;
  w ← write_tagged_string w (str "MAPH") [];
  w ← write_tagged_bool w (str "OVPH") false;
  w ← write_tagged_bool w (str "DIPT") false;
  w ← write_tagged_bool w (str "OSNM") false;
  w ← write_tagged_string w (str "M3DN") (str "VLM." ++ ro_name obj);
  w ← write_mesh w (build_mesh (ro_polygons obj));
  w ← write_tagged_float w (str "PIDB")
        (if is_playfield obj then f32_0
         else if is_light obj then 0xC47A0000 else 0x447A0000);
  w ← write_tagged_bool w (str "ADDB") (is_light obj);
  w ← write_tagged_float w (str "FALP") 0x42C80000;
  w ← write_tagged_u32 w (str "COLR") 0xFFFFFF;
  w ← write_tagged_bool w (str "LOCK") true;
  w ← write_tagged_bool w (str "LVIS") true;
  w ← write_tagged_u32 w (str "LAYR") 0;
  w ← write_tagged_string w (str "LANR") (str "VLM.Visuals");
  w ← close w true;
  Some (get_data w).

(** The order of line 261: [f'{bake_type == "lightmap"}-{name}']. *)
Definition bake_sort_key (obj : result_object V) : list Z :=
  (if is_light obj then str "True" else str "False") ++ str "-" ++ ro_name obj.

(** The variables of the loop over the bakes. *)
Record bake_state := mk_bake_state {
  bs_dst : dst_storage;
  bs_n_game_items : nat;
  new_playfield_image : option (list Z)
}.

Definition add_bake (obj : result_object V) (st : bake_state) : option bake_state :=
  b ← bake_item obj;
  Some {| bs_dst := create_gamestg (bs_dst st) (indexed "GameItem" (bs_n_game_items st)) b;
          bs_n_game_items := S (bs_n_game_items st);
          new_playfield_image :=
            if is_playfield obj then Some (packmap_name (ro_bake_nestmap obj))
            else new_playfield_image st |}.

Fixpoint add_bakes (objs : list (result_object V)) (st : bake_state) : option bake_state :=
  match objs with
  | [] => Some st
  | obj :: objs' => st' ← add_bake obj st; add_bakes objs' st'
  end.

End Synthesis.

(** ** The script patch (lines 491 to 640) *)

(** The text functions of Python the patch uses, on characters of the
    latin-1 range (the script is read from a byte string). *)
Definition is_space (c : Z) : bool :=
  ((9 <=? c) && (c <=? 13)) || ((28 <=? c) && (c <=? 32)) || (c =? 133) || (c =? 160).

Definition is_digit (c : Z) : bool := (48 <=? c) && (c <=? 57).

(** The line boundaries of [str.splitlines]. *)
Definition is_line_end (c : Z) : bool :=
  ((10 <=? c) && (c <=? 13)) || ((28 <=? c) && (c <=? 30)) || (c =? 133).

(** [s.splitlines()]: a line feed behind a carriage return ends the same line. *)
Fixpoint splitlines_from (cur : list Z) (s : list Z) : list (list Z) :=
  match s with
  | [] => if bool_decide (cur = []) then [] else [cur]
  | c :: s' =>
      if is_line_end c then
        match c, s' with
        | 13, 10 :: s'' => cur :: splitlines_from [] s''
        | _, _ => cur :: splitlines_from [] s'
        end
      else splitlines_from (cur ++ [c]) s'
  end.

Definition splitlines (s : list Z) : list (list Z) := splitlines_from [] s.

(** [s.strip()] *)
Fixpoint lstrip (s : list Z) : list Z :=
  match s with
  | c :: s' => if is_space c then lstrip s' else s
  | [] => []
  end.

Definition strip (s : list Z) : list Z := reverse (lstrip (reverse (lstrip s))).

(** The longest prefix of characters that satisfy [p], and the rest. *)
Fixpoint span (p : Z -> bool) (s : list Z) : list Z * list Z :=
  match s with
  | c :: s' => if p c then let '(a, b) := span p s' in (c :: a, b) else ([], s)
  | [] => ([], [])
  end.

(** [re.match] of a line against the pattern of lines 555 and 556: the
    keyword, then three comma-ended groups (two of characters other than a
    comma, one of digits), then True or False, with white space allowed in
    front of each group.  Every starred item of the pattern is greedy and
    nothing it could give back lets the next item match, so the groups are
    where the first walk puts them. *)
Definition match_update (keyword : string) (line : list Z)
  : option (list Z * list Z * list Z * list Z) :=
  if startswith line (str keyword) then
    let rest := lstrip (drop (length (str keyword)) line) in
    let '(vpx_ref, rest) := span (fun c => negb (c =? 44)) rest in
    match rest with
    | 44 :: rest =>
        let '(obj_ref, rest) := span (fun c => negb (c =? 44)) (lstrip rest) in
        match rest with
        | 44 :: rest =>
            let '(intensity, rest) := span is_digit (lstrip rest) in
            match rest with
            | 44 :: rest =>
                let rest := lstrip rest in
                if startswith rest (str "True")
                then Some (vpx_ref, obj_ref, intensity, str "True")
                else if startswith rest (str "False")
                then Some (vpx_ref, obj_ref, intensity, str "False")
                else None
            | _ => None
            end
        | _ => None
        end
    | _ => None
    end
  else None.

(** An entry of [updates]: the table element to follow ([None] without one),
    the mode, the lightmap and [sync_color]; the brightness is 1.0 in every
    entry. *)
Record update := mk_update {
  u_vpx_ref : option (list Z);
  u_mode : Z;
  u_obj_ref : list Z;
  u_sync_color : bool
}.

#[export] Instance update_eq_dec : EqDecision update.
Proof. solve_decision. Defined.

Definition quote : list Z := [34].
Definition nl : list Z := [10].
Definition tab : list Z := [9].

(** [elem_ref] *)
Definition elem_ref (name : list Z) : list Z :=
  let name := if 31 <? len name then take 31 name else name in
  if bool_decide (32 ∈ name) || bool_decide (46 ∈ name)
  then str "GetElementByName(" ++ quote ++ name ++ quote ++ str ")"
  else name.

Definition py_bool (b : bool) : list Z := if b then str "True" else str "False".

(** [push_update], with the intensity already formatted; a missing
    [vpx_ref] prints as [None]. *)
Definition push_update (mode : Z) (vpx_ref : option (list Z)) (obj_ref intensity : list Z)
    (sync_color : bool) : list Z :=
  let ref := default (str "None") vpx_ref in
  if mode =? 0 then
    tab ++ str "UpdateLightMapFromLight " ++ ref ++ str ", " ++ obj_ref ++ str ", "
        ++ intensity ++ str ", " ++ py_bool sync_color ++ nl
  else if mode =? 1 then
    tab ++ str "UpdateLightMapFromFlasher " ++ ref ++ str ", " ++ obj_ref ++ str ", "
        ++ intensity ++ str ", " ++ py_bool sync_color ++ nl
  else tab ++ obj_ref ++ str ".Visible = False" ++ nl.

(** [f'{100 * upd[4]}'] for the brightness 1.0 *)
Definition computed_intensity : list Z := str "100.0".

Definition push_updates (updates : list update) : list Z :=
  flat_map (fun u => push_update (u_mode u) (u_vpx_ref u) (u_obj_ref u)
                                 computed_intensity (u_sync_color u)) updates.

(** [updates.remove(upd)] *)
Fixpoint remove_first (u : update) (l : list update) : list update :=
  match l with
  | [] => []
  | x :: l' => if bool_decide (x = u) then l' else x :: remove_first u l'
  end.

(** What a step of the patch gives: a value, or the exception that ends the
    export.  [OutOfFuel] is no exception of Python: it marks a loop of this
    model that was not given turns enough. *)
Inductive exn :=
  | AttributeError
  | IndexError
  | UnboundLocalError
  | ReadError           (* raised by the reader, the writer or [struct] *)
  | OutOfFuel.

Inductive py (A : Type) :=
  | Ret (a : A)
  | Raise (e : exn).
Arguments Ret {A}. Arguments Raise {A}.

Definition py_bind {A B} (m : py A) (f : A -> py B) : py B :=
  match m with
  | Ret a => f a
  | Raise e => Raise e
  end.

Definition lift {A} (o : option A) : py A :=
  match o with
  | Some a => Ret a
  | None => Raise ReadError
  end.

Definition bound {A} (o : option A) : py A :=
  match o with
  | Some a => Ret a
  | None => Raise UnboundLocalError
  end.

Record script_state := mk_script_state {
  code : list Z;
  in_block : Z;
  updates : list update;
  sync_updated : bool;
  lampz_updated : bool;
  move_updated : bool
}.

Definition append_code (s : script_state) (text : list Z) : script_state :=
  {| code := code s ++ text; in_block := in_block s; updates := updates s;
     sync_updated := sync_updated s; lampz_updated := lampz_updated s;
     move_updated := move_updated s |}.

Definition set_block (s : script_state) (b : Z) : script_state :=
  {| code := code s; in_block := b; updates := updates s;
     sync_updated := sync_updated s; lampz_updated := lampz_updated s;
     move_updated := move_updated s |}.

Section Script.

Variable V : Type.

(** [vlm_utils.is_rgb_led] *)
Variable is_rgb_led : list light_object -> bool.

Variable sc : scene.
Variable result_col : list (result_object V).
Variable lights flashers : list (list Z).    (* table_lights, table_flashers *)

Definition first_part (vpx_object : list Z) : list Z :=
  default [] (head (split_on 59 vpx_object)).

(** Lines 515 to 537, for one lightmap without a movable part. *)
Definition update_of (obj : result_object V) : py update :=
  let obj_ref := elem_ref (export_name (ro_name obj)) in
  let hidden := mk_update None 2 obj_ref false in
  let linked : py (option (list Z * bool)) :=
    match find (fun c => bool_decide (c.1 = ro_bake_sync_light obj)) (sc_light_children sc) with
    | Some (_, baked_lights) =>
        match baked_lights with
        | [] => Raise IndexError
        | l :: _ => Ret (Some (first_part (lo_vpx_object l), is_rgb_led baked_lights))
        end
    | None =>
        match find (fun l => bool_decide (lo_name l = ro_bake_sync_light obj)) (sc_light_col sc) with
        | Some baked_light =>
            Ret (Some (first_part (lo_vpx_object baked_light), is_rgb_led [baked_light]))
        | None => Ret None
        end
    end in
  py_bind linked (fun l =>
    match l with
    | None => Ret hidden
    | Some (vpx_name, sync_color) =>
        if bool_decide (vpx_name = []) then Ret hidden
        else if str_in vpx_name lights
        then Ret (mk_update (Some (elem_ref vpx_name)) 0 obj_ref sync_color)
        else if str_in vpx_name flashers
        then Ret (mk_update (Some (elem_ref vpx_name)) 1 obj_ref sync_color)
        else Ret hidden
    end).

Fixpoint initial_updates (objs : list (result_object V)) : py (list update) :=
  match objs with
  | [] => Ret []
  | obj :: objs' =>
      if bool_decide (ro_bake_type obj = str "lightmap")
         && bool_decide (ro_bake_sync_trans obj = [])
      then py_bind (update_of obj) (fun u =>
           py_bind (initial_updates objs') (fun us => Ret (u :: us)))
      else initial_updates objs'
  end.

(** Lines 512 and 513 *)
Definition lightmaps : list (result_object V) :=
  sorted_by ro_bake_sync_light
    (filter (fun obj => ro_bake_type obj = str "lightmap") result_col).

Definition movables : list (result_object V) :=
  sorted_by ro_bake_sync_trans
    (filter (fun obj => ro_bake_sync_trans obj ≠ []) result_col).

Definition lampz_lines : list Z :=
  flat_map (fun obj => tab ++ str "Lampz.Callback(0) = " ++ quote ++ str "UpdateLightMap "
                       ++ elem_ref (export_name (ro_name obj)) ++ str ", 100, " ++ quote ++ nl)
           lightmaps.

Definition movable_lines : list Z :=
  flat_map (fun obj => tab ++ elem_ref (export_name (ro_name obj)) ++ str ".RotZ = 0" ++ nl)
           movables.

(** Lines 555 to 573: a line inside of [Sub VLMTimer_Timer] that is not its
    end.  A statement that matches one of the updates reaches line 568, where
    [math.abs] is looked up: the module [math] has no such attribute. *)
Definition sync_statement (line line_stripped : list Z) (s : script_state)
  : py script_state :=
  let groups :=
    match match_update "UpdateLightMapFromLight" line_stripped with
    | Some g => Some g
    | None => match_update "UpdateLightMapFromFlasher" line_stripped
    end in
  match groups with
  | Some (vpx_ref, obj_ref, intensity, sync_color) =>
      if bool_decide (vpx_ref = []) then Ret (append_code s (line ++ nl))
      else
        match find (fun u => bool_decide (u_vpx_ref u = Some vpx_ref)) (updates s) with
        | Some upd => Raise AttributeError
        | None => Ret (append_code s (str "  ' " ++ line_stripped ++ nl))
        end
  | None => Ret (append_code s (line ++ nl))
  end.

(** Lines 544 to 591: one line of the script. *)
Definition script_line (line : list Z) (s : script_state) : py script_state :=
  let line_stripped := strip line in
  if (in_block s =? 0) && startswith line_stripped (str "Sub VLMTimer_Timer") then
    Ret {| code := code s; in_block := 1; updates := updates s;
           sync_updated := true; lampz_updated := lampz_updated s;
           move_updated := move_updated s |}
  else if in_block s =? 1 then
    if startswith line_stripped (str "End Sub") then
      Ret (append_code (set_block s 0) (push_updates (updates s) ++ str "End Sub" ++ nl))
    else sync_statement line line_stripped s
  else if (in_block s =? 0) && startswith line_stripped (str "Sub VLMLampzHelper") then
    Ret {| code := code s; in_block := 3; updates := updates s;
           sync_updated := sync_updated s; lampz_updated := true;
           move_updated := move_updated s |}
  else if in_block s =? 3 then
    if startswith line_stripped (str "End Sub")
    then Ret (set_block (append_code s (lampz_lines ++ str "End Sub" ++ nl)) 0)
    else Ret s
  else if (in_block s =? 0) && startswith line_stripped (str "Sub VLMMovableHelper") then
    Ret {| code := code s; in_block := 4; updates := updates s;
           sync_updated := sync_updated s; lampz_updated := true;
           move_updated := move_updated s |}
  else if in_block s =? 4 then
    if startswith line_stripped (str "End Sub")
    then Ret (set_block (append_code s (movable_lines ++ str "End Sub" ++ nl)) 0)
    else Ret s
  else Ret s.

Fixpoint script_lines (lines : list (list Z)) (s : script_state) : py script_state :=
  match lines with
  | [] => Ret s
  | line :: lines' => py_bind (script_line line s) (script_lines lines')
  end.

(** The text of lines 593 to 627, behind the remaining updates. *)
Definition sync_header : list Z :=
  nl ++ nl
  ++ str "' ===============================================================" ++ nl
  ++ str "' ZVLM       Virtual Pinball X Light Mapper generated code" ++ nl
  ++ str "' ===============================================================" ++ nl
  ++ str "' Warning: Only intensity will be preserved if edited and re-exported" ++ nl
  ++ str "Sub VLMTimer_Timer" ++ nl.

Definition sync_footer : list Z :=
  str "End Sub" ++ nl ++ nl
  ++ str "Function LightTemperature(light, is_on, percent)" ++ nl
  ++ tab ++ str "If is_on Then" ++ nl
  ++ tab ++ tab ++ str "LightTemperature = percent*percent*(3 - 2*percent) ' Smoothstep" ++ nl
  ++ tab ++ str "Else" ++ nl
  ++ tab ++ tab ++ str "LightTemperature = 1 - Sqr(1 - percent*percent) ' " ++ nl
  ++ tab ++ str "End If" ++ nl
  ++ str "End Function" ++ nl ++ nl
  ++ str "Sub UpdateLightMapFromFlasher(flasher, lightmap, intensity_scale, sync_color)" ++ nl
  ++ tab ++ str "If flasher.Visible Then" ++ nl
  ++ tab ++ tab ++ str "If sync_color Then lightmap.Color = flasher.Color" ++ nl
  ++ tab ++ tab
  ++ str "lightmap.Opacity = intensity_scale * flasher.IntensityScale * flasher.Opacity / 1000.0"
  ++ nl
  ++ tab ++ str "    lightmap.Visible = lightmap.Opacity > 0.1" ++ nl
  ++ tab ++ str "Else" ++ nl
  ++ tab ++ tab ++ str "lightmap.Opacity = 0" ++ nl
  ++ tab ++ str "    lightmap.Visible = False" ++ nl
  ++ tab ++ str "End If" ++ nl
  ++ str "End Sub" ++ nl ++ nl
  ++ str "Sub UpdateLightMapFromLight(light, lightmap, intensity_scale, sync_color)" ++ nl
  ++ tab ++ str "light.FadeSpeedUp = light.Intensity / 50 '100" ++ nl
  ++ tab ++ str "light.FadeSpeedDown = light.Intensity / 200" ++ nl
  ++ tab ++ str "If sync_color Then lightmap.Color = light.Colorfull" ++ nl
  ++ tab
  ++ str "Dim t: t = LightTemperature(light, light.GetInPlayStateBool(), light.GetInPlayIntensity() / light.Intensity)"
  ++ nl
  ++ tab ++ str "'Dim t: t = light.GetCurrentIntensity() / light.Intensity" ++ nl
  ++ tab ++ str "lightmap.Opacity = intensity_scale * light.IntensityScale * t" ++ nl
  ++ tab ++ str "lightmap.Visible = lightmap.Opacity > 0.1" ++ nl
  ++ str "End Sub" ++ nl ++ nl.

(** Lines 497 to 637: the script after the patch. *)
Definition patch_script (code0 : list Z) : py (list Z) :=
  py_bind (initial_updates result_col) (fun upd0 =>
  py_bind (script_lines (splitlines code0)
             {| code := code0; in_block := 0; updates := upd0; sync_updated := false;
                lampz_updated := false; move_updated := false |}) (fun s =>
  let c := code s in
  let c := if sync_updated s then c
           else c ++ sync_header ++ push_updates (updates s) ++ sync_footer in
  let c := if lampz_updated s then c
           else c ++ nl ++ nl ++ str "Sub VLMLampzHelper" ++ nl ++ lampz_lines
                  ++ str "End Sub" ++ nl in
  let c := if move_updated s then c
           else c ++ nl ++ nl ++ str "Sub VLMMovableHelper" ++ nl ++ movable_lines
                  ++ str "End Sub" ++ nl in
  Ret c)).

End Script.

(** ** The patch of GameData (lines 450 to 717) *)

Notation "x ←← y ; z" := (py_bind y (fun x => z))
  (at level 20, y at level 100, z at level 200, only parsing).

(** [s.rstrip('\x00')] *)
Fixpoint drop_zeros (l : list Z) : list Z :=
  match l with
  | 0 :: l' => drop_zeros l'
  | _ => l
  end.

Definition rstrip0 (s : list Z) : list Z := reverse (drop_zeros (reverse s)).

(** The variables of the loop over the records of GameData; a position or a
    count is [None] until its record was met. *)
Record gd_state := mk_gd {
  gd_reader : reader;
  has_solid_bake_mat : bool;
  has_active_bake_mat : bool;
  has_light_mat : bool;
  masi_pos : option Z;
  n_materials : option Z;
  mate_pos : option Z;
  phma_pos : option Z
}.

Definition gd_with_reader (s : gd_state) (r : reader) : gd_state :=
  {| gd_reader := r; has_solid_bake_mat := has_solid_bake_mat s;
     has_active_bake_mat := has_active_bake_mat s; has_light_mat := has_light_mat s;
     masi_pos := masi_pos s; n_materials := n_materials s;
     mate_pos := mate_pos s; phma_pos := phma_pos s |}.

(** Lines 480 to 488: the names of the material table. *)
Fixpoint scan_materials (n : nat) (s : gd_state) : option gd_state :=
  match n with
  | O => Some s
  | S n' =>
      '(raw, r1) ← get_str (gd_reader s) 32;
      let name := rstrip0 raw in
      let s1 :=
        if bool_decide (name = str "VLM.Bake.Solid") then
          {| gd_reader := skip r1 (11 * 4); has_solid_bake_mat := true;
             has_active_bake_mat := has_active_bake_mat s; has_light_mat := has_light_mat s;
             masi_pos := masi_pos s; n_materials := n_materials s;
             mate_pos := mate_pos s; phma_pos := phma_pos s |}
        else if bool_decide (name = str "VLM.Bake.Active") then
          {| gd_reader := skip r1 (11 * 4); has_solid_bake_mat := has_solid_bake_mat s;
             has_active_bake_mat := true; has_light_mat := has_light_mat s;
             masi_pos := masi_pos s; n_materials := n_materials s;
             mate_pos := mate_pos s; phma_pos := phma_pos s |}
        else if bool_decide (name = str "VLM.Light") then
          {| gd_reader := skip r1 (11 * 4); has_solid_bake_mat := has_solid_bake_mat s;
             has_active_bake_mat := has_active_bake_mat s; has_light_mat := true;
             masi_pos := masi_pos s; n_materials := n_materials s;
             mate_pos := mate_pos s; phma_pos := phma_pos s |}
        else gd_with_reader s (skip r1 (11 * 4)) in
      scan_materials n' s1
  end.

(** Lines 465 to 470 and 472 to 477: the record that takes the place of the
    current one. *)
Definition replace_string_record (r : reader) (t : string) (s : list Z) : option reader :=
  wr ← new_tag BIFF_writer (str t);
  wr ← write_string wr s;
  wr ← close wr false;
  r1 ← delete_tag r;
  insert_data r1 (get_data wr).

Section GameData.

(** [n_images], [n_game_items] and [new_playfield_image] as the passes left
    them, and the patch of the script. *)
Variable images_written items_written : nat.
Variable playfield_image : option (list Z).
Variable script : list Z -> py (list Z).

(** Lines 456 to 490: the [if]/[elif] chain on the record [next] opened. *)
Definition gd_chain (s : gd_state) : py gd_state :=
  let r := gd_reader s in
  if tag_is r "SIMG" then
    r1 ←← lift (put_u32 r (Z.of_nat images_written)); Ret (gd_with_reader s r1)
  else if tag_is r "SEDT" then
    r1 ←← lift (put_u32 r (Z.of_nat items_written)); Ret (gd_with_reader s r1)
  else if tag_is r "MASI" then
    p ←← lift (get_u32 r);
    Ret {| gd_reader := p.2; has_solid_bake_mat := has_solid_bake_mat s;
           has_active_bake_mat := has_active_bake_mat s; has_light_mat := has_light_mat s;
           masi_pos := Some (pos r); n_materials := Some p.1;
           mate_pos := mate_pos s; phma_pos := phma_pos s |}
  else if tag_is r "IMAG" then
    match playfield_image with
    | Some image =>
        r1 ←← lift (replace_string_record r "IMAG" image); Ret (gd_with_reader s r1)
    | None => Ret s
    end
  else if tag_is r "PLMA" then
    r1 ←← lift (replace_string_record r "PLMA" (str "VLM.Bake.Active"));
    Ret (gd_with_reader s r1)
  else if tag_is r "MATE" then
    n ←← bound (n_materials s);
    lift (scan_materials (Z.to_nat n)
            {| gd_reader := r; has_solid_bake_mat := has_solid_bake_mat s;
               has_active_bake_mat := has_active_bake_mat s;
               has_light_mat := has_light_mat s;
               masi_pos := masi_pos s; n_materials := n_materials s;
               mate_pos := Some (pos r); phma_pos := phma_pos s |})
  else if tag_is r "PHMA" then
    Ret {| gd_reader := r; has_solid_bake_mat := has_solid_bake_mat s;
           has_active_bake_mat := has_active_bake_mat s; has_light_mat := has_light_mat s;
           masi_pos := masi_pos s; n_materials := n_materials s;
           mate_pos := mate_pos s; phma_pos := Some (pos r) |}
  else Ret s.

(** Lines 491 to 495 and 638 to 642: the script record, or the skip to the
    next record. *)
Definition gd_code (s : gd_state) : py gd_state :=
  let r := gd_reader s in
  if tag_is r "CODE" then
    let code_pos := pos r in
    p ←← lift (get_string r);
    r1 ←← lift (delete_bytes (set_pos p.2 code_pos) (len p.1 + 4));
    c ←← script p.1;
    wr ←← lift (write_string BIFF_writer c);
    r2 ←← lift (insert_data r1 (get_data wr));
    Ret (gd_with_reader s r2)
  else Ret (gd_with_reader s (skip_tag r)).

Fixpoint gd_loop (fuel : nat) (s : gd_state) : py gd_state :=
  match fuel with
  | O => Raise OutOfFuel
  | S fuel =>
      if is_eof (gd_reader s) then Ret s
      else
        r ←← lift (next (gd_reader s));
        s1 ←← gd_chain (gd_with_reader s r);
        s2 ←← gd_code s1;
        gd_loop fuel s2
  end.

(** The 32 bytes of a material name. *)
Definition padded_name (name : string) : list Z :=
  str name ++ replicate (32 - String.length name) 0.

(** Lines 649 to 665, 668 to 684 and 687 to 703: the record of a material in
    the table of the materials and in the table of their physics. *)
Definition material_record (name : string) (active_edge_alpha : Z) : option (list Z) :=
  let wr := write_data BIFF_writer (padded_name name) in
  wr ← write_u32 wr 0x7F7F7F;
  wr ← write_u32 wr 0x000000;
  wr ← write_u32 wr 0x000000;
  wr ← write_float wr f32_0;
  wr ← write_bool wr false;
  wr ← write_float wr f32_0;
  wr ← write_u32 wr 0;
  wr ← write_float wr f32_0;
  wr ← write_u32 wr 0x0c;
  wr ← write_float wr f32_1;
  wr ← write_u32 wr active_edge_alpha;
  Some (get_data wr).

Definition physics_record (name : string) : option (list Z) :=
  let pr := write_data BIFF_writer (padded_name name) in
  pr ← write_float pr f32_0;
  pr ← write_float pr f32_0;
  pr ← write_float pr f32_0;
  pr ← write_float pr f32_0;
  Some (get_data pr).

(** The materials lines 644 to 703 add: the names, in order. *)
Definition materials_to_add (s : gd_state) : list (string * Z) :=
  (if has_solid_bake_mat s then [] else [("VLM.Bake.Solid"%string, 0)])
  ++ (if has_active_bake_mat s then [] else [("VLM.Bake.Active"%string, 1)])
  ++ (if has_light_mat s then [] else [("VLM.Lightmap"%string, 1)]).

Definition n_material_to_add (s : gd_state) : Z := len (map snd (materials_to_add s)).

(** Lines 643 to 717: the counts and the two tables after the loop. *)
Definition add_materials (s : gd_state) : py (list Z) :=
  wr ←← lift (mapM (fun m => material_record m.1 m.2) (materials_to_add s));
  pr ←← lift (mapM (fun m => physics_record m.1) (materials_to_add s));
  let wr := concat wr in
  let pr := concat pr in
  masi ←← bound (masi_pos s);
  n ←← bound (n_materials s);
  r ←← lift (put_u32 (set_pos (gd_reader s) masi) (n + n_material_to_add s));
  mate ←← bound (mate_pos s);
  r ←← lift (put_u32 (set_pos r (mate - 8)) ((n + n_material_to_add s) * 76 + 4));
  d ←← lift (insert_at (data r) mate wr);
  phma ←← bound (phma_pos s);
  let phma := if mate <? phma then phma + len wr else phma in
  r ←← lift (put_u32 (set_pos (mk_reader d (pos r) (bytes_in_record_remaining r) (tag r))
                              (phma - 8))
                     ((n + n_material_to_add s) * 48 + 4));
  lift (insert_at (data r) phma pr).

(** Lines 450 to 717. *)
Definition patch_game_data (data0 : list Z) : py (list Z) :=
  s ←← gd_loop (S (length data0))
         {| gd_reader := BIFF_reader data0; has_solid_bake_mat := false;
            has_active_bake_mat := false; has_light_mat := false;
            masi_pos := None; n_materials := None; mate_pos := None; phma_pos := None |};
  add_materials s.

End GameData.

(** ** The new textures (lines 401 to 439) *)

(** What the export reads besides the scene: the streams of the source file
    and the files of the bake folder.  The streams of a numbered category are
    those the probe [src_storage.exists(f'{path}{index}')] finds from index 0
    on, in order. *)
Record src_storage := mk_src {
  src_streams : gmap (list Z) (list Z);     (* the other streams, by path *)
  src_items : list (list Z);                (* GameStg/GameItem0, 1, ... *)
  src_images : list (list Z);               (* GameStg/Image0, 1, ... *)
  src_sounds : list (list Z);
  src_fonts : list (list Z);
  src_collections : list (list Z)
}.

Record environment := mk_env {
  bakepath : list Z;
  files : gmap (list Z) (list Z);           (* os.path.exists, open(...).read() *)
  image_size : list Z -> option (Z * Z)     (* the size of the image, if it loads *)
}.

(** How [export_vpx] ends: [{'FINISHED'}], [{'CANCELLED'}] (with the
    destination storage when it was created), or an exception. *)
Inductive outcome :=
  | FINISHED (d : dst_storage)
  | CANCELLED (d : option dst_storage)
  | RAISED (e : exn).

(** What a reader of the destination file sees afterwards: nothing unless
    the storage was committed. *)
Definition visible_after (o : outcome)
  : option (list (list Z * list Z) * list (list Z * list Z)) :=
  match o with
  | FINISHED d => visible d
  | CANCELLED (Some d) => visible d
  | CANCELLED None => None
  | RAISED _ => None
  end.

Section Textures.

Variable V : Type.
Variable env : environment.
Variable result_col : list (result_object V).

(** Lines 408 and 409 *)
Definition base_path (nestmap_index : Z) : list Z :=
  bakepath env ++ str "Export/Nestmap " ++ str (pretty nestmap_index).

Definition nestmap_path (nestmap_index : Z) (is_hdr : bool) : list Z :=
  base_path nestmap_index ++ (if is_hdr then str ".exr" else str ".png").

(** Lines 413 to 434: the stream of the texture. *)
Definition nestmap_image (nestmap_index : Z) (path img_data : list Z) : option (list Z) :=
  img_writer ← write_tagged_string BIFF_writer (str "NAME") (packmap_name nestmap_index);
  img_writer ← write_tagged_string img_writer (str "PATH") path;
  img_writer ← write_tagged_u32 img_writer (str "SIZE") (len img_data);
  img_writer ← write_tagged_data img_writer (str "DATA") img_data;
  img_writer ← close img_writer true;
  let '(width, height) :=
    default (0, 0) (image_size env (base_path nestmap_index ++ str ".png")) in
  w ← write_tagged_string BIFF_writer (str "NAME") (packmap_name nestmap_index);
  w ← write_tagged_string w (str "PATH") path;
  w ← write_tagged_u32 w (str "WDTH") width;
  w ← write_tagged_u32 w (str "HGHT") height;
  w ← write_tagged_empty w (str "JPEG");
  let w := write_data w (get_data img_writer) in
  w ← write_tagged_float w (str "ALTV") 0x43250000;
  w ← close w true;
  Some (get_data w).

(** The loop of lines 402 to 439; [inr] is the return of line 412. *)
Fixpoint add_nestmaps (fuel : nat) (nestmap_index : Z) (st : image_state)
  : py (image_state + dst_storage) :=
  match fuel with
  | O => Raise OutOfFuel
  | S fuel =>
      let objects := filter (fun obj => ro_bake_nestmap obj = nestmap_index) result_col in
      if bool_decide (objects = []) then Ret (inl st)
      else
        let is_hdr := existsb ro_is_hdr objects in
        let path := nestmap_path nestmap_index is_hdr in
        match files env !! path with
        | None => Ret (inr (is_dst st))
        | Some img_data =>
            b ←← lift (nestmap_image nestmap_index path img_data);
            add_nestmaps fuel (nestmap_index + 1)
              {| is_dst := create_gamestg (is_dst st) (indexed "Image" (n_images st)) b;
                 n_images := S (n_images st) |}
        end
  end.

End Textures.

(** ** The copy of the other streams and the digest (lines 77 to 106 and 441
    to 761) *)

(** [data_hash.CryptHashData(b)]: the state of the hash is what it was fed. *)
Definition CryptHashData (h b : list Z) : list Z := h ++ b.

(** Lines 722 to 730: the records of a stream, fed to the hash. *)
Fixpoint hash_records (fuel : nat) (br : reader) (h : list Z) : option (list Z) :=
  match fuel with
  | O => None
  | S fuel =>
      if is_eof br then Some h
      else
        br ← next br;
        if tag_is br "CODE" then
          let h := CryptHashData h (str "CODE") in
          '(code_length, br) ← get_u32 br;
          '(b, br) ← get br code_length;
          hash_records fuel br (CryptHashData h b)
        else
          '(b, br) ← get_record_data br true;
          hash_records fuel br (CryptHashData h b)
  end.

(** Lines 718 to 730 *)
Definition hash_stream (mode : Z) (hashed : bool) (data0 h : list Z) : option (list Z) :=
  if hashed then
    if mode =? 0 then Some (CryptHashData h data0)
    else if mode =? 1 then hash_records (S (length data0)) (BIFF_reader data0) h
    else Some h
  else Some h.

(** The state of the copy loop. *)
Record copy_state := mk_copy {
  cs_dst : dst_storage;
  data_hash : list Z
}.

(** [src_path.split('/')[-1]] *)
Definition last_part (path : list Z) : list Z :=
  default [] (last (split_on 47 path)).

(** Lines 733 to 746: the custom information blocks. *)
Fixpoint copy_custom (fuel : nat) (src : src_storage) (br : reader) (st : copy_state)
  : option copy_state :=
  match fuel with
  | O => None
  | S fuel =>
      if is_eof br then Some st
      else
        br ← next br;
        if tag_is br "CUST" then
          '(cust_name, br) ← get_string br;
          match src_streams src !! (str "TableInfo/f" ++ cust_name) with
          | Some d =>
              copy_custom fuel src br
                {| cs_dst := create_tableinfo (cs_dst st) cust_name d;
                   data_hash := CryptHashData (data_hash st) d |}
          | None => copy_custom fuel src br st
          end
        else copy_custom fuel src (skip_tag br) st
  end.

(** The fixed part of [file_structure], lines 86 to 101. *)
Definition file_structure : list (string * Z * bool) :=
  [("GameStg/Version", 0, true);
   ("TableInfo/TableName", 0, true);
   ("TableInfo/AuthorName", 0, true);
   ("TableInfo/TableVersion", 0, true);
   ("TableInfo/ReleaseDate", 0, true);
   ("TableInfo/AuthorEmail", 0, true);
   ("TableInfo/AuthorWebSite", 0, true);
   ("TableInfo/TableBlurb", 0, true);
   ("TableInfo/TableDescription", 0, true);
   ("TableInfo/TableRules", 0, true);
   ("TableInfo/TableSaveDate", 0, false);
   ("TableInfo/TableSaveRev", 0, false);
   ("TableInfo/Screenshot", 1, true);
   ("GameStg/CustomInfoTags", 1, true);
   ("GameStg/GameData", 1, true)]%string.

(** [append_structure]: the entries of a numbered category, each with the
    stream the probe found. *)
Definition append_structure (src_path : string) (mode : Z) (hashed : bool)
    (streams : list (list Z)) : list (list Z * Z * bool * option (list Z)) :=
  imap (fun index d => (indexed src_path index, mode, hashed, Some d)) streams.

(** Lines 86 to 106, each entry with [src_storage.openstream(path).read()],
    [None] when the stream does not exist. *)
Definition structure_of (src : src_storage) : list (list Z * Z * bool * option (list Z)) :=
  map (fun e : string * Z * bool =>
         (str e.1.1, e.1.2, e.2, src_streams src !! str e.1.1)) file_structure
  ++ append_structure "GameStg/Sound" 1 false (src_sounds src)
  ++ append_structure "GameStg/Font" 1 false (src_fonts src)
  ++ append_structure "GameStg/Collection" 1 true (src_collections src).

Section Copy.

Variable src : src_storage.
Variable game_data_patch : list Z -> py (list Z).

(** The body of the loop of lines 442 to 746. *)
Definition copy_entry (e : list Z * Z * bool * option (list Z)) (st : copy_state)
  : py copy_state :=
  let '(src_path, mode, hashed, stream) := e in
  match stream with
  | None => Ret st
  | Some data0 =>
      d ←← (if bool_decide (src_path = str "GameStg/GameData")
            then game_data_patch data0 else Ret data0);
      h ←← lift (hash_stream mode hashed d (data_hash st));
      let dst :=
        if startswith src_path (str "GameStg")
        then create_gamestg (cs_dst st) (last_part src_path) d
        else create_tableinfo (cs_dst st) (last_part src_path) d in
      let st := {| cs_dst := dst; data_hash := h |} in
      if bool_decide (src_path = str "GameStg/CustomInfoTags")
      then lift (copy_custom (S (length d)) src (BIFF_reader d) st)
      else Ret st
  end.

Fixpoint copy_entries (es : list (list Z * Z * bool * option (list Z))) (st : copy_state)
  : py copy_state :=
  match es with
  | [] => Ret st
  | e :: es' => st' ←← copy_entry e st; copy_entries es' st'
  end.

End Copy.

(** ** [export_vpx] *)

(** What the operator starts from: is the project saved, the table file (if
    it exists), the collection [VLM.Result] (if there is one), the scene and
    the bake folder. *)
Record project (V : Type) := mk_project {
  blend_saved : bool;
  table_file : option src_storage;
  result_collection : option (list (result_object V));
  the_scene : scene;
  the_env : environment
}.
Arguments mk_project {V}. Arguments blend_saved {V}. Arguments table_file {V}.
Arguments result_collection {V}. Arguments the_scene {V}. Arguments the_env {V}.

Section ExportVpx.

Variable V : Type.
Variable vertex_eqb : V -> V -> bool.
Variable pack_vertex : V -> option (list Z).
Variable compress : list Z -> list Z.
Variable is_rgb_led : list light_object -> bool.

(** The digest of what the hash was fed ([CryptGetHashParam] with
    [HP_HASHVAL], for [CALG_MD2]). *)
Variable md2 : list Z -> list Z.

(** Lines 72 to 761, once the source and the collection are there: [inl] is
    the committed destination, [inr] the destination left behind by line 412. *)
Definition merge (sc : scene) (env : environment) (src : src_storage)
    (result_col : list (result_object V)) : py (dst_storage + dst_storage) :=
  let dst := {| dst_gamestg := []; dst_tableinfo := []; dst_committed := false |} in
  ps ←← lift (item_pass sc (src_items src) (pass_init dst));
  timer ←← lift timer_item;
  let dst := create_gamestg (ps_dst ps) (indexed "GameItem" (n_game_items ps)) timer in
  bs ←← lift (add_bakes V vertex_eqb pack_vertex compress sc
                (sorted_by (bake_sort_key V) result_col)
                {| bs_dst := dst; bs_n_game_items := S (n_game_items ps);
                   new_playfield_image := None |});
  removed ←← lift (mark_playfield_image (new_playfield_image bs)
                     (src_streams src !! str "GameStg/GameData") (removed_images ps));
  ims ←← lift (image_pass (sc_export_mode sc) (used_images ps) removed (src_images src)
                 {| is_dst := bs_dst bs; n_images := 0 |});
  nm ←← add_nestmaps V env result_col (S (length result_col)) 0 ims;
  match nm with
  | inr d => Ret (inr d)
  | inl ims =>
      let script := patch_script V is_rgb_led sc result_col
                      (table_lights ps) (table_flashers ps) in
      let patch := patch_game_data (n_images ims) (bs_n_game_items bs)
                     (new_playfield_image bs) script in
      cs ←← copy_entries src patch (structure_of src)
              {| cs_dst := is_dst ims; data_hash := str "Visual Pinball" |};
      let dst := create_gamestg (cs_dst cs) (str "MAC") (md2 (data_hash cs)) in
      Ret (inl (Commit dst))
  end.

(** [export_vpx] *)
Definition export_vpx (p : project V) : outcome :=
  if negb (blend_saved p) then CANCELLED None
  else
    match table_file p with
    | None => CANCELLED None
    | Some src =>
        match result_collection p with
        | None => CANCELLED None
        | Some result_col =>
            match merge (the_scene p) (the_env p) src result_col with
            | Ret (inl d) => FINISHED d
            | Ret (inr d) => CANCELLED (Some d)
            | Raise e => RAISED e
            end
        end
    end.

End ExportVpx.

(** ** Streams as the hash sees them *)

(** The record of the script is apart: its length prefix counts the tag
    alone, and the script follows as a length-prefixed string (lines 493 to
    495 and 727 to 728 read it so). *)
Inductive stream_record :=
  | Plain (t payload : list Z)
  | Script (text : list Z).

Definition encode_stream_record (rc : stream_record) : list Z :=
  match rc with
  | Plain t payload => encode_record (t, payload)
  | Script text => encode_record (str "CODE", []) ++ string_payload text
  end.

Definition encode_stream (rs : list stream_record) : list Z :=
  flat_map encode_stream_record rs.

(** What the claim wants the hash to be fed for a record. *)
Definition hashed_bytes (rc : stream_record) : list Z :=
  match rc with
  | Plain t payload => t ++ payload
  | Script text => str "CODE" ++ text
  end.

Definition record_tag (rc : stream_record) : list Z :=
  match rc with
  | Plain t _ => t
  | Script _ => str "CODE"
  end.

(** A record fits the format: four tag characters, a length that fits its
    prefix; a plain record does not carry the tag of the script. *)
Definition stream_record_ok (rc : stream_record) : bool :=
  match rc with
  | Plain t payload =>
      (len t =? 4) && negb (bool_decide (t = str "CODE"))
      && (4 + len payload <? 4294967296)
  | Script text => len text <? 4294967296
  end.

(** The sentinel [ENDB], if there is one, is the last record. *)
Fixpoint sentinel_last (tags : list (list Z)) : bool :=
  match tags with
  | [] => true
  | t :: tags' =>
      (negb (bool_decide (t = str "ENDB")) || bool_decide (tags' = []))
      && sentinel_last tags'
  end.

(** ** Reading the materials back *)

(** The loop of [vlm_import.py] (lines 386 to 412) over the table of the
    materials: per material a name of 32 bytes and eleven fields of four
    bytes. *)
Fixpoint read_material_names (n : nat) (r : reader) : option (list (list Z) * reader) :=
  match n with
  | O => Some ([], r)
  | S n' =>
      '(raw, r1) ← get_str r 32;
      '(names, r2) ← read_material_names n' (skip r1 (11 * 4));
      Some (rstrip0 raw :: names, r2)
  end.

(** The declared count of the materials and the names of the table, as the
    import reads them from GameData. *)
Fixpoint import_materials (fuel : nat) (r : reader) (n_materials : Z)
  : option (Z * list (list Z)) :=
  match fuel with
  | O => None
  | S fuel =>
      if is_eof r then Some (n_materials, [])
      else
        r ← next r;
        if tag_is r "MASI" then
          '(n, r1) ← get_32 r; import_materials fuel r1 n
        else if tag_is r "MATE" then
          '(names, _) ← read_material_names (Z.to_nat n_materials) r;
          Some (n_materials, names)
        else import_materials fuel (skip_tag r) n_materials
  end.

(** ** A small table *)

(** A table of two items, one image and the streams Version and GameData,
    with one lightmap baked for the light [L1]. *)
Definition example_bumper : list Z :=
  item_bytes 5 [(str "NAME", wide_payload (str "Bumper1"));
                (str "CAVI", bool_payload true);
                (str "BSVS", bool_payload true);
                (str "RIVS", bool_payload true);
                (str "IMAG", string_payload (str "ringtex"));
                (str "REEN", bool_payload true);
                (str "ENDB", [])].

Definition example_light : list Z :=
  item_bytes 7 [(str "NAME", wide_payload (str "L1"));
                (str "BULT", bool_payload false);
                (str "ENDB", [])].

Definition example_image : list Z :=
  encode_records [(str "NAME", string_payload (str "ringtex")); (str "ENDB", [])].

(** GameData with a table of one material of the given name, and the
    script. *)
Definition example_game_data (material : string) (script : list Z) : list Z :=
  encode_records [(str "SIMG", le32 1); (str "SEDT", le32 2); (str "MASI", le32 1);
                  (str "MATE", padded_name material ++ replicate 44 7);
                  (str "PHMA", padded_name material ++ replicate 16 9);
                  (str "CODE", [])]
  ++ string_payload script ++ encode_records [(str "ENDB", [])].

Definition example_source (material : string) (script : list Z) : src_storage :=
  {| src_streams := {[ str "GameStg/GameData" := example_game_data material script;
                       str "GameStg/Version" := le32 1072 ]};
     src_items := [example_bumper; example_light];
     src_images := [example_image];
     src_sounds := []; src_fonts := []; src_collections := [] |}.

Definition example_scene : scene :=
  {| sc_export_mode := mode_remove_all; sc_playfield_col := None;
     sc_bake_col := [mk_bake_object (str "VPX.Bumper1.Ring") (str "Bumper1")
                       (str "Ring") false];
     sc_light_col := [mk_light_object (str "L1") (str "L1")];
     sc_light_children := [];
     sc_enable_vpx_reflection := true |}.

(** A lightmap of two triangles for the light [L1], in the group
    [nestmap]. *)
Definition example_lightmap (nestmap : Z) : result_object Z :=
  {| ro_name := str "LM1"; ro_bake_type := str "lightmap"; ro_bake_sync_trans := [];
     ro_bake_sync_light := str "L1"; ro_bake_objects := []; ro_bake_nestmap := nestmap;
     ro_is_hdr := false; ro_position := (0, 0, 0); ro_size := (f32_1, f32_1, f32_1);
     ro_rotation := (0, 0, 0); ro_polygons := [[1; 2; 3]; [3; 2; 4]] |}.

(** The bake folder, with the packed textures of the given paths. *)
Definition example_env (paths : list string) : environment :=
  {| bakepath := str "/bake/";
     files := list_to_map (map (fun path => (str path, [137; 80; 78; 71])) paths);
     image_size := fun _ => Some (16, 8) |}.

Definition example_project (material : string) (script : list Z) (nestmap : Z)
    (paths : list string) : project Z :=
  {| blend_saved := true;
     table_file := Some (example_source material script);
     result_collection := Some [example_lightmap nestmap];
     the_scene := example_scene;
     the_env := example_env paths |}.

(** The export of the example, with stand-ins for the packing of a vertex,
    the compression and the digest. *)
Definition example_export (p : project Z) : outcome :=
  export_vpx Z Z.eqb (fun v => Some (le32 v)) (fun b => b) (fun _ => false)
             (fun fed => take 16 fed) p.

(** ** What the passes keep *)

(** What the item pass writes for one source item, whatever came before it:
    [Some None] for an item it drops, [Some (Some b)] for an item it keeps
    with the bytes [b]. *)
Definition item_output (sc : scene) (data0 : list Z) : option (option (list Z)) :=
  st ← process_item sc data0 (pass_init (mk_dst [] [] false));
  Some (snd <$> head (dst_gamestg (ps_dst st))).

Definition kept_items (sc : scene) (items : list (list Z)) : list (list Z) :=
  omap (fun d => mjoin (item_output sc d)) items.

Definition image_output (mode : export_mode)
    (used removed : gmap (list Z) (list (list Z))) (data0 : list Z)
  : option (option (list Z)) :=
  found ← find_string (S (length data0)) "NAME" (BIFF_reader data0);
  Some (if image_removed mode used removed (default (str "unknown") found)
        then None else Some data0).

Definition kept_images (mode : export_mode)
    (used removed : gmap (list Z) (list (list Z))) (images : list (list Z))
  : list (list Z) :=
  omap (fun d => mjoin (image_output mode used removed d)) images.

(** The streams of a category, numbered from [first] on. *)
Definition numbered (category : string) (first : nat) (streams : list (list Z))
  : list (list Z * list Z) :=
  imap (fun i b => (indexed category (first + i), b)) streams.

(** Six items: walls at the indices 0, 2 and 5, items of an earlier export
    at the indices 1, 3 and 4. *)
Definition example_wall (name : string) : list Z :=
  item_bytes 0 [(str "NAME", wide_payload (str name)); (str "VSBL", bool_payload true);
                (str "ENDB", [])].

Definition example_image_named (name : string) : list Z :=
  encode_records [(str "NAME", string_payload (str name)); (str "ENDB", [])].

Definition example_six_items : list (list Z) :=
  [example_wall "W0"; example_wall "VLM.a"; example_wall "W2"; example_wall "VLM.b";
   example_wall "VLM.c"; example_wall "W5"].

(** ** Items as lists of records *)

(** The first word of a payload, as a number, a bool and the length of a
    text; the payload with its first word replaced. *)
Definition payload_word (p : list Z) : Z := default 0 (unpack_u32 (take 4 p)).
Definition payload_bool (p : list Z) : bool := negb (payload_word p =? 0).
Definition payload_text (p : list Z) : list Z :=
  take (Z.to_nat (payload_word p)) (drop 4 p).
Definition set_word (v : Z) (p : list Z) : list Z := le32 v ++ drop 4 p.

Definition is_tag (t : list Z) (s : string) : bool := bool_decide (t = str s).

(** The name in the first NAME record. *)
Definition records_name (rs : list (list Z * list Z)) : option (list Z) :=
  rc ← find (fun rc => is_tag rc.1 "NAME") rs;
  decode_wide (payload_text rc.2).

Section ItemRecords.

Variable sc : scene.
Variables (item_type : Z) (name : list Z) (is_baked is_baked_light : bool).

(** The item is the playfield mesh that a playfield bake replaces. *)
Definition renamed : bool :=
  bool_decide (name = str "playfield_mesh")
  && bool_decide (is_Some (sc_playfield_col sc)).

(** For a visibility tag of the kind of the item: is the part it shows
    baked? *)
Definition visibility_part (t : list Z) : option bool :=
  if item_type =? 0 then
    if is_tag t "VSBL" || is_tag t "SVBL" then Some is_baked else None
  else if (item_type =? 12) || (item_type =? 21) then
    if is_tag t "RVIS" then Some is_baked else None
  else if (item_type =? 19) || (item_type =? 22) then
    if is_tag t "TVIS" then Some is_baked else None
  else if item_type =? 20 then
    if is_tag t "FVIS" then Some is_baked else None
  else if item_type =? 5 then
    if is_tag t "CAVI" then Some (subpart_baked sc name (str "Cap"))
    else if is_tag t "BSVS" then Some (subpart_baked sc name (str "Base"))
    else if is_tag t "RIVS" then Some (subpart_baked sc name (str "Ring"))
    else if is_tag t "SKVS" then Some (subpart_baked sc name (str "Socket"))
    else None
  else None.

(** The payload of the tag is forced to false: the reflection tag of a baked
    item, or a visibility tag of its kind whose part is baked. *)
Definition forced_false (t : list Z) : bool :=
  (is_tag t "REEN" && is_baked) || default false (visibility_part t).

(** The bracket of a gate or of a spinner is hidden when it is baked. *)
Definition bracket_hidden (t : list Z) : bool :=
  ((item_type =? 10) && is_tag t "GSUP"
   && in_bake_col sc (str "VPX.Gate.Bracket." ++ name))
  || ((item_type =? 11) && is_tag t "SSUP"
      && in_bake_col sc (str "VPX.Spinner.Bracket." ++ name)).

(** The word a baked light gets in its bulb fields. *)
Definition light_word (t : list Z) : option Z :=
  if (item_type =? 7) && is_baked_light then
    if is_tag t "BULT" then Some 4294967295
    else if is_tag t "BHHI" then Some f32_m2800
    else None
  else None.

(** The height of a baked flasher is written over the tag of its record. *)
Definition height_over_tag (t : list Z) : bool :=
  (item_type =? 20) && is_baked_light && is_tag t "FHEI".

(** What the second loop makes of one record. *)
Definition patch_record (rc : list Z * list Z) : list Z * list Z :=
  if is_tag rc.1 "NAME" then
    if renamed
    then (rc.1, take 24 rc.2 ++ le32 0x00680070 ++ le32 0x00730079 ++ drop 32 rc.2)
    else rc
  else if forced_false rc.1 || bracket_hidden rc.1 then (rc.1, set_word 0 rc.2)
  else match light_word rc.1 with
       | Some v => (rc.1, set_word v rc.2)
       | None => if height_over_tag rc.1 then (le32 f32_m2800, rc.2) else rc
       end.

Definition physics_step (is_physics : bool) (rc : list Z * list Z) : bool :=
  if is_tag rc.1 "CLDR" || is_tag rc.1 "CLDW" then payload_bool rc.2
  else if is_tag rc.1 "ISTO" then is_physics && negb (payload_bool rc.2)
  else is_physics.

Definition record_images (rc : list Z * list Z) : list (list Z) :=
  if is_tag rc.1 "IMAG" || is_tag rc.1 "SIMG" || is_tag rc.1 "IMAB"
  then [payload_text rc.2] else [].

(** The payload holds a length and a text of that length. *)
Definition text_ok (p : list Z) : bool :=
  (4 <=? len p) && (0 <=? payload_word p) && (4 + payload_word p <=? len p).

(** The tags whose payload the loop reads or writes as one word. *)
Definition word_tags : list string :=
  ["REEN"; "CLDR"; "CLDW"; "ISTO"; "VSBL"; "SVBL"; "RVIS"; "GSUP"; "SSUP"; "TVIS";
   "FVIS"; "CAVI"; "BSVS"; "RIVS"; "SKVS"; "BULT"; "BHHI"]%string.

(** The record has the layout of its tag. *)
Definition record_ok (rc : list Z * list Z) : bool :=
  (len rc.1 =? 4) && (4 + len rc.2 <? 4294967296)
  && (if is_tag rc.1 "NAME" then
        text_ok rc.2 && bool_decide (is_Some (decode_wide (payload_text rc.2)))
        && (negb renamed || (32 <=? len rc.2))
      else if is_tag rc.1 "IMAG" || is_tag rc.1 "SIMG" || is_tag rc.1 "IMAB" then
        text_ok rc.2
      else if existsb (is_tag rc.1) word_tags then 4 <=? len rc.2
      else true).

End ItemRecords.

(** What the item pass makes of an item given by its records. *)
Definition item_result (sc : scene) (item_type : Z) (rs : list (list Z * list Z))
    (st : pass_state) : pass_state :=
  let found := records_name rs in
  let name := default (str "unknown") found in
  let is_baked := if found is Some n then str_in n (baked_vpx_objects sc) else false in
  let is_baked_light := if found is Some n then str_in n (baked_vpx_lights sc) else false in
  let is_physics := foldl physics_step true rs in
  let images := flat_map record_images rs in
  let remove := item_removed sc name is_baked is_physics in
  let as_removed := remove || (is_removal_mode (sc_export_mode sc) && is_baked) in
  {| ps_dst :=
       if remove then ps_dst st
       else create_gamestg (ps_dst st) (indexed "GameItem" (n_game_items st))
              (item_bytes item_type
                 (map (patch_record sc item_type name is_baked is_baked_light) rs));
     n_game_items := if remove then n_game_items st else S (n_game_items st);
     used_images := if as_removed then used_images st
                    else mark_images (used_images st) name images;
     removed_images := if as_removed then mark_images (removed_images st) name images
                       else removed_images st;
     table_lights := table_lights st
                     ++ (if item_type =? 7 then replicate (length rs) name else []);
     table_flashers := table_flashers st
                       ++ (if item_type =? 20 then replicate (length rs) name else []);
     needs_playfield_physics :=
       needs_playfield_physics st
       && negb (renamed sc name && existsb (fun rc => is_tag rc.1 "NAME") rs) |}.

(** The records of an item are within the format. *)
Definition item_ok (sc : scene) (rs : list (list Z * list Z)) : bool :=
  forallb (record_ok sc (default (str "unknown") (records_name rs))) rs
  && sentinel_last (map fst rs).

(** ** What the item loop settles about an item *)

(** Lines 134 to 145 and 161 to 166, for an item given by its records: the
    name (['unknown'] without a NAME record), the two membership tests (made
    only when a NAME record is met), [is_physics] and [item_images] after the
    second loop. *)
Definition item_name (rs : list (list Z * list Z)) : list Z :=
  default (str "unknown") (records_name rs).

Definition item_is_baked (sc : scene) (rs : list (list Z * list Z)) : bool :=
  if records_name rs is Some n then str_in n (baked_vpx_objects sc) else false.

Definition item_is_baked_light (sc : scene) (rs : list (list Z * list Z)) : bool :=
  if records_name rs is Some n then str_in n (baked_vpx_lights sc) else false.

Definition item_is_physics (rs : list (list Z * list Z)) : bool :=
  foldl physics_step true rs.

Definition item_images (rs : list (list Z * list Z)) : list (list Z) :=
  flat_map record_images rs.

(** No object of the collection [VLM.Bake] was made from the table part
    [name], and none is the bracket of a gate or of a spinner of that name
    (the tests of lines 176, 179, 186, 189, 192 and 195 all fail). *)
Definition bake_free (sc : scene) (name : list Z) : bool :=
  forallb (fun o => negb (bool_decide (bo_vpx_object o = name))
                    && negb (bool_decide (bo_name o = str "VPX.Gate.Bracket." ++ name))
                    && negb (bool_decide (bo_name o = str "VPX.Spinner.Bracket." ++ name)))
          (sc_bake_col sc).

(** Every collidable flag of the item is set and no toy flag is. *)
Definition stays_physics (rs : list (list Z * list Z)) : bool :=
  forallb (fun rc => if is_tag rc.1 "CLDR" || is_tag rc.1 "CLDW" then payload_bool rc.2
                     else if is_tag rc.1 "ISTO" then negb (payload_bool rc.2)
                     else true) rs.

(** The records of the sync timer of lines 243 to 254. *)
Definition timer_records : list (list Z * list Z) :=
  [(str "VCEN", le32 f32_0 ++ le32 f32_0);
   (str "TMON", bool_payload true);
   (str "TMIN", le32 4294967295);
   (str "NAME", wide_payload (str "VLMTimer"));
   (str "BGLS", bool_payload false);
   (str "LOCK", bool_payload true);
   (str "LAYR", le32 0);
   (str "LANR", string_payload (str "VLM.Visuals"));
   (str "LVIS", bool_payload true);
   (str "ENDB", [])].

(** A wall that collides, with a top image. *)
Definition example_solid_wall (name : string) : list (list Z * list Z) :=
  [(str "NAME", wide_payload (str name)); (str "VSBL", bool_payload true);
   (str "CLDR", bool_payload true); (str "IMAG", string_payload (str "walltex"));
   (str "ENDB", [])].

(** A decorative wall: baked, and a toy that does not collide. *)
Definition example_toy_wall (name : string) : list (list Z * list Z) :=
  [(str "NAME", wide_payload (str name)); (str "VSBL", bool_payload true);
   (str "CLDR", bool_payload true); (str "ISTO", bool_payload true);
   (str "IMAG", string_payload (str "toytex"));
   (str "ENDB", [])].

(** A scene in which the part [name] is baked. *)
Definition example_scene_baking (mode : export_mode) (name : string) : scene :=
  {| sc_export_mode := mode; sc_playfield_col := None;
     sc_bake_col := [mk_bake_object (str "VPX.Wall") (str name) [] false];
     sc_light_col := []; sc_light_children := [];
     sc_enable_vpx_reflection := true |}.

(** ** The loops of a mesh *)

(** The vertex tuples the loop of lines 315 to 331 visits, in its order: the
    loops of every polygon of three loops, last loop first. *)
Definition mesh_loops {V : Type} (polygons : list (list V)) : list V :=
  flat_map (fun poly => reverse poly)
           (List.filter (fun poly => bool_decide (length poly = 3%nat)) polygons).

(** The index [idx] stands for the vertex [v] in the list [vs]. *)
Definition decodes {V : Type} (vertex_eqb : V -> V -> bool) (vs : list V) (idx : Z) (v : V)
  : Prop :=
  0 <= idx /\ exists v', vs !! Z.to_nat idx = Some v' /\ vertex_eqb v' v = true.

(** ** The routines the script patch writes *)

(** The line opens one of the three routines the patch looks for (lines 545,
    574 and 583). *)
Definition starts_generated (line : list Z) : bool :=
  startswith (strip line) (str "Sub VLMTimer_Timer")
  || startswith (strip line) (str "Sub VLMLampzHelper")
  || startswith (strip line) (str "Sub VLMMovableHelper").

(** The text of lines 629 to 632 and of lines 634 to 637. *)
Definition lampz_helper {V : Type} (result_col : list (result_object V)) : list Z :=
  nl ++ nl ++ str "Sub VLMLampzHelper" ++ nl ++ lampz_lines V result_col
  ++ str "End Sub" ++ nl.

Definition movable_helper {V : Type} (result_col : list (result_object V)) : list Z :=
  nl ++ nl ++ str "Sub VLMMovableHelper" ++ nl ++ movable_lines V result_col
  ++ str "End Sub" ++ nl.

(** A script that already holds the routine of the movable parts. *)
Definition example_script_with_helper : list Z :=
  str "Dim x" ++ nl ++ str "Sub VLMMovableHelper" ++ nl ++ str "End Sub" ++ nl.

(** ** The packed indices *)

(** The two bytes of a 16-bit word, low byte first. *)
Definition le16 (v : Z) : list Z := [v mod 256; (v / 256) mod 256].

(** What the claim wants the index buffer to be before the compression: two
    bytes per index while the vertices are fewer than 65536, four bytes per
    index from 65536 vertices on. *)
Definition index_bytes {V : Type} (m : mesh_state V) : list Z :=
  if n_vertices m <? 65536 then flat_map le16 (indices m) else flat_map le32 (indices m).

(** A mesh of 21846 triangles whose 65538 loops all differ for the
    dictionary. *)
Definition example_large_mesh : list (list Z) := replicate (Z.to_nat 21846) [7; 7; 7].

(** ** A baked item, as the claim describes its patch *)

(** What the claim wants the patch to make of a record of a baked item: the
    payload of the reflection tag, of a visibility tag of the kind of the item
    whose part is baked, and of the bracket tag of a gate or a spinner whose
    bracket is baked, has its first word (the bool) set to false; every other
    record stays as it is. *)
Definition hide_record (sc : scene) (item_type : Z) (name : list Z)
    (rc : list Z * list Z) : list Z * list Z :=
  if forced_false sc item_type name true rc.1 || bracket_hidden sc item_type name rc.1
  then (rc.1, set_word 0 rc.2) else rc.

(** The playfield mesh of a table, which collides. *)
Definition example_playfield_mesh : list (list Z * list Z) :=
  [(str "NAME", wide_payload (str "playfield_mesh"));
   (str "TVIS", bool_payload true); (str "CLDR", bool_payload true); (str "ENDB", [])].

(** A scene with a playfield collection. *)
Definition example_scene_playfield : scene :=
  {| sc_export_mode := mode_hide; sc_playfield_col := Some (str "Playfield");
     sc_bake_col := []; sc_light_col := []; sc_light_children := [];
     sc_enable_vpx_reflection := true |}.

(** A light of the table that is a baked part and a baked light at once. *)
Definition example_scene_light : scene :=
  {| sc_export_mode := mode_hide; sc_playfield_col := None;
     sc_bake_col := [mk_bake_object (str "VPX.L9") (str "L9") [] false];
     sc_light_col := [mk_light_object (str "L9") (str "L9")];
     sc_light_children := []; sc_enable_vpx_reflection := true |}.

Definition example_baked_light : list (list Z * list Z) :=
  [(str "NAME", wide_payload (str "L9")); (str "BULT", bool_payload false);
   (str "ENDB", [])].

(** * Properties *)

Arguments le32 : simpl never.
Arguments str : simpl never.
Arguments len : simpl never.

(** ** Lists of bytes *)

Lemma len_app (a b : list Z) : len (a ++ b) = len a + len b.
Proof. unfold len. rewrite length_app. lia. Qed.

Lemma len_nil : len [] = 0.
Proof. reflexivity. Qed.

Lemma len_cons (x : Z) (l : list Z) : len (x :: l) = 1 + len l.
Proof. unfold len. simpl length. lia. Qed.

Lemma len_nonneg (l : list Z) : 0 <= len l.
Proof. unfold len. lia. Qed.

Lemma len_le32 (v : Z) : len (le32 v) = 4.
Proof. reflexivity. Qed.

Lemma len_str4 (a b c d : ascii) :
  len (str (String a (String b (String c (String d EmptyString))))) = 4.
Proof. reflexivity. Qed.

Lemma unpack_le32 (v : Z) :
  0 <= v < 4294967296 -> unpack_u32 (le32 v) = Some v.
Proof.
  intros Hv. unfold le32, unpack_u32. f_equal.
  assert (E2 : v / 65536 = v / 256 / 256) by (rewrite Z.div_div by lia; reflexivity).
  assert (E3 : v / 16777216 = v / 256 / 256 / 256) by (rewrite !Z.div_div by lia; reflexivity).
  assert (H3 : v / 16777216 < 256) by (apply Z.div_lt_upper_bound; lia).
  assert (H4 : 0 <= v / 16777216) by (apply Z.div_pos; lia).
  rewrite (Z.mod_small (v / 16777216)) by lia.
  rewrite E2, E3 in *.
  pose proof (Z.div_mod v 256 ltac:(lia)).
  pose proof (Z.div_mod (v / 256) 256 ltac:(lia)).
  pose proof (Z.div_mod (v / 256 / 256) 256 ltac:(lia)).
  pose proof (Z.mod_small (v / 256 / 256 / 256) 256 ltac:(lia)).
  lia.
Qed.

Lemma pack_u32_le32 (v : Z) : 0 <= v < 4294967296 -> pack_u32 v = Some (le32 v).
Proof.
  intros Hv. unfold pack_u32.
  destruct (0 <=? v) eqn:H1; destruct (v <? 4294967296) eqn:H2; simpl; try reflexivity; lia.
Qed.

Lemma unpack_u32_len (b : list Z) : len b = 4 -> is_Some (unpack_u32 b).
Proof.
  destruct b as [|b0 [|b1 [|b2 [|b3 [|b4 b]]]]]; unfold len; simpl; intros; try lia.
  eexists; reflexivity.
Qed.

Lemma slice_mid (a x b : list Z) (p n : Z) :
  len a = p -> len x = n -> slice (a ++ x ++ b) p n = Some x.
Proof.
  intros Hp Hn. unfold slice.
  pose proof (len_nonneg a). pose proof (len_nonneg x). pose proof (len_nonneg b).
  rewrite !len_app.
  destruct (0 <=? p) eqn:E1; [|lia]. destruct (0 <=? n) eqn:E2; [|lia].
  destruct (p + n <=? len a + (len x + len b)) eqn:E3; [|lia]. simpl.
  f_equal. unfold len in *.
  rewrite drop_app_length' by lia. rewrite take_app_length' by lia. reflexivity.
Qed.

Lemma overwrite_mid (a x b v : list Z) (p : Z) :
  len a = p -> len x = len v -> overwrite (a ++ x ++ b) p v = Some (a ++ v ++ b).
Proof.
  intros Hp Hn. unfold overwrite.
  pose proof (len_nonneg a). pose proof (len_nonneg x). pose proof (len_nonneg b).
  rewrite !len_app.
  destruct (0 <=? p) eqn:E1; [|lia].
  destruct (p + len v <=? len a + (len x + len b)) eqn:E3; [|lia]. simpl.
  f_equal. unfold len in *.
  rewrite take_app_length' by lia. f_equal. f_equal.
  rewrite app_assoc. rewrite drop_app_length'; [reflexivity|].
  rewrite length_app. lia.
Qed.

(** ** The reader on a buffer cut in three *)

Section ReaderAt.

Variables (a x b : list Z) (r : reader).
Hypothesis Hdata : data r = a ++ x ++ b.
Hypothesis Hpos : pos r = len a.

Lemma get_at (n : Z) : len x = n -> get r n = Some (x, skip r n).
Proof.
  intros Hn. unfold get. rewrite Hdata, Hpos.
  rewrite (slice_mid a x b (len a) n) by (assumption || reflexivity). reflexivity.
Qed.

Lemma get_u32_at (v : Z) :
  unpack_u32 x = Some v -> get_u32 r = Some (v, skip r 4).
Proof.
  intros Hv. unfold get_u32. rewrite (get_at 4).
  - simpl. rewrite Hv. reflexivity.
  - destruct x as [|b0 [|b1 [|b2 [|b3 [|b4 l]]]]]; simpl in Hv; try discriminate.
    reflexivity.
Qed.

Lemma put_u32_at (v : Z) :
  len x = 4 -> 0 <= v < 4294967296 ->
  put_u32 r v = Some {| data := a ++ le32 v ++ b; pos := pos r + 4;
                        bytes_in_record_remaining := bytes_in_record_remaining r - 4;
                        tag := tag r |}.
Proof.
  intros Hx Hv. unfold put_u32. rewrite (pack_u32_le32 v Hv). simpl.
  rewrite Hdata, Hpos.
  rewrite (overwrite_mid a x b (le32 v) (len a)) by (reflexivity || (rewrite Hx; reflexivity)).
  reflexivity.
Qed.

End ReaderAt.

(** [next] on a record that starts at the position. *)
Lemma next_at (pre t rest : list Z) (n : Z) (r : reader) :
  data r = pre ++ le32 n ++ t ++ rest ->
  pos r = len pre ->
  bytes_in_record_remaining r <= 0 ->
  len t = 4 ->
  0 <= n < 4294967296 ->
  next r = Some {| data := data r; pos := len pre + 8;
                   bytes_in_record_remaining := n - 4; tag := t |}.
Proof.
  intros Hdata Hpos Hrem Ht Hn. unfold next.
  destruct (0 <? bytes_in_record_remaining r) eqn:E; [lia|].
  rewrite (get_u32_at pre (le32 n) (t ++ rest) r Hdata Hpos n (unpack_le32 n Hn)).
  simpl. unfold get_str.
  rewrite (get_at (pre ++ le32 n) t rest (skip r 4)).
  - simpl. f_equal. f_equal. rewrite Hpos. lia.
  - simpl. rewrite Hdata. rewrite <- app_assoc. reflexivity.
  - simpl. rewrite Hpos, len_app, len_le32. reflexivity.
  - assumption.
Qed.

(** ** The digest reads every record (C1) *)

Lemma len_encode_record (rc : list Z * list Z) :
  len (encode_record rc) = 4 + len rc.1 + len rc.2.
Proof. unfold encode_record. rewrite !len_app, len_le32. lia. Qed.

Lemma length_encode_stream_record (rc : stream_record) :
  (0 < length (encode_stream_record rc))%nat.
Proof.
  destruct rc; simpl; unfold encode_record; rewrite ?length_app; simpl; lia.
Qed.

Lemma get_record_data_at (pre t p rest : list Z) (n : Z) (r : reader) :
  data r = pre ++ le32 n ++ t ++ p ++ rest ->
  pos r = len pre + 8 ->
  bytes_in_record_remaining r = len p ->
  len t = 4 ->
  get_record_data r true = Some (t ++ p, skip_tag r).
Proof.
  intros Hdata Hpos Hrem Ht. unfold get_record_data.
  rewrite Hdata, Hpos, Hrem.
  replace (pre ++ le32 n ++ t ++ p ++ rest)
    with ((pre ++ le32 n) ++ (t ++ p) ++ rest) by (rewrite <- !app_assoc; reflexivity).
  rewrite (slice_mid (pre ++ le32 n) (t ++ p) rest).
  - reflexivity.
  - rewrite len_app, len_le32. lia.
  - rewrite len_app. lia.
Qed.

Ltac rsimpl :=
  cbn [data pos bytes_in_record_remaining tag skip skip_tag set_pos fst snd
       mbind option_bind].

Lemma hash_records_stream (rs : list stream_record) :
  forall (pre : list Z) (r : reader) (h : list Z) (fuel : nat),
    (length rs < fuel)%nat ->
    data r = pre ++ encode_stream rs ->
    pos r = len pre ->
    bytes_in_record_remaining r <= 0 ->
    (tag r = str "ENDB" -> rs = []) ->
    forallb stream_record_ok rs = true ->
    sentinel_last (map record_tag rs) = true ->
    hash_records fuel r h = Some (h ++ flat_map hashed_bytes rs).
Proof.
  induction rs as [|rc rs IH]; intros pre r h fuel Hfuel Hdata Hpos Hrem Hend Hok Hlast.
  - destruct fuel as [|fuel]; [simpl in Hfuel; lia|]. cbn [hash_records].
    unfold is_eof. rewrite Hdata, Hpos. unfold encode_stream. cbn [flat_map].
    rewrite app_nil_r.
    destruct (len pre <=? len pre) eqn:E; [|lia]. cbn [orb]. rewrite app_nil_r. reflexivity.
  - destruct fuel as [|fuel]; [simpl in Hfuel; lia|]. simpl in Hfuel.
    cbn [forallb] in Hok. apply andb_true_iff in Hok as [Hrc Hok].
    cbn [map sentinel_last] in Hlast. apply andb_true_iff in Hlast as [Hthis Hlast].
    cbn [hash_records].
    assert (Heof : is_eof r = false).
    { unfold is_eof. apply orb_false_iff. split.
      - rewrite Hdata, Hpos. unfold encode_stream. cbn [flat_map].
        rewrite !len_app. pose proof (length_encode_stream_record rc).
        pose proof (len_nonneg (flat_map encode_stream_record rs)).
        unfold len in *. lia.
      - apply bool_decide_eq_false. intros Ht. specialize (Hend Ht). discriminate. }
    rewrite Heof.
    destruct rc as [t p | text].
    + cbn [stream_record_ok] in Hrc. apply andb_true_iff in Hrc as [Hrc Hsize].
      apply andb_true_iff in Hrc as [Ht Hcode].
      apply Z.eqb_eq in Ht. apply Z.ltb_lt in Hsize.
      apply negb_true_iff, bool_decide_eq_false in Hcode.
      pose proof (len_nonneg p).
      assert (Hdata' : data r = pre ++ le32 (4 + len p) ++ t ++ p ++ encode_stream rs).
      { rewrite Hdata. unfold encode_stream. cbn [flat_map encode_stream_record].
        unfold encode_record. rsimpl. rewrite <- !app_assoc. reflexivity. }
      rewrite (next_at pre t (p ++ encode_stream rs) (4 + len p) r Hdata' Hpos Hrem Ht)
        by lia.
      rsimpl. unfold tag_is at 1. rsimpl. rewrite (bool_decide_eq_false_2 _ Hcode).
      erewrite get_record_data_at; [| exact Hdata' | reflexivity | rsimpl; lia | exact Ht].
      rsimpl. unfold CryptHashData.
      rewrite (IH (pre ++ encode_record (t, p))).
      * cbn [flat_map hashed_bytes]. rewrite <- !app_assoc. reflexivity.
      * lia.
      * rsimpl. rewrite Hdata'. unfold encode_record. rsimpl.
        rewrite <- !app_assoc. reflexivity.
      * rsimpl. rewrite len_app, len_encode_record. rsimpl. lia.
      * rsimpl. lia.
      * rsimpl. intros ->. cbn [record_tag] in Hthis.
        apply orb_true_iff in Hthis as [Hthis|Hthis].
        -- rewrite bool_decide_eq_true_2 in Hthis by reflexivity. discriminate.
        -- apply bool_decide_eq_true in Hthis.
           destruct rs; [reflexivity|discriminate].
      * exact Hok.
      * exact Hlast.
    + cbn [stream_record_ok] in Hrc. apply Z.ltb_lt in Hrc. pose proof (len_nonneg text).
      assert (Hdata' : data r = pre ++ le32 4 ++ str "CODE"
                                 ++ (le32 (len text) ++ text ++ encode_stream rs)).
      { rewrite Hdata. unfold encode_stream. cbn [flat_map encode_stream_record].
        unfold encode_record, string_payload. rsimpl. rewrite <- !app_assoc.
        rewrite app_nil_l. reflexivity. }
      rewrite (next_at pre (str "CODE") _ 4 r Hdata' Hpos Hrem) by (reflexivity || lia).
      rsimpl. unfold tag_is at 1. rsimpl.
      rewrite bool_decide_eq_true_2 by reflexivity.
      erewrite (get_u32_at (pre ++ le32 4 ++ str "CODE") (le32 (len text))
                  (text ++ encode_stream rs)); rsimpl;
        [| rewrite Hdata'; rewrite <- !app_assoc; reflexivity
         | rewrite !len_app; reflexivity
         | apply unpack_le32; lia].
      erewrite (get_at (pre ++ le32 4 ++ str "CODE" ++ le32 (len text)) text
                  (encode_stream rs)); rsimpl;
        [| rewrite Hdata'; rewrite <- !app_assoc; reflexivity
         | rewrite !len_app; change (len (le32 4)) with 4;
           change (len (str "CODE")) with 4; rewrite len_le32; lia
         | reflexivity].
      unfold CryptHashData.
      rewrite (IH (pre ++ encode_stream_record (Script text))).
      * cbn [flat_map hashed_bytes]. rewrite <- !app_assoc. reflexivity.
      * lia.
      * rsimpl. rewrite Hdata'. cbn [encode_stream_record].
        unfold encode_record, string_payload. rsimpl.
        rewrite <- !app_assoc. rewrite app_nil_l. reflexivity.
      * rsimpl. cbn [encode_stream_record]. unfold encode_record, string_payload.
        rsimpl. rewrite !len_app. change (len (str "CODE")) with 4.
        rewrite !len_le32. rewrite len_nil. lia.
      * rsimpl. lia.
      * rsimpl. intros Hcontra. vm_compute in Hcontra. discriminate.
      * exact Hok.
      * exact Hlast.
Qed.

Lemma length_encode_stream (rs : list stream_record) :
  (length rs <= length (encode_stream rs))%nat.
Proof.
  induction rs as [|rc rs IH]; [reflexivity|].
  unfold encode_stream in *. cbn [flat_map length]. rewrite length_app.
  pose proof (length_encode_stream_record rc). lia.
Qed.

(** C1: for a hashed stream of records, each within the format and with the
    sentinel (if any) last, the hash is fed the tag and the payload of every
    record in the order of the stream, without the length prefixes; of the
    record of the script it is fed the tag CODE and the text of the script,
    without the length of the text. *)
Theorem hash_feeds_records (rs : list stream_record) (h : list Z) :
  forallb stream_record_ok rs = true ->
  sentinel_last (map record_tag rs) = true ->
  hash_stream 1 true (encode_stream rs) h = Some (h ++ flat_map hashed_bytes rs).
Proof.
  intros Hok Hlast. unfold hash_stream. cbn [Z.eqb].
  apply (hash_records_stream rs []).
  - pose proof (length_encode_stream rs). lia.
  - reflexivity.
  - reflexivity.
  - cbn. lia.
  - cbn. intros H. vm_compute in H. discriminate.
  - exact Hok.
  - exact Hlast.
Qed.

Lemma hash_feeds_records_witness :
  hash_stream 1 true
    (encode_stream [Plain (str "SEDT") (le32 2); Script (str "Dim x");
                    Plain (str "ENDB") []]) (str "Visual Pinball")
  = Some (str "Visual Pinball"
          ++ (str "SEDT" ++ le32 2) ++ (str "CODE" ++ str "Dim x") ++ (str "ENDB" ++ [])
          ++ []).
Proof.
  apply (hash_feeds_records
           [Plain (str "SEDT") (le32 2); Script (str "Dim x"); Plain (str "ENDB") []]);
    vm_compute; reflexivity.
Defined.

(** ** Items of an unknown kind (C8) *)

(** C8: a source item whose leading 32-bit type code lies outside of the
    table of the known kinds does not stop the merge: its bytes are written
    to the next destination stream as they are, and neither the image sets
    nor the lists of lights and flashers change. *)
Theorem unknown_kind_copied (sc : scene) (data0 : list Z) (st : pass_state)
    (item_type : Z) (r : reader) :
  get_32 (BIFF_reader data0) = Some (item_type, r) ->
  item_type < 0 \/ Z.of_nat (length prefix) <= item_type ->
  process_item sc data0 st
  = Some {| ps_dst := create_gamestg (ps_dst st)
                        (indexed "GameItem" (n_game_items st)) data0;
            n_game_items := S (n_game_items st);
            used_images := used_images st; removed_images := removed_images st;
            table_lights := table_lights st; table_flashers := table_flashers st;
            needs_playfield_physics := needs_playfield_physics st |}.
Proof.
  intros Hget Hkind. unfold process_item. rewrite Hget. cbn [mbind option_bind].
  destruct ((item_type <? 0) || (Z.of_nat (length prefix) <=? item_type)) eqn:E.
  - reflexivity.
  - apply orb_false_iff in E as [E1 E2]. lia.
Qed.

Lemma unknown_kind_copied_witness :
  process_item (mk_scene mode_remove_all None [] [] [] true)
    (le32 99 ++ [1; 2; 3]) (pass_init (mk_dst [] [] false))
  = Some {| ps_dst := mk_dst [(indexed "GameItem" 0, le32 99 ++ [1; 2; 3])] [] false;
            n_game_items := 1; used_images := ∅; removed_images := ∅;
            table_lights := []; table_flashers := [];
            needs_playfield_physics := true |}.
Proof.
  refine (unknown_kind_copied (mk_scene mode_remove_all None [] [] [] true)
            (le32 99 ++ [1; 2; 3]) (pass_init (mk_dst [] [] false)) 99
            (skip (BIFF_reader (le32 99 ++ [1; 2; 3])) 4) _ _).
  - vm_compute. reflexivity.
  - right. vm_compute. discriminate.
Defined.

(** ** The writer emits records *)

Lemma pack_u32_Some (v : Z) (b : list Z) : pack_u32 v = Some b -> b = le32 v.
Proof.
  unfold pack_u32. destruct ((0 <=? v) && (v <? 4294967296)); intros H; congruence.
Qed.

Lemma write_tagged_data_closed (w w' : writer) (t v : list Z) :
  wopen w = None ->
  write_tagged_data w t v = Some w' ->
  wopen w' = None /\ wdata w' = wdata w ++ encode_record (t, v).
Proof.
  intros Hw. unfold write_tagged_data, new_tag, end_tag. rewrite Hw.
  cbn [mbind option_bind wdata wopen write_data]. unfold record_bytes.
  destruct (pack_u32 (4 + len ([] ++ v))) as [n|] eqn:E; cbn [mbind option_bind]; [|discriminate].
  intros [= <-]. apply pack_u32_Some in E. subst n. split; [reflexivity|].
  cbn [wdata]. unfold encode_record. rewrite app_nil_l. reflexivity.
Qed.

Lemma write_tagged_u32_closed (w w' : writer) (t : list Z) (v : Z) :
  wopen w = None ->
  write_tagged_u32 w t v = Some w' ->
  wopen w' = None /\ wdata w' = wdata w ++ encode_record (t, le32 v).
Proof.
  intros Hw. unfold write_tagged_u32, new_tag, end_tag, write_u32. rewrite Hw.
  cbn [mbind option_bind wdata wopen write_data].
  destruct (pack_u32 v) as [b|] eqn:Eb; cbn [mbind option_bind]; [|discriminate].
  apply pack_u32_Some in Eb. subst b.
  cbn [wdata wopen write_data]. unfold record_bytes.
  destruct (pack_u32 (4 + len ([] ++ le32 v))) as [n|] eqn:E;
    cbn [mbind option_bind]; [|discriminate].
  intros [= <-]. apply pack_u32_Some in E. subst n. split; [reflexivity|].
  cbn [wdata]. unfold encode_record. rewrite app_nil_l. reflexivity.
Qed.

(** ** The width of the indices (C5) *)

Section Mesh.

Variable V : Type.
Variable vertex_eqb : V -> V -> bool.
Variable pack_vertex : V -> option (list Z).
Variable compress : list Z -> list Z.

(** The counter of the loop is the number of the vertices kept. *)
Let counted (m : mesh_state V) : Prop :=
  n_vertices m = Z.of_nat (length (vertices m)).

Lemma add_vertex_counted (m : mesh_state V) (v : V) :
  counted m -> counted (add_vertex V vertex_eqb m v).
Proof.
  unfold counted, add_vertex. intros H.
  destruct (dict_get V vertex_eqb (vert_dict m) v); cbn [n_vertices vertices].
  - exact H.
  - rewrite length_app. cbn [length]. lia.
Qed.

Lemma foldl_add_vertex_counted (l : list V) (m : mesh_state V) :
  counted m -> counted (foldl (add_vertex V vertex_eqb) m l).
Proof.
  revert m. induction l as [|v l IH]; intros m H; cbn [foldl]; [exact H|].
  apply IH, add_vertex_counted, H.
Qed.

Lemma build_mesh_counted (polygons : list (list V)) : counted (build_mesh V vertex_eqb polygons).
Proof.
  unfold build_mesh.
  assert (G : forall l m, counted m -> counted (foldl (add_polygon V vertex_eqb) m l)).
  { induction l as [|p l IH]; intros m H; cbn [foldl]; [exact H|].
    apply IH. unfold add_polygon. destruct (bool_decide (length p = 3%nat)); [|exact H].
    apply foldl_add_vertex_counted, H. }
  apply G. reflexivity.
Qed.

End Mesh.

Lemma mapM_cons_Some {A B : Type} (f : A -> option B) (x : A) (l : list A) (k : list B) :
  mapM f (x :: l) = Some k ->
  exists y k', f x = Some y /\ mapM f l = Some k' /\ k = y :: k'.
Proof.
  cbn [mapM]. destruct (f x) as [y|]; cbn [mbind option_bind]; [|discriminate].
  destruct (mapM f l) as [k'|]; cbn [mbind option_bind mret option_ret]; [|discriminate].
  intros [= <-]. eauto.
Qed.

Lemma pack_indices_Some (wide : bool) (l ib : list Z) :
  pack_indices wide l = Some ib ->
  exists bs, mapM (if wide then pack_u32 else pack_u16) l = Some bs /\ ib = concat bs.
Proof.
  unfold pack_indices. destruct (mapM _ l) as [bs|]; cbn [fmap option_fmap option_map];
    [|discriminate].
  intros [= <-]. eauto.
Qed.

Lemma pack_indices_narrow (l ib : list Z) :
  pack_indices false l = Some ib -> ib = flat_map le16 l.
Proof.
  intros H. apply pack_indices_Some in H as (bs & H & ->).
  revert bs H. induction l as [|x l IH]; intros bs H.
  - cbn in H. injection H as <-. reflexivity.
  - apply mapM_cons_Some in H as (y & k' & Hx & Hl & ->).
    unfold pack_u16 in Hx. destruct ((0 <=? x) && (x <? 65536)); [|discriminate Hx].
    injection Hx as <-. cbn [concat flat_map]. rewrite (IH k' Hl). reflexivity.
Qed.

Lemma pack_indices_wide (l ib : list Z) :
  pack_indices true l = Some ib -> ib = flat_map le32 l.
Proof.
  intros H. apply pack_indices_Some in H as (bs & H & ->).
  revert bs H. induction l as [|x l IH]; intros bs H.
  - cbn in H. injection H as <-. reflexivity.
  - apply mapM_cons_Some in H as (y & k' & Hx & Hl & ->).
    apply pack_u32_Some in Hx. subst y.
    cbn [concat flat_map]. rewrite (IH k' Hl). reflexivity.
Qed.

Lemma mapM_cons_eq {A B : Type} (f : A -> option B) (x : A) (l : list A) (y : B)
    (k : list B) :
  f x = Some y -> mapM f l = Some k -> mapM f (x :: l) = Some (y :: k).
Proof. intros Hx Hl. cbn [mapM]. rewrite Hx, Hl. reflexivity. Qed.

Lemma pack_indices_narrow_total (l : list Z) :
  Forall (fun i => 0 <= i < 65536) l -> pack_indices false l = Some (flat_map le16 l).
Proof.
  intros H. unfold pack_indices.
  assert (Hm : mapM pack_u16 l = Some (map le16 l)).
  { induction H as [|x l Hx Hl IH]; [reflexivity|]. cbn [map].
    apply mapM_cons_eq; [|exact IH]. unfold pack_u16.
    replace ((0 <=? x) && (x <? 65536)) with true; [reflexivity|].
    symmetry. apply andb_true_iff. split; [apply Z.leb_le|apply Z.ltb_lt]; lia. }
  rewrite Hm. cbn [fmap option_fmap option_map]. f_equal.
  clear. induction l as [|x l IH]; [reflexivity|]. cbn [map concat flat_map]. rewrite IH.
  reflexivity.
Qed.

Lemma pack_indices_wide_total (l : list Z) :
  Forall (fun i => 0 <= i < 4294967296) l -> pack_indices true l = Some (flat_map le32 l).
Proof.
  intros H. unfold pack_indices.
  assert (Hm : mapM pack_u32 l = Some (map le32 l)).
  { induction H as [|x l Hx Hl IH]; [reflexivity|]. cbn [map].
    apply mapM_cons_eq; [|exact IH]. apply pack_u32_le32, Hx. }
  rewrite Hm. cbn [fmap option_fmap option_map]. f_equal.
  clear. induction l as [|x l IH]; [reflexivity|]. cbn [map concat flat_map]. rewrite IH.
  reflexivity.
Qed.

Lemma len_flat_map_le16 (l : list Z) : len (flat_map le16 l) = 2 * len l.
Proof.
  induction l as [|x l IH]; [reflexivity|].
  cbn [flat_map]. rewrite len_app, IH, len_cons. unfold le16, len. cbn [length]. lia.
Qed.

Lemma len_flat_map_le32 (l : list Z) : len (flat_map le32 l) = 4 * len l.
Proof.
  induction l as [|x l IH]; [reflexivity|].
  cbn [flat_map]. rewrite len_app, IH, len_cons, len_le32. lia.
Qed.

Lemma write_tagged_u32_total (w : writer) (t : list Z) (v : Z) :
  wopen w = None -> 0 <= v < 4294967296 ->
  write_tagged_u32 w t v
  = Some {| wdata := wdata w ++ encode_record (t, le32 v); wopen := None |}.
Proof.
  intros Hw Hv. unfold write_tagged_u32, new_tag, end_tag, write_u32. rewrite Hw.
  cbn [mbind option_bind wdata wopen write_data]. rewrite (pack_u32_le32 v Hv).
  cbn [mbind option_bind wdata wopen write_data]. unfold record_bytes.
  rewrite app_nil_l, len_le32. rewrite (pack_u32_le32 (4 + 4)) by lia.
  cbn [mbind option_bind]. unfold encode_record. cbn [fst snd]. rewrite len_le32.
  reflexivity.
Qed.

Lemma write_tagged_data_total (w : writer) (t v : list Z) :
  wopen w = None -> 4 + len v < 4294967296 ->
  write_tagged_data w t v
  = Some {| wdata := wdata w ++ encode_record (t, v); wopen := None |}.
Proof.
  intros Hw Hv. unfold write_tagged_data, new_tag, end_tag. rewrite Hw.
  cbn [mbind option_bind wdata wopen write_data]. unfold record_bytes.
  rewrite app_nil_l. pose proof (len_nonneg v).
  rewrite (pack_u32_le32 (4 + len v)) by lia.
  cbn [mbind option_bind]. reflexivity.
Qed.

Section MeshW.

Variable V : Type.
Variable vertex_eqb : V -> V -> bool.
Variable pack_vertex : V -> option (list Z).
Variable compress : list Z -> list Z.

Lemma compressed_indices_bytes (m : mesh_state V) (ci : list Z) :
  compressed_indices V compress m = Some ci -> ci = compress (index_bytes m).
Proof.
  unfold compressed_indices, index_bytes.
  destruct (65535 <? n_vertices m) eqn:E1; destruct (n_vertices m <? 65536) eqn:E2; try lia.
  - destruct (pack_indices true (indices m)) as [ib|] eqn:E;
      cbn [fmap option_fmap option_map]; [|discriminate].
    intros [= <-]. rewrite (pack_indices_wide _ _ E). reflexivity.
  - destruct (pack_indices false (indices m)) as [ib|] eqn:E;
      cbn [fmap option_fmap option_map]; [|discriminate].
    intros [= <-]. rewrite (pack_indices_narrow _ _ E). reflexivity.
Qed.

(** C5: the index buffer of a bake mesh is packed with two bytes per index,
    low byte first, while the count of the vertices left by the removal of
    duplicates is below 65536, and with four bytes per index from 65536 on
    (so two bytes at 65535 vertices and four at 65536); the packed vertices
    and the packed indices both go through the compression before they are
    written, as the payloads of M3CX and M3CI. *)
Theorem index_width_switch (polygons : list (list V)) (w w' : writer) :
  wopen w = None ->
  write_mesh V pack_vertex compress w (build_mesh V vertex_eqb polygons) = Some w' ->
  let m := build_mesh V vertex_eqb polygons in
  exists vb : list (list Z),
    mapM pack_vertex (vertices m) = Some vb
    /\ n_vertices m = Z.of_nat (length (vertices m))
    /\ index_bytes m
       = (if n_vertices m <? 65536 then flat_map le16 (indices m)
          else flat_map le32 (indices m))
    /\ len (index_bytes m) = (if n_vertices m <? 65536 then 2 else 4) * len (indices m)
    /\ wdata w' = wdata w
         ++ encode_records
              [(str "M3VN", le32 (n_vertices m));
               (str "M3CY", le32 (len (compress (concat vb))));
               (str "M3CX", compress (concat vb));
               (str "M3FN", le32 (len (indices m)));
               (str "M3CJ", le32 (len (compress (index_bytes m))));
               (str "M3CI", compress (index_bytes m))]
    /\ (forall idx vs d,
          Forall (fun i => 0 <= i < 65536) idx ->
          compressed_indices V compress (mk_mesh idx vs d 65536)
          = Some (compress (flat_map le32 idx))
          /\ compressed_indices V compress (mk_mesh idx vs d 65535)
             = Some (compress (flat_map le16 idx))).
Proof.
  intros Hw Hwrite m.
  unfold write_mesh in Hwrite. fold m in Hwrite.
  destruct (write_tagged_u32 w (str "M3VN") (n_vertices m)) as [w1|] eqn:E1;
    cbn [mbind option_bind] in Hwrite; [|discriminate].
  apply write_tagged_u32_closed in E1 as [O1 D1]; [|exact Hw].
  unfold compressed_vertices in Hwrite.
  destruct (mapM pack_vertex (vertices m)) as [vb|] eqn:Ev;
    cbn [fmap option_fmap option_map mbind option_bind] in Hwrite; [|discriminate].
  destruct (write_tagged_u32 w1 _ _) as [w2|] eqn:E2;
    cbn [mbind option_bind] in Hwrite; [|discriminate].
  apply write_tagged_u32_closed in E2 as [O2 D2]; [|exact O1].
  destruct (write_tagged_data w2 _ _) as [w3|] eqn:E3;
    cbn [mbind option_bind] in Hwrite; [|discriminate].
  apply write_tagged_data_closed in E3 as [O3 D3]; [|exact O2].
  destruct (write_tagged_u32 w3 _ _) as [w4|] eqn:E4;
    cbn [mbind option_bind] in Hwrite; [|discriminate].
  apply write_tagged_u32_closed in E4 as [O4 D4]; [|exact O3].
  destruct (compressed_indices V compress m) as [ci|] eqn:Ei;
    cbn [mbind option_bind] in Hwrite; [|discriminate].
  apply compressed_indices_bytes in Ei. subst ci.
  destruct (write_tagged_u32 w4 _ _) as [w5|] eqn:E5;
    cbn [mbind option_bind] in Hwrite; [|discriminate].
  apply write_tagged_u32_closed in E5 as [O5 D5]; [|exact O4].
  apply write_tagged_data_closed in Hwrite as [O6 D6]; [|exact O5].
  exists vb.
  split; [reflexivity|].
  split; [apply build_mesh_counted|].
  split; [reflexivity|].
  split.
  { unfold index_bytes. destruct (n_vertices m <? 65536);
      [apply len_flat_map_le16|apply len_flat_map_le32]. }
  split.
  { rewrite D6, D5, D4, D3, D2, D1. unfold encode_records. cbn [flat_map].
    rewrite <- !app_assoc. rewrite app_nil_r. reflexivity. }
  intros idx vs d Hidx. unfold compressed_indices. cbn [n_vertices indices].
  change (65535 <? 65536) with true. change (65535 <? 65535) with false.
  rewrite pack_indices_narrow_total by exact Hidx.
  rewrite pack_indices_wide_total
    by (eapply Forall_impl; [exact Hidx|]; cbn; intros; lia).
  split; reflexivity.
Qed.

(** When no two loops are equal for the dictionary, every loop is a vertex
    of its own. *)
Lemma build_mesh_all_fresh (polygons : list (list V)) :
  (forall a b, vertex_eqb a b = false) ->
  build_mesh V vertex_eqb polygons
  = {| indices := map Z.of_nat (seq 0 (length (mesh_loops polygons)));
       vertices := mesh_loops polygons;
       vert_dict := imap (fun i v => (v, Z.of_nat i)) (mesh_loops polygons);
       n_vertices := Z.of_nat (length (mesh_loops polygons)) |}.
Proof.
  intros Hfresh.
  set (state := fun loops : list V =>
         {| indices := map Z.of_nat (seq 0 (length loops)); vertices := loops;
            vert_dict := imap (fun i v => (v, Z.of_nat i)) loops;
            n_vertices := Z.of_nat (length loops) |}).
  assert (Hget : forall d v, dict_get V vertex_eqb d v = None).
  { intros d v. unfold dict_get. induction d as [|kv d IH]; [reflexivity|].
    cbn [find]. rewrite Hfresh. exact IH. }
  assert (Hv : forall loops v, add_vertex V vertex_eqb (state loops) v = state (loops ++ [v])).
  { intros loops v. unfold add_vertex. rewrite Hget. unfold state.
    cbn [indices vertices vert_dict n_vertices].
    rewrite length_app, imap_app. cbn [length imap].
    rewrite Nat.add_1_r, seq_S, map_app. cbn [map Nat.add].
    rewrite Nat.add_0_r. f_equal. lia. }
  assert (Hvs : forall l loops,
             foldl (add_vertex V vertex_eqb) (state loops) l = state (loops ++ l)).
  { induction l as [|v l IH]; intros loops; cbn [foldl]; [rewrite app_nil_r; reflexivity|].
    rewrite Hv, IH, <- app_assoc. reflexivity. }
  assert (Hps : forall l loops,
             foldl (add_polygon V vertex_eqb) (state loops) l
             = state (loops ++ mesh_loops l)).
  { induction l as [|p l IH]; intros loops; cbn [foldl].
    - unfold mesh_loops. cbn. rewrite app_nil_r. reflexivity.
    - unfold mesh_loops. cbn [List.filter]. unfold add_polygon.
      destruct (bool_decide (length p = 3%nat)).
      + rewrite Hvs, IH. cbn [flat_map]. rewrite <- app_assoc. reflexivity.
      + apply IH. }
  unfold build_mesh. apply (Hps polygons []).
Qed.

(** The mesh is written when its vertices pack and its numbers fit their
    fields. *)
Lemma write_mesh_total (m : mesh_state V) (w : writer) (vb : list (list Z)) :
  wopen w = None ->
  mapM pack_vertex (vertices m) = Some vb ->
  Forall (fun i => 0 <= i < (if n_vertices m <? 65536 then 65536 else 4294967296))
         (indices m) ->
  0 <= n_vertices m < 4294967296 ->
  4 + len (compress (concat vb)) < 4294967296 ->
  len (indices m) < 4294967296 ->
  4 + len (compress (index_bytes m)) < 4294967296 ->
  exists w' : writer, write_mesh V pack_vertex compress w m = Some w'.
Proof.
  intros Hw Hvb Hidx Hn Hcv Hni Hci. unfold write_mesh.
  rewrite (write_tagged_u32_total w _ _ Hw Hn). cbn [mbind option_bind].
  unfold compressed_vertices. rewrite Hvb. cbn [fmap option_fmap option_map mbind option_bind].
  pose proof (len_nonneg (compress (concat vb))).
  rewrite write_tagged_u32_total by (reflexivity || lia). cbn [mbind option_bind].
  rewrite write_tagged_data_total by (reflexivity || lia). cbn [mbind option_bind].
  pose proof (len_nonneg (indices m)).
  rewrite write_tagged_u32_total by (reflexivity || lia). cbn [mbind option_bind].
  assert (Hpack : compressed_indices V compress m = Some (compress (index_bytes m))).
  { unfold compressed_indices, index_bytes.
    destruct (65535 <? n_vertices m) eqn:E1; destruct (n_vertices m <? 65536) eqn:E2;
      try lia.
    - rewrite pack_indices_wide_total by exact Hidx. reflexivity.
    - rewrite pack_indices_narrow_total by exact Hidx. reflexivity. }
  rewrite Hpack. cbn [mbind option_bind].
  pose proof (len_nonneg (compress (index_bytes m))).
  rewrite write_tagged_u32_total by (reflexivity || lia). cbn [mbind option_bind].
  rewrite write_tagged_data_total by (reflexivity || lia). eauto.
Qed.

End MeshW.

Lemma mesh_loops_replicate {V : Type} (k : nat) (a b c : V) :
  length (mesh_loops (replicate k [a; b; c])) = (3 * k)%nat.
Proof.
  unfold mesh_loops. induction k as [|k IH]; [reflexivity|].
  cbn [replicate List.filter]. rewrite bool_decide_eq_true_2 by reflexivity.
  cbn [flat_map]. rewrite length_app, length_reverse, IH. cbn [length]. lia.
Qed.

Lemma mapM_empty_bytes {A : Type} (l : list A) :
  mapM (fun _ : A => Some ([] : list Z)) l = Some (map (fun _ => []) l)
  /\ concat (map (fun _ : A => ([] : list Z)) l) = [].
Proof.
  induction l as [|x l [IH1 IH2]]; [split; reflexivity|]. split.
  - cbn [map]. apply mapM_cons_eq; [reflexivity|exact IH1].
  - cbn [map concat app]. exact IH2.
Qed.

Lemma large_mesh_state :
  build_mesh Z (fun _ _ => false) example_large_mesh
  = {| indices := map Z.of_nat (seq 0 (Z.to_nat 65538));
       vertices := mesh_loops example_large_mesh;
       vert_dict := imap (fun i v => (v, Z.of_nat i)) (mesh_loops example_large_mesh);
       n_vertices := Z.of_nat (Z.to_nat 65538) |}.
Proof.
  pose proof (build_mesh_all_fresh Z (fun _ _ => false) example_large_mesh
                (fun _ _ => eq_refl)) as Hm.
  assert (Hn : length (mesh_loops example_large_mesh) = Z.to_nat 65538).
  { unfold example_large_mesh. rewrite mesh_loops_replicate. lia. }
  rewrite Hn in Hm. exact Hm.
Qed.

Lemma large_mesh_vertices :
  n_vertices (build_mesh Z (fun _ _ => false) example_large_mesh) = 65538.
Proof. rewrite large_mesh_state. cbn [n_vertices]. lia. Qed.

Lemma large_mesh_indices :
  len (indices (build_mesh Z (fun _ _ => false) example_large_mesh)) = 65538.
Proof.
  rewrite large_mesh_state. cbn [indices]. unfold len. rewrite length_map, length_seq. lia.
Qed.

Lemma large_mesh_index_bytes :
  len (index_bytes (build_mesh Z (fun _ _ => false) example_large_mesh)) = 4 * 65538.
Proof.
  unfold index_bytes. rewrite large_mesh_vertices. change (65538 <? 65536) with false.
  cbv iota. rewrite len_flat_map_le32, large_mesh_indices. reflexivity.
Qed.

Lemma large_mesh_written :
  exists w' : writer,
    write_mesh Z (fun v => Some []) (fun b => le32 (len b)) BIFF_writer
      (build_mesh Z (fun _ _ => false) example_large_mesh) = Some w'.
Proof.
  destruct (mapM_empty_bytes (vertices (build_mesh Z (fun _ _ => false) example_large_mesh)))
    as [Hvb Hc].
  apply (write_mesh_total Z (fun v => Some []) (fun b => le32 (len b))
           (build_mesh Z (fun _ _ => false) example_large_mesh) BIFF_writer _ eq_refl Hvb).
  - rewrite large_mesh_vertices. change (65538 <? 65536) with false. cbv iota.
    rewrite large_mesh_state. cbn [indices].
    apply Forall_forall. intros i Hi. apply list_elem_of_fmap in Hi as (k & -> & Hk).
    apply elem_of_seq in Hk. lia.
  - rewrite large_mesh_vertices. lia.
  - rewrite len_le32. lia.
  - rewrite large_mesh_indices. lia.
  - rewrite len_le32. lia.
Qed.

Lemma index_width_switch_witness :
  (exists w' : writer,
     write_mesh Z (fun v => Some (le32 v)) (fun b => 120 :: b) BIFF_writer
       (build_mesh Z Z.eqb [[1; 2; 3]; [3; 2; 4]; [5; 6]]) = Some w'
     /\ wdata w'
        = encode_records
            [(str "M3VN", le32 4);
             (str "M3CY", le32 17);
             (str "M3CX", 120 :: le32 3 ++ le32 2 ++ le32 1 ++ le32 4);
             (str "M3FN", le32 6);
             (str "M3CJ", le32 13);
             (str "M3CI", [120; 0; 0; 1; 0; 2; 0; 3; 0; 1; 0; 0; 0])])
  /\ (exists w' : writer,
        write_mesh Z (fun v => Some []) (fun b => le32 (len b)) BIFF_writer
          (build_mesh Z (fun _ _ => false) example_large_mesh) = Some w'
        /\ wdata w'
           = encode_records
               [(str "M3VN", le32 65538);
                (str "M3CY", le32 4);
                (str "M3CX", le32 0);
                (str "M3FN", le32 65538);
                (str "M3CJ", le32 4);
                (str "M3CI", le32 (4 * 65538))]).
Proof.
  split.
  - destruct (write_mesh Z (fun v => Some (le32 v)) (fun b => 120 :: b) BIFF_writer
                (build_mesh Z Z.eqb [[1; 2; 3]; [3; 2; 4]; [5; 6]])) as [w'|] eqn:E.
    + exists w'. split; [reflexivity|].
      destruct (index_width_switch Z Z.eqb (fun v => Some (le32 v)) (fun b => 120 :: b)
                  [[1; 2; 3]; [3; 2; 4]; [5; 6]] BIFF_writer w' eq_refl E)
        as (vb & Hvb & _ & _ & _ & Hdata & _).
      vm_compute in Hvb. apply Some_inj in Hvb. subst vb.
      rewrite Hdata. vm_compute. reflexivity.
    + vm_compute in E. discriminate.
  - destruct large_mesh_written as [w' E]. exists w'. split; [exact E|].
    destruct (mapM_empty_bytes
                (vertices (build_mesh Z (fun _ _ => false) example_large_mesh)))
      as [Hvb Hc].
    destruct (index_width_switch Z (fun _ _ => false) (fun v => Some [])
                (fun b => le32 (len b)) example_large_mesh BIFF_writer w' eq_refl E)
      as (vb & Hvb' & _ & _ & _ & Hdata & _).
    rewrite Hvb in Hvb'. apply Some_inj in Hvb'. subst vb.
    rewrite Hdata, Hc, large_mesh_index_bytes, large_mesh_vertices, large_mesh_indices,
      !len_le32.
    reflexivity.
Defined.

(** ** Images that lost their users (C3) *)

(** C3, as the code has it: the stream of a source image whose name was
    recorded as a removal candidate is left out of the destination exactly
    when the name starts with [VLM.] (an image of an earlier export), or the
    export mode is [remove_all] and no kept item recorded the name as used.
    So under the mode [remove] an image of another name stays, also when
    only dropped items referred to it. *)
Theorem candidate_image_removal (mode : export_mode)
    (used removed : gmap (list Z) (list (list Z)))
    (data0 name : list Z) (st : image_state) :
  find_string (S (length data0)) "NAME" (BIFF_reader data0) = Some (Some name) ->
  is_Some (removed !! name) ->
  process_image mode used removed data0 st
  = Some (if startswith name (str "VLM.")
             || (bool_decide (mode = mode_remove_all) && bool_decide (used !! name = None))
          then st
          else {| is_dst := create_gamestg (is_dst st) (indexed "Image" (n_images st)) data0;
                  n_images := S (n_images st) |})
  /\ (mode = mode_remove -> startswith name (str "VLM.") = false ->
      process_image mode used removed data0 st
      = Some {| is_dst := create_gamestg (is_dst st) (indexed "Image" (n_images st)) data0;
                n_images := S (n_images st) |}).
Proof.
  intros Hname Hcand. unfold process_image. rewrite Hname.
  cbn [mbind option_bind default from_option id]. unfold image_removed.
  rewrite (bool_decide_eq_true_2 _ Hcand). rewrite andb_true_r.
  split.
  - destruct (startswith name (str "VLM.")
              || bool_decide (mode = mode_remove_all) && bool_decide (used !! name = None));
      reflexivity.
  - intros -> ->. reflexivity.
Qed.

(** Scenario B of the specification: the texture [background] is used by one
    item, which the mode [remove] drops; the texture stays. *)
Lemma candidate_image_removal_witness :
  let image := encode_records [(str "NAME", string_payload (str "background"));
                               (str "ENDB", [])] in
  let st := {| is_dst := mk_dst [] [] false; n_images := 0 |} in
  process_image mode_remove ∅ {[ str "background" := [str "Wall1"] ]} image st
  = Some {| is_dst := mk_dst [(indexed "Image" 0, image)] [] false; n_images := 1 |}.
Proof.
  intros image st.
  refine (proj2 (candidate_image_removal mode_remove ∅
                   {[ str "background" := [str "Wall1"] ]} image (str "background") st
                   _ _) eq_refl _).
  - vm_compute. reflexivity.
  - vm_compute. eexists. reflexivity.
  - vm_compute. reflexivity.
Defined.

(** The claim as it was stated fails on an image of an earlier export: the
    item [VLM.Old] is dropped in every mode, its image [VLM.Packmap0] becomes a
    removal candidate that no kept item uses, and the image stream is left
    out although the mode is not [remove_all]. *)
Lemma candidate_image_removal_counterexample :
  let sc := mk_scene mode_default None [] [] [] true in
  let item := item_bytes 19 [(str "NAME", wide_payload (str "VLM.Old"));
                             (str "IMAG", string_payload (str "VLM.Packmap0"));
                             (str "ENDB", [])] in
  let image := encode_records [(str "NAME", string_payload (str "VLM.Packmap0"));
                               (str "ENDB", [])] in
  exists (st : pass_state) (ims : image_state),
    item_pass sc [item] (pass_init (mk_dst [] [] false)) = Some st
    /\ is_Some (removed_images st !! str "VLM.Packmap0")
    /\ used_images st !! str "VLM.Packmap0" = None
    /\ image_pass (sc_export_mode sc) (used_images st) (removed_images st) [image]
         {| is_dst := ps_dst st; n_images := 0 |} = Some ims
    /\ dst_gamestg (is_dst ims) = []
    /\ sc_export_mode sc <> mode_remove_all.
Proof.
  intros sc item image.
  destruct (item_pass sc [item] (pass_init (mk_dst [] [] false))) as [st|] eqn:E;
    [|vm_compute in E; discriminate].
  exists st.
  destruct (image_pass (sc_export_mode sc) (used_images st) (removed_images st) [image]
              {| is_dst := ps_dst st; n_images := 0 |}) as [ims|] eqn:E2.
  - exists ims. vm_compute in E. injection E as <-.
    vm_compute in E2. injection E2 as <-.
    split; [reflexivity|]. split; [vm_compute; eexists; reflexivity|].
    split; [vm_compute; reflexivity|]. split; [reflexivity|].
    split; [reflexivity|]. discriminate.
  - vm_compute in E. injection E as <-. vm_compute in E2. discriminate.
Qed.

(** ** A missing packed texture (C9) *)

(** The passes before the commit leave the destination uncommitted. *)
Lemma process_item_committed (sc : scene) (d : list Z) (st st' : pass_state) :
  process_item sc d st = Some st' ->
  dst_committed (ps_dst st') = dst_committed (ps_dst st).
Proof.
  unfold process_item. intros H.
  destruct (get_32 (BIFF_reader d)) as [[ty r0]|]; cbn [mbind option_bind] in H;
    [|discriminate].
  destruct ((ty <? 0) || (Z.of_nat (length prefix) <=? ty)).
  - injection H as <-. reflexivity.
  - destruct (find_name _ r0) as [found|]; cbn [mbind option_bind] in H; [|discriminate].
    destruct (patch_loop _ _ _ _ _ _ _) as [s|]; cbn [mbind option_bind] in H;
      [|discriminate].
    injection H as <-. cbn [ps_dst].
    destruct (item_removed _ _ _ _); reflexivity.
Qed.

Lemma item_pass_committed (sc : scene) (items : list (list Z)) :
  forall st st', item_pass sc items st = Some st' ->
                 dst_committed (ps_dst st') = dst_committed (ps_dst st).
Proof.
  induction items as [|d items IH]; intros st st' H; cbn [item_pass] in H.
  - injection H as <-. reflexivity.
  - destruct (process_item sc d st) as [st1|] eqn:E; cbn [mbind option_bind] in H;
      [|discriminate].
    rewrite (IH _ _ H). eapply process_item_committed, E.
Qed.

Lemma image_pass_committed (mode : export_mode)
    (used removed : gmap (list Z) (list (list Z))) (images : list (list Z)) :
  forall st st', image_pass mode used removed images st = Some st' ->
                 dst_committed (is_dst st') = dst_committed (is_dst st).
Proof.
  induction images as [|d images IH]; intros st st' H; cbn [image_pass] in H.
  - injection H as <-. reflexivity.
  - destruct (process_image mode used removed d st) as [st1|] eqn:E;
      cbn [mbind option_bind] in H; [|discriminate].
    rewrite (IH _ _ H). unfold process_image in E.
    destruct (find_string _ _ _); cbn [mbind option_bind] in E; [|discriminate].
    destruct (image_removed _ _ _ _); injection E as <-; reflexivity.
Qed.

(** The objects of the groups from [i] on bound the turns of the loop over
    the groups. *)
Lemma later_le {V : Type} (i : Z) (l : list (result_object V)) :
  (length (filter (fun obj => (i + 1 <= ro_bake_nestmap obj)%Z) l)
   <= length (filter (fun obj => (i <= ro_bake_nestmap obj)%Z) l))%nat.
Proof.
  induction l as [|x l IH]; [reflexivity|]. rewrite !filter_cons.
  destruct (decide (i + 1 <= ro_bake_nestmap x)).
  - rewrite decide_True by lia. cbn [length]. lia.
  - destruct (decide (i <= ro_bake_nestmap x)); cbn [length]; lia.
Qed.

Lemma later_shrinks {V : Type} (i : Z) (l : list (result_object V)) :
  filter (fun obj => ro_bake_nestmap obj = i) l <> [] ->
  (length (filter (fun obj => (i + 1 <= ro_bake_nestmap obj)%Z) l)
   < length (filter (fun obj => (i <= ro_bake_nestmap obj)%Z) l))%nat.
Proof.
  induction l as [|o l IH]; [intros H; contradiction|].
  rewrite !filter_cons. intros H.
  destruct (decide (ro_bake_nestmap o = i)) as [Heq|Hne].
  - rewrite decide_False by lia. rewrite decide_True by lia. cbn [length].
    pose proof (later_le i l). lia.
  - specialize (IH H).
    destruct (decide (i + 1 <= ro_bake_nestmap o)).
    + rewrite decide_True by lia. cbn [length]. lia.
    + destruct (decide (i <= ro_bake_nestmap o)); cbn [length]; lia.
Qed.

Section Nestmaps.

Variable V : Type.
Variable vertex_eqb : V -> V -> bool.
Variable pack_vertex : V -> option (list Z).
Variable compress : list Z -> list Z.

Lemma add_bakes_committed (sc : scene) (objs : list (result_object V)) :
  forall st st', add_bakes V vertex_eqb pack_vertex compress sc objs st = Some st' ->
                 dst_committed (bs_dst st') = dst_committed (bs_dst st).
Proof.
  induction objs as [|o objs IH]; intros st st' H; cbn [add_bakes] in H.
  - injection H as <-. reflexivity.
  - destruct (add_bake V vertex_eqb pack_vertex compress sc o st) as [st1|] eqn:E;
      cbn [mbind option_bind] in H; [|discriminate].
    rewrite (IH _ _ H). unfold add_bake in E.
    destruct (bake_item _ _ _ _ _ _); cbn [mbind option_bind] in E; [|discriminate].
    injection E as <-. reflexivity.
Qed.

Variable env : environment.
Variable result_col : list (result_object V).

(** The objects of the group [i]. *)
Let group (i : Z) : list (result_object V) :=
  filter (fun obj => ro_bake_nestmap obj = i) result_col.

(** The loop over the groups is given turns enough. *)
Lemma add_nestmaps_fuel (fuel : nat) :
  forall (i : Z) (st : image_state),
    (length (filter (fun obj => (i <= ro_bake_nestmap obj)%Z) result_col) < fuel)%nat ->
    add_nestmaps V env result_col fuel i st <> Raise OutOfFuel.
Proof.
  induction fuel as [|fuel IH]; intros i st Hfuel; [lia|].
  cbn [add_nestmaps]. fold (group i).
  destruct (bool_decide (group i = [])) eqn:E; [discriminate|].
  apply bool_decide_eq_false in E.
  destruct (files env !! _); [|discriminate].
  destruct (nestmap_image env i _ _); cbn [lift py_bind]; [|discriminate].
  apply IH. pose proof (later_shrinks i result_col E). lia.
Qed.

(** The loop cannot pass a group whose file is missing, and what it returns
    is as committed as what it was given. *)
Lemma add_nestmaps_missing (k : Z) (fuel : nat) :
  forall (i : Z) (st : image_state),
    i <= k ->
    (forall j, i <= j <= k -> group j <> []) ->
    files env !! nestmap_path env k (existsb ro_is_hdr (group k)) = None ->
    match add_nestmaps V env result_col fuel i st with
    | Ret (inl _) => False
    | Ret (inr d) => dst_committed d = dst_committed (is_dst st)
    | Raise _ => True
    end.
Proof.
  induction fuel as [|fuel IH]; intros i st Hik Hgroups Hfile; [exact I|].
  cbn [add_nestmaps]. fold (group i).
  rewrite bool_decide_eq_false_2 by (apply Hgroups; lia).
  destruct (files env !! nestmap_path env i (existsb ro_is_hdr (group i))) as [img|] eqn:E.
  - destruct (nestmap_image env i _ img); cbn [lift py_bind]; [|exact I].
    assert (i <> k) by (intros ->; congruence).
    specialize (IH (i + 1) {| is_dst := create_gamestg (is_dst st)
                                          (indexed "Image" (n_images st)) l;
                              n_images := S (n_images st) |}
                   ltac:(lia) ltac:(intros; apply Hgroups; lia) Hfile).
    exact IH.
  - reflexivity.
Qed.

End Nestmaps.

Section Abort.

Variable V : Type.
Variable vertex_eqb : V -> V -> bool.
Variable pack_vertex : V -> option (list Z).
Variable compress : list Z -> list Z.
Variable is_rgb_led : list light_object -> bool.
Variable md2 : list Z -> list Z.

(** C9, as the code has it: when the file of the packed texture of a group
    [k] is missing, and every group from 0 to [k] holds a bake result (the
    loop over the groups stops at the first empty one), the export ends
    before the commit: it does not finish, nothing of the destination is
    visible, and the loop over the groups did not lack turns. *)
Theorem missing_nestmap_aborts (p : project V) (results : list (result_object V)) (k : Z) :
  result_collection p = Some results ->
  0 <= k ->
  (forall j, 0 <= j <= k ->
             filter (fun obj => ro_bake_nestmap obj = j) results <> []) ->
  files (the_env p)
    !! nestmap_path (the_env p) k
         (existsb ro_is_hdr (filter (fun obj => ro_bake_nestmap obj = k) results)) = None ->
  let outcome := export_vpx V vertex_eqb pack_vertex compress is_rgb_led md2 p in
  (forall d, outcome <> FINISHED d)
  /\ visible_after outcome = None
  /\ outcome <> RAISED OutOfFuel.
Proof.
  intros Hres Hk Hgroups Hfile. unfold export_vpx. rewrite Hres.
  destruct (negb (blend_saved p)); [repeat split; discriminate|].
  destruct (table_file p) as [src|]; [|repeat split; discriminate].
  unfold merge.
  destruct (item_pass _ _ _) as [ps|] eqn:Eitems; cbn [lift py_bind];
    [|repeat split; discriminate].
  destruct timer_item as [timer|]; cbn [lift py_bind]; [|repeat split; discriminate].
  destruct (add_bakes _ _ _ _ _ _ _) as [bs|] eqn:Ebakes; cbn [lift py_bind];
    [|repeat split; discriminate].
  destruct (mark_playfield_image _ _ _) as [removed|]; cbn [lift py_bind];
    [|repeat split; discriminate].
  destruct (image_pass _ _ _ _ _) as [ims|] eqn:Eimages; cbn [lift py_bind];
    [|repeat split; discriminate].
  pose proof (add_nestmaps_missing V (the_env p) results k (S (length results)) 0 ims
                Hk Hgroups Hfile) as Hloop.
  pose proof (add_nestmaps_fuel V (the_env p) results (S (length results)) 0 ims) as Hfuel.
  destruct (add_nestmaps V (the_env p) results (S (length results)) 0 ims)
    as [[st|d]|e]; cbn [py_bind].
  - contradiction.
  - split; [discriminate|]. split; [|discriminate].
    cbn [visible_after]. unfold visible. rewrite Hloop.
    apply image_pass_committed in Eimages. cbn [is_dst] in Eimages. rewrite Eimages.
    apply add_bakes_committed in Ebakes. cbn [bs_dst] in Ebakes. rewrite Ebakes.
    apply item_pass_committed in Eitems. cbn [dst_committed create_gamestg].
    rewrite Eitems. reflexivity.
  - split; [discriminate|]. split; [reflexivity|].
    intros [= ->]. apply Hfuel; [|reflexivity].
    pose proof (length_filter (fun obj => (0 <= ro_bake_nestmap obj)%Z) results). lia.
Qed.

End Abort.

Lemma missing_nestmap_aborts_witness :
  let outcome := example_export (example_project "Plastic" (str "Dim x") 0 []) in
  (forall d, outcome <> FINISHED d)
  /\ visible_after outcome = None
  /\ outcome <> RAISED OutOfFuel.
Proof.
  refine (missing_nestmap_aborts Z Z.eqb (fun v => Some (le32 v)) (fun b => b)
            (fun _ => false) (fun fed => take 16 fed)
            (example_project "Plastic" (str "Dim x") 0 []) [example_lightmap 0] 0
            eq_refl _ _ _).
  - lia.
  - intros j Hj. assert (j = 0) as -> by lia. vm_compute. discriminate.
  - vm_compute. reflexivity.
Defined.

(** The claim as it was stated fails when the groups have a gap: the only
    bake result lies in the group 1 and no file of a packed texture exists; the
    loop over the groups stops at the empty group 0, and the export commits a
    destination whose new item refers to the texture [VLM.Packmap1]. *)
Lemma missing_nestmap_counterexample :
  let p := example_project "Plastic" (str "Dim x") 1 [] in
  files (the_env p) = ∅
  /\ result_collection p = Some [example_lightmap 1]
  /\ exists d, example_export p = FINISHED d /\ dst_committed d = true
               /\ is_Some (visible d).
Proof.
  intros p. split; [reflexivity|]. split; [reflexivity|].
  destruct (example_export p) as [d|d|e] eqn:E.
  - exists d. split; [reflexivity|].
    assert (H : dst_committed d = true).
    { vm_compute in E. injection E as <-. reflexivity. }
    split; [exact H|]. unfold visible. rewrite H. eexists. reflexivity.
  - vm_compute in E. discriminate.
  - vm_compute in E. discriminate.
Qed.

(** ** The table of the materials (C2) *)

(** C2 at a table that already holds [VLM.Lightmap] (and lacks the two other
    names): line 486 looks for the name [VLM.Light], so the export adds three
    materials where two are missing; read back, the table declares four
    materials and holds [VLM.Lightmap] twice. *)
Theorem lightmap_material_added_twice :
  let script := patch_script Z (fun _ => false) example_scene [example_lightmap 0]
                  [str "L1"] [] in
  let gd := example_game_data "VLM.Lightmap" (str "Dim x") in
  import_materials (S (length gd)) (BIFF_reader gd) 0 = Some (1, [str "VLM.Lightmap"])
  /\ exists out,
       patch_game_data 1 4 None script gd = Ret out
       /\ import_materials (S (length out)) (BIFF_reader out) 0
          = Some (4, [str "VLM.Bake.Solid"; str "VLM.Bake.Active"; str "VLM.Lightmap";
                      str "VLM.Lightmap"]).
Proof.
  intros script gd. split; [vm_compute; reflexivity|].
  destruct (patch_game_data 1 4 None script gd) as [out|e] eqn:E.
  - exists out. split; [reflexivity|].
    vm_compute in E. injection E as <-. vm_compute. reflexivity.
  - vm_compute in E. discriminate.
Qed.

(** ** The statements of the sync routine (C7) *)

(** A statement of [Sub VLMTimer_Timer] that matches one of the updates ends
    the patch at line 568. *)
Lemma sync_statement_raises (line line_stripped : list Z) (s : script_state)
    (vpx_ref obj_ref intensity sync_color : list Z) (upd : update) :
  match match_update "UpdateLightMapFromLight" line_stripped with
  | Some g => Some g
  | None => match_update "UpdateLightMapFromFlasher" line_stripped
  end = Some (vpx_ref, obj_ref, intensity, sync_color) ->
  vpx_ref <> [] ->
  find (fun u => bool_decide (u_vpx_ref u = Some vpx_ref)) (updates s) = Some upd ->
  sync_statement line line_stripped s = Raise AttributeError.
Proof.
  intros Hmatch Hne Hfind. unfold sync_statement. rewrite Hmatch.
  rewrite bool_decide_eq_false_2 by exact Hne. rewrite Hfind. reflexivity.
Qed.

(** C7 at a script whose sync routine holds a statement for the light [L1],
    with the intensity 100 that the export computes itself: the statement
    matches the update for [L1], line 568 looks up [math.abs], and the export
    ends with the exception instead of a rewritten statement. *)
Theorem managed_statement_stops_export :
  let script := str "Sub VLMTimer_Timer" ++ nl
                ++ tab ++ str "UpdateLightMapFromLight L1, LM1, 100, False" ++ nl
                ++ str "End Sub" ++ nl in
  match_update "UpdateLightMapFromLight"
    (strip (tab ++ str "UpdateLightMapFromLight L1, LM1, 100, False"))
  = Some (str "L1", str "LM1", str "100", str "False")
  /\ example_export (example_project "Plastic" script 0 ["/bake/Export/Nestmap 0.png"])
     = RAISED AttributeError.
Proof.
  intros script. split; vm_compute; reflexivity.
Qed.

(** ** What an item writes does not depend on the items before it *)

Section Independence.

Variable sc : scene.
Variables (item_type : Z) (name : list Z) (is_baked is_baked_light : bool).

(** Two states of the second loop that agree on the reader, on [is_physics]
    and on the images. *)
Let agree (s1 s2 : tag_state) : Prop :=
  ts_reader s1 = ts_reader s2 /\ ts_is_physics s1 = ts_is_physics s2
  /\ ts_item_images s1 = ts_item_images s2.

Let agree_opt (o1 o2 : option tag_state) : Prop :=
  match o1, o2 with
  | Some s1, Some s2 => agree s1 s2
  | None, None => True
  | _, _ => False
  end.

Ltac agree_step :=
  cbn [mbind option_bind ts_reader ts_is_physics ts_item_images ts_table_lights
       ts_table_flashers ts_needs_playfield_physics with_reader with_physics fst snd] in *.

Lemma classify_tag_agree (s1 s2 : tag_state) :
  agree s1 s2 ->
  match classify_tag sc item_type name is_baked s1,
        classify_tag sc item_type name is_baked s2 with
  | Some (a, f1), Some (b, f2) => agree a b /\ f1 = f2
  | None, None => True
  | _, _ => False
  end.
Proof.
  destruct s1 as [r1 ph1 im1 np1 tl1 tf1], s2 as [r2 ph2 im2 np2 tl2 tf2].
  intros (Hr & Hp & Hi). cbn in Hr, Hp, Hi. subst r2 ph2 im2.
  unfold classify_tag, agree. agree_step.
  repeat (match goal with
          | |- context [if ?c then _ else _] =>
              match type of c with bool => destruct c end
          | |- context [put_u32 ?r ?v] => destruct (put_u32 r v)
          | |- context [put_bool ?r ?v] => destruct (put_bool r v)
          | |- context [get_bool ?r] => destruct (get_bool r) as [[? ?]|]
          | |- context [get_string ?r] => destruct (get_string r) as [[? ?]|]
          end; agree_step); try done.
Qed.

Lemma patch_light_agree (s1 s2 : tag_state) :
  agree s1 s2 ->
  agree_opt (patch_light item_type name is_baked_light s1)
            (patch_light item_type name is_baked_light s2).
Proof.
  destruct s1 as [r1 ph1 im1 np1 tl1 tf1], s2 as [r2 ph2 im2 np2 tl2 tf2].
  intros (Hr & Hp & Hi). cbn in Hr, Hp, Hi. subst r2 ph2 im2.
  unfold patch_light, agree_opt, agree. agree_step.
  repeat (match goal with
          | |- context [if ?c then _ else _] =>
              match type of c with bool => destruct c end
          | |- context [put_bool ?r ?v] => destruct (put_bool r v)
          | |- context [put_float ?r ?v] => destruct (put_float r v)
          end; agree_step); try done.
Qed.

Lemma patch_flasher_agree (s1 s2 : tag_state) :
  agree s1 s2 ->
  agree_opt (patch_flasher item_type name is_baked_light s1)
            (patch_flasher item_type name is_baked_light s2).
Proof.
  destruct s1 as [r1 ph1 im1 np1 tl1 tf1], s2 as [r2 ph2 im2 np2 tl2 tf2].
  intros (Hr & Hp & Hi). cbn in Hr, Hp, Hi. subst r2 ph2 im2.
  unfold patch_flasher, agree_opt, agree. agree_step.
  repeat (match goal with
          | |- context [if ?c then _ else _] =>
              match type of c with bool => destruct c end
          | |- context [put_float ?r ?v] => destruct (put_float r v)
          end; agree_step); try done.
Qed.

Lemma patch_tag_agree (s1 s2 : tag_state) :
  agree s1 s2 ->
  agree_opt (patch_tag sc item_type name is_baked is_baked_light s1)
            (patch_tag sc item_type name is_baked is_baked_light s2).
Proof.
  intros H. unfold patch_tag.
  destruct H as (Hr & Hp & Hi). rewrite <- Hr.
  destruct (next (ts_reader s1)) as [r|]; cbn [mbind option_bind]; [|exact I].
  assert (H0 : agree (with_reader s1 r) (with_reader s2 r)).
  { unfold agree. cbn. auto. }
  pose proof (classify_tag_agree _ _ H0) as Hc.
  destruct (classify_tag sc item_type name is_baked (with_reader s1 r)) as [[a f1]|],
           (classify_tag sc item_type name is_baked (with_reader s2 r)) as [[b f2]|];
    try contradiction; cbn [mbind option_bind]; [|exact I].
  destruct Hc as [Hab <-].
  pose proof (patch_light_agree _ _ Hab) as Hl.
  destruct (patch_light item_type name is_baked_light a) as [a1|],
           (patch_light item_type name is_baked_light b) as [b1|];
    try contradiction; cbn [mbind option_bind]; [|exact I].
  pose proof (patch_flasher_agree _ _ Hl) as Hf.
  destruct (patch_flasher item_type name is_baked_light a1) as [a2|],
           (patch_flasher item_type name is_baked_light b1) as [b2|];
    try contradiction; cbn [mbind option_bind]; [|exact I].
  destruct Hf as (Hr2 & Hp2 & Hi2).
  destruct (is_part_baked f1 && (visibility_field f1 || reflection_field f1)).
  - rewrite <- Hr2. destruct (put_bool (ts_reader a2) false); cbn [mbind option_bind];
      [|exact I].
    cbn. unfold agree. cbn. auto.
  - cbn [mbind option_bind]. cbn. unfold agree. cbn. rewrite Hr2. auto.
Qed.

Lemma patch_loop_agree (fuel : nat) :
  forall s1 s2 : tag_state,
    agree s1 s2 ->
    agree_opt (patch_loop sc fuel item_type name is_baked is_baked_light s1)
              (patch_loop sc fuel item_type name is_baked is_baked_light s2).
Proof.
  induction fuel as [|fuel IH]; intros s1 s2 H; cbn [patch_loop]; [exact I|].
  destruct H as (Hr & Hp & Hi). rewrite <- Hr.
  destruct (is_eof (ts_reader s1)).
  - cbn. unfold agree. auto.
  - pose proof (patch_tag_agree s1 s2 (conj Hr (conj Hp Hi))) as Ht.
    destruct (patch_tag sc item_type name is_baked is_baked_light s1) as [a|],
             (patch_tag sc item_type name is_baked is_baked_light s2) as [b|];
      try contradiction; cbn [mbind option_bind]; [|exact I].
    apply IH, Ht.
Qed.

End Independence.

(** ** Dense indices in the destination (C4) *)

Lemma process_item_output (sc : scene) (d : list Z) (st st' : pass_state) :
  process_item sc d st = Some st' ->
  exists o, item_output sc d = Some o
    /\ ps_dst st' = match o with
                    | Some b => create_gamestg (ps_dst st)
                                  (indexed "GameItem" (n_game_items st)) b
                    | None => ps_dst st
                    end
    /\ n_game_items st' = match o with
                          | Some _ => S (n_game_items st)
                          | None => n_game_items st
                          end.
Proof.
  unfold item_output, process_item. intros H.
  destruct (get_32 (BIFF_reader d)) as [[ty r0]|]; cbn [mbind option_bind] in *;
    [|discriminate].
  destruct ((ty <? 0) || (Z.of_nat (length prefix) <=? ty)).
  - injection H as <-. eexists. split; [reflexivity|]. cbn. auto.
  - destruct (find_name (S (length d)) r0) as [found|]; cbn [mbind option_bind] in *;
      [|discriminate].
    match type of H with
    | context [patch_loop sc ?f ?t ?n ?b ?bl ?s1] =>
        match goal with
        | |- context [patch_loop sc f t n b bl ?s2] =>
            pose proof (patch_loop_agree sc t n b bl f s1 s2
                          (conj eq_refl (conj eq_refl eq_refl))) as Hag;
            destruct (patch_loop sc f t n b bl s1) as [a|];
            destruct (patch_loop sc f t n b bl s2) as [a2|];
            try contradiction; try discriminate
        end
    end.
    cbn [mbind option_bind] in *. destruct Hag as (Hr & Hp & Hi).
    injection H as <-. rewrite <- Hp, <- Hr.
    eexists. split; [reflexivity|]. cbn [ps_dst n_game_items pass_init].
    destruct (item_removed sc _ _ (ts_is_physics a)); cbn; auto.
Qed.

Lemma numbered_snoc (category : string) (first : nat) (l : list (list Z)) (b : list Z) :
  numbered category first (l ++ [b])
  = numbered category first l ++ [(indexed category (first + length l), b)].
Proof.
  unfold numbered. rewrite imap_app. cbn [imap]. rewrite Nat.add_0_r. reflexivity.
Qed.

Lemma numbered_cons (category : string) (first : nat) (l : list (list Z)) (b : list Z) :
  numbered category first (b :: l)
  = (indexed category first, b) :: numbered category (S first) l.
Proof.
  unfold numbered. cbn [imap]. rewrite Nat.add_0_r. f_equal.
  apply imap_ext. intros i x _. cbn. f_equal. f_equal. lia.
Qed.

Lemma item_pass_numbered (sc : scene) (items : list (list Z)) :
  forall st st',
    item_pass sc items st = Some st' ->
    dst_gamestg (ps_dst st')
    = dst_gamestg (ps_dst st) ++ numbered "GameItem" (n_game_items st) (kept_items sc items)
    /\ n_game_items st' = (n_game_items st + length (kept_items sc items))%nat.
Proof.
  induction items as [|d items IH]; intros st st' H; cbn [item_pass] in H.
  - injection H as <-. unfold kept_items, numbered. cbn. rewrite app_nil_r. split; [auto|lia].
  - destruct (process_item sc d st) as [st1|] eqn:E; cbn [mbind option_bind] in H;
      [|discriminate].
    apply process_item_output in E as (o & Ho & Hdst & Hn).
    destruct (IH _ _ H) as [IH1 IH2].
    unfold kept_items in *. cbn [omap list_omap]. rewrite Ho. cbn [mjoin option_join].
    destruct o as [b|].
    + cbn [mjoin option_join]. rewrite numbered_cons. rewrite IH1, IH2, Hdst, Hn.
      cbn [dst_gamestg create_gamestg length]. rewrite <- app_assoc. split; [reflexivity|lia].
    + rewrite IH1, IH2, Hdst, Hn. split; reflexivity.
Qed.

Lemma image_pass_numbered (mode : export_mode)
    (used removed : gmap (list Z) (list (list Z))) (images : list (list Z)) :
  forall st st',
    image_pass mode used removed images st = Some st' ->
    dst_gamestg (is_dst st')
    = dst_gamestg (is_dst st)
      ++ numbered "Image" (n_images st) (kept_images mode used removed images)
    /\ n_images st' = (n_images st + length (kept_images mode used removed images))%nat.
Proof.
  induction images as [|d images IH]; intros st st' H; cbn [image_pass] in H.
  - injection H as <-. unfold kept_images, numbered. cbn. rewrite app_nil_r.
    split; [auto|lia].
  - destruct (process_image mode used removed d st) as [st1|] eqn:E;
      cbn [mbind option_bind] in H; [|discriminate].
    destruct (IH _ _ H) as [IH1 IH2].
    unfold process_image in E.
    destruct (find_string (S (length d)) "NAME" (BIFF_reader d)) as [found|] eqn:Ef;
      cbn [mbind option_bind] in E; [|discriminate].
    assert (Ho : image_output mode used removed d
                 = Some (if image_removed mode used removed (default (str "unknown") found)
                         then None else Some d)).
    { unfold image_output. rewrite Ef. reflexivity. }
    unfold kept_images in *. cbn [omap list_omap]. rewrite Ho.
    destruct (image_removed mode used removed (default (str "unknown") found)).
    + injection E as <-. cbn [mjoin option_join]. rewrite IH1, IH2. split; reflexivity.
    + injection E as <-. cbn [mjoin option_join]. rewrite numbered_cons.
      rewrite IH1, IH2. cbn [is_dst n_images dst_gamestg create_gamestg length].
      rewrite <- app_assoc. split; [reflexivity|lia].
Qed.

(** C4: whatever source items and images the passes drop, the streams they
    write are numbered from 0 on without a gap, and hold what the passes
    keep of the source streams in the order of the source. *)
Theorem dense_renumbering (sc : scene) (items images : list (list Z))
    (used removed : gmap (list Z) (list (list Z)))
    (st : pass_state) (ims : image_state) :
  item_pass sc items (pass_init (mk_dst [] [] false)) = Some st ->
  image_pass (sc_export_mode sc) used removed images
    {| is_dst := mk_dst [] [] false; n_images := 0 |} = Some ims ->
  dst_gamestg (ps_dst st) = numbered "GameItem" 0 (kept_items sc items)
  /\ map fst (dst_gamestg (ps_dst st))
     = map (indexed "GameItem") (seq 0 (n_game_items st))
  /\ dst_gamestg (is_dst ims)
     = numbered "Image" 0 (kept_images (sc_export_mode sc) used removed images)
  /\ map fst (dst_gamestg (is_dst ims)) = map (indexed "Image") (seq 0 (n_images ims)).
Proof.
  intros Hitems Himages.
  apply item_pass_numbered in Hitems as [H1 H2].
  apply image_pass_numbered in Himages as [H3 H4].
  cbn in H1, H2, H3, H4.
  assert (Hnames : forall category l,
             map fst (numbered category 0 l) = map (indexed category) (seq 0 (length l))).
  { intros category l. unfold numbered. generalize 0%nat.
    induction l as [|x l IH]; intros n; [reflexivity|].
    cbn [imap map length seq fst]. rewrite Nat.add_0_r. f_equal.
    rewrite <- (IH (S n)). f_equal. apply imap_ext. intros i y _. cbn.
    f_equal. f_equal. lia. }
  rewrite H1, H2, H3, H4. rewrite !Hnames. auto.
Qed.

(** The example of the specification: of six source items the passes drop
    those at the indices 1, 3 and 4 (items of an earlier export); the items
    of the indices 0, 2 and 5 become the destination streams 0, 1 and 2. *)
Lemma dense_renumbering_witness :
  exists (st : pass_state) (ims : image_state),
    item_pass example_scene example_six_items (pass_init (mk_dst [] [] false)) = Some st
    /\ image_pass mode_remove_all ∅ ∅ [example_image; example_image_named "VLM.Packmap0"; example_image]
         {| is_dst := mk_dst [] [] false; n_images := 0 |} = Some ims
    /\ dst_gamestg (ps_dst st)
       = [(str "GameItem0", example_wall "W0"); (str "GameItem1", example_wall "W2");
          (str "GameItem2", example_wall "W5")]
    /\ map fst (dst_gamestg (is_dst ims)) = [str "Image0"; str "Image1"].
Proof.
  destruct (item_pass example_scene example_six_items (pass_init (mk_dst [] [] false)))
    as [st|] eqn:E1; [|vm_compute in E1; discriminate].
  destruct (image_pass mode_remove_all ∅ ∅
              [example_image; example_image_named "VLM.Packmap0"; example_image]
              {| is_dst := mk_dst [] [] false; n_images := 0 |})
    as [ims|] eqn:E2; [|vm_compute in E2; discriminate].
  exists st, ims. split; [reflexivity|]. split; [reflexivity|].
  destruct (dense_renumbering example_scene example_six_items
              [example_image; example_image_named "VLM.Packmap0"; example_image] ∅ ∅ st ims E1 E2)
    as (H1 & _ & H3 & _).
  rewrite H1, H3. split; vm_compute; reflexivity.
Defined.

(** ** The reader on the payload of a record *)

Lemma len_take (n : Z) (l : list Z) : 0 <= n <= len l -> len (take (Z.to_nat n) l) = n.
Proof. intros H. unfold len in *. rewrite length_take. lia. Qed.

Lemma len_drop (n : Z) (l : list Z) : 0 <= n <= len l -> len (drop (Z.to_nat n) l) = len l - n.
Proof. intros H. unfold len in *. rewrite length_drop. lia. Qed.

Lemma payload_word_take (p : list Z) :
  4 <= len p -> unpack_u32 (take 4 p) = Some (payload_word p).
Proof.
  intros H. unfold payload_word.
  destruct (unpack_u32_len (take 4 p)) as [v Hv].
  - apply (len_take 4 p). pose proof (len_nonneg p). lia.
  - rewrite Hv. reflexivity.
Qed.

Section Payload.

(** The reader stands on the payload [p] of a record of the tag [t]. *)
Variables (pre t p suf : list Z) (n : Z) (r : reader).
Hypothesis Hdata : data r = pre ++ le32 n ++ t ++ p ++ suf.
Hypothesis Hpos : pos r = len pre + 8.
Hypothesis Ht : len t = 4.

Lemma front_len : len (pre ++ le32 n ++ t) = len pre + 8.
Proof. rewrite !len_app, len_le32. lia. Qed.

Lemma get_u32_payload :
  4 <= len p -> get_u32 r = Some (payload_word p, skip r 4).
Proof.
  intros Hp.
  apply (get_u32_at (pre ++ le32 n ++ t) (take 4 p) (drop 4 p ++ suf)).
  - rewrite Hdata. rewrite <- !app_assoc. rewrite (app_assoc (take 4 p)).
    rewrite take_drop. reflexivity.
  - rewrite Hpos, front_len. reflexivity.
  - apply payload_word_take, Hp.
Qed.

Lemma get_bool_payload :
  4 <= len p -> get_bool r = Some (payload_bool p, skip r 4).
Proof.
  intros Hp. unfold get_bool. rewrite (get_u32_payload Hp). reflexivity.
Qed.

Lemma get_text_payload :
  text_ok p = true ->
  get r 4 ≫= (fun br => unpack_u32 br.1 ≫= fun w => get br.2 w)
  = Some (payload_text p, skip r (4 + payload_word p)).
Proof.
  unfold text_ok. intros Hok.
  apply andb_true_iff in Hok as [Hok H3]. apply andb_true_iff in Hok as [H1 H2].
  apply Z.leb_le in H1, H2, H3.
  rewrite (get_at (pre ++ le32 n ++ t) (take 4 p) (drop 4 p ++ suf) r).
  - cbn [mbind option_bind fst snd]. rewrite (payload_word_take p H1).
    cbn [mbind option_bind].
    rewrite (get_at (pre ++ le32 n ++ t ++ take 4 p) (payload_text p)
               (drop (Z.to_nat (payload_word p)) (drop 4 p) ++ suf)).
    + f_equal. f_equal. unfold skip. cbn. f_equal; lia.
    + cbn [skip data]. rewrite Hdata. rewrite <- !app_assoc.
      do 3 f_equal. unfold payload_text.
      rewrite (app_assoc (take _ (drop 4 p))). rewrite take_drop.
      rewrite app_assoc. rewrite take_drop. reflexivity.
    + cbn [skip pos]. rewrite Hpos. rewrite !len_app, len_le32.
      assert (L4 : len (take 4 p) = 4) by (apply (len_take 4 p); lia).
      rewrite L4. lia.
    + unfold payload_text. apply len_take.
      assert (L : len (drop 4 p) = len p - 4) by (apply (len_drop 4 p); lia).
      rewrite L. lia.
  - rewrite Hdata. rewrite <- !app_assoc. rewrite (app_assoc (take 4 p)).
    rewrite take_drop. reflexivity.
  - rewrite Hpos, front_len. reflexivity.
  - apply (len_take 4 p). lia.
Qed.

Lemma get_string_payload :
  text_ok p = true -> get_string r = Some (payload_text p, skip r (4 + payload_word p)).
Proof.
  intros Hok. pose proof (get_text_payload Hok) as H.
  unfold get_string, get_u32, get_str.
  destruct (get r 4) as [[b r1]|]; cbn [mbind option_bind fst snd] in *; [|discriminate].
  destruct (unpack_u32 b) as [w|]; cbn [mbind option_bind] in *; [|discriminate].
  exact H.
Qed.

Lemma get_wide_string_payload (s : list Z) :
  text_ok p = true -> decode_wide (payload_text p) = Some s ->
  get_wide_string r = Some (s, skip r (4 + payload_word p)).
Proof.
  intros Hok Hs. pose proof (get_text_payload Hok) as H.
  unfold get_wide_string, get_u32.
  destruct (get r 4) as [[b r1]|]; cbn [mbind option_bind fst snd] in *; [|discriminate].
  destruct (unpack_u32 b) as [w|]; cbn [mbind option_bind] in *; [|discriminate].
  rewrite H. cbn [mbind option_bind]. rewrite Hs. reflexivity.
Qed.

Lemma put_u32_payload (v : Z) :
  4 <= len p -> 0 <= v < 4294967296 ->
  put_u32 r v
  = Some {| data := pre ++ le32 n ++ t ++ set_word v p ++ suf; pos := pos r + 4;
            bytes_in_record_remaining := bytes_in_record_remaining r - 4;
            tag := tag r |}.
Proof.
  intros Hp Hv.
  rewrite (put_u32_at (pre ++ le32 n ++ t) (take 4 p) (drop 4 p ++ suf) r).
  - unfold set_word. rewrite <- !app_assoc. reflexivity.
  - rewrite Hdata. rewrite <- !app_assoc. rewrite (app_assoc (take 4 p)).
    rewrite take_drop. reflexivity.
  - rewrite Hpos, front_len. reflexivity.
  - apply (len_take 4 p). pose proof (len_nonneg p). lia.
  - exact Hv.
Qed.

Lemma put_u32_tag (v : Z) :
  0 <= v < 4294967296 ->
  put_u32 (skip r (-4)) v
  = Some {| data := pre ++ le32 n ++ le32 v ++ p ++ suf; pos := pos r;
            bytes_in_record_remaining := bytes_in_record_remaining r;
            tag := tag r |}.
Proof.
  intros Hv.
  rewrite (put_u32_at (pre ++ le32 n) t (p ++ suf) (skip r (-4))).
  - cbn [skip pos bytes_in_record_remaining tag]. rewrite <- !app_assoc.
    f_equal. f_equal; lia.
  - cbn [skip data]. rewrite Hdata. rewrite <- !app_assoc. reflexivity.
  - cbn [skip pos]. rewrite Hpos, len_app, len_le32. lia.
  - exact Ht.
  - exact Hv.
Qed.

Lemma put_name_payload (v1 v2 : Z) :
  32 <= len p -> 0 <= v1 < 4294967296 -> 0 <= v2 < 4294967296 ->
  put_u32 (skip r 24) v1 ≫= (fun r1 => put_u32 r1 v2)
  = Some {| data := pre ++ le32 n ++ t
                    ++ (take 24 p ++ le32 v1 ++ le32 v2 ++ drop 32 p) ++ suf;
            pos := pos r + 32;
            bytes_in_record_remaining := bytes_in_record_remaining r - 32;
            tag := tag r |}.
Proof.
  intros Hp Hv1 Hv2.
  assert (Hsplit : p = take 24 p ++ take 4 (drop 24 p) ++ take 4 (drop 28 p) ++ drop 32 p).
  { rewrite <- (take_drop 24 p) at 1. f_equal.
    rewrite <- (take_drop 4 (drop 24 p)) at 1. f_equal.
    rewrite drop_drop. change (24 + 4)%nat with 28%nat.
    rewrite <- (take_drop 4 (drop 28 p)) at 1. f_equal.
    rewrite drop_drop. reflexivity. }
  assert (L24 : len (take 24 p) = 24) by (apply (len_take 24 p); lia).
  assert (L4a : len (take 4 (drop 24 p)) = 4).
  { apply (len_take 4).
    assert (L : len (drop 24 p) = len p - 24) by (apply (len_drop 24 p); lia). lia. }
  assert (L4b : len (take 4 (drop 28 p)) = 4).
  { apply (len_take 4).
    assert (L : len (drop 28 p) = len p - 28) by (apply (len_drop 28 p); lia). lia. }
  rewrite (put_u32_at (pre ++ le32 n ++ t ++ take 24 p) (take 4 (drop 24 p))
             (take 4 (drop 28 p) ++ drop 32 p ++ suf) (skip r 24)).
  - cbn [mbind option_bind].
    rewrite (put_u32_at (pre ++ le32 n ++ t ++ take 24 p ++ le32 v1) (take 4 (drop 28 p))
               (drop 32 p ++ suf)).
    + cbn [skip pos bytes_in_record_remaining tag data]. rewrite <- !app_assoc.
      f_equal. f_equal; lia.
    + cbn [data]. rewrite <- !app_assoc. reflexivity.
    + cbn [skip pos]. rewrite Hpos. rewrite !len_app, !len_le32, L24. lia.
    + exact L4b.
    + exact Hv2.
  - cbn [skip data]. rewrite Hdata. rewrite Hsplit at 1. rewrite <- !app_assoc. reflexivity.
  - cbn [skip pos]. rewrite Hpos. rewrite !len_app, !len_le32, L24. lia.
  - exact L4a.
  - exact Hv1.
Qed.

End Payload.

(** ** One record of an item *)

(** The tests of a known tag against the tags of the loop. *)
Ltac tag_tests :=
  repeat match goal with
         | |- context [bool_decide (str ?a = str ?b)] =>
             let v := eval vm_compute in (bool_decide (str a = str b)) in
             change (bool_decide (str a = str b)) with v
         | H : context [bool_decide (str ?a = str ?b)] |- _ =>
             let v := eval vm_compute in (bool_decide (str a = str b)) in
             change (bool_decide (str a = str b)) with v in H
         end.

Ltac state_simpl :=
  cbn [mbind option_bind ts_reader ts_is_physics ts_item_images ts_table_lights
       ts_table_flashers ts_needs_playfield_physics with_reader with_physics fst snd
       data pos bytes_in_record_remaining tag skip skip_tag
       is_part_baked visibility_field reflection_field andb orb negb
       default from_option id existsb] in *.

(** The condition that decides the next step of a chain of binds. *)
Ltac head_bool c :=
  lazymatch c with
  | ?a && _ => head_bool a
  | ?a || _ => head_bool a
  | negb ?a => head_bool a
  | default _ (if ?a then _ else _) => head_bool a
  | (if ?a then _ else _) => head_bool a
  | _ => c
  end.

Ltac head_cond e :=
  lazymatch e with
  | mbind _ ?m => head_cond m
  | (if ?c then _ else _) => head_bool c
  end.

Ltac head_op e :=
  lazymatch e with
  | mbind _ ?m => head_op m
  | _ => e
  end.

Ltac decide_bool c :=
  lazymatch c with
  | (?x =? ?k) =>
      let E := fresh "E" in
      destruct (x =? k) eqn:E;
      [apply Z.eqb_eq in E; try discriminate E; try subst x | idtac]
  | _ => let E := fresh "E" in destruct c eqn:E
  end.

Ltac norm :=
  repeat first
    [ progress tag_tests
    | progress state_simpl
    | progress rewrite ?andb_false_r, ?andb_true_r, ?orb_false_r, ?orb_true_r,
        ?app_nil_r in * ].

(** One step of the left side: a fact about the reader, or a case split on
    the deciding condition. *)
Ltac lhs_step :=
  lazymatch goal with
  | |- ?lhs = _ =>
      first
        [ let h := head_op lhs in
          lazymatch h with
          | get_bool ?r =>
              match goal with F : _ -> get_bool r = _ |- _ => rewrite F by lia end
          | get_string ?r =>
              match goal with F : _ -> get_string r = _ |- _ => rewrite F by assumption end
          | put_u32 (skip ?r (-4)) ?v =>
              match goal with
              | F : forall v, _ -> put_u32 (skip r (-4)) v = _ |- _ =>
                  rewrite (F v) by (unfold f32_m2800; lia)
              end
          | put_u32 (skip ?r 24) ?v => fail
          | put_u32 ?r ?v =>
              match goal with
              | F : forall v, _ -> _ -> put_u32 r v = _ |- _ =>
                  rewrite (F v) by (unfold f32_m2800; lia)
              end
          end
        | let c := head_cond lhs in decide_bool c ]
  end; norm.

Lemma len_set_word (v : Z) (p : list Z) : 4 <= len p -> len (set_word v p) = len p.
Proof.
  intros H. unfold set_word. rewrite len_app, len_le32.
  assert (L : len (drop 4 p) = len p - 4) by (apply (len_drop 4 p); lia). lia.
Qed.

Lemma len_renamed (a b : Z) (p : list Z) :
  32 <= len p -> len (take 24 p ++ le32 a ++ le32 b ++ drop 32 p) = len p.
Proof.
  intros H. rewrite !len_app, !len_le32.
  assert (L1 : len (take 24 p) = 24) by (apply (len_take 24 p); lia).
  assert (L2 : len (drop 32 p) = len p - 32) by (apply (len_drop 32 p); lia). lia.
Qed.

Lemma state_eq (d1 d2 : list Z) (p1 p2 b1 b2 : Z) (t : list Z) (ph np : bool)
    (im tl tf : list (list Z)) :
  d1 = d2 -> p1 = p2 -> b1 = b2 ->
  Some {| ts_reader := {| data := d1; pos := p1; bytes_in_record_remaining := b1;
                          tag := t |};
          ts_is_physics := ph; ts_item_images := im; ts_needs_playfield_physics := np;
          ts_table_lights := tl; ts_table_flashers := tf |}
  = Some {| ts_reader := {| data := d2; pos := p2; bytes_in_record_remaining := b2;
                            tag := t |};
            ts_is_physics := ph; ts_item_images := im; ts_needs_playfield_physics := np;
            ts_table_lights := tl; ts_table_flashers := tf |}.
Proof. intros -> -> ->. reflexivity. Qed.

(** A condition left on the right side. *)
Ltac rhs_step :=
  match goal with
  | |- context [if ?c then _ else _] =>
      match type of c with bool => let h := head_bool c in decide_bool h end
  end; norm.

Ltac finish :=
  repeat rhs_step;
  try discriminate;
  (apply state_eq;
   [ cbn [data skip];
     try match goal with H : data ?r = _ |- context [data ?r] => rewrite H end;
     rewrite ?len_set_word, ?len_renamed by lia; rewrite <- ?app_assoc;
     reflexivity
   | cbn [pos bytes_in_record_remaining skip]; lia
   | cbn [pos bytes_in_record_remaining skip]; lia ]).

(** The case of a known tag: the tests of the loop against it are decided. *)
Ltac tag_case t X tac :=
  let E := fresh "T" in
  destruct (bool_decide (t = str X)) eqn:E;
  [apply bool_decide_eq_true in E; subst t; tag_tests; norm; tac | idtac].

Lemma patch_tag_record (sc : scene) (item_type : Z) (name : list Z)
    (is_baked is_baked_light : bool)
    (s : tag_state) (pre suf : list Z) (rc : list Z * list Z) :
  data (ts_reader s) = pre ++ encode_record rc ++ suf ->
  pos (ts_reader s) = len pre ->
  bytes_in_record_remaining (ts_reader s) <= 0 ->
  record_ok sc name rc = true ->
  patch_tag sc item_type name is_baked is_baked_light s
  = Some {| ts_reader :=
              {| data := pre ++ encode_record
                                  (patch_record sc item_type name is_baked is_baked_light rc)
                             ++ suf;
                 pos := len pre + len (encode_record rc);
                 bytes_in_record_remaining := 0; tag := rc.1 |};
            ts_is_physics := physics_step (ts_is_physics s) rc;
            ts_item_images := ts_item_images s ++ record_images rc;
            ts_needs_playfield_physics :=
              ts_needs_playfield_physics s && negb (renamed sc name && is_tag rc.1 "NAME");
            ts_table_lights := ts_table_lights s ++ (if item_type =? 7 then [name] else []);
            ts_table_flashers :=
              ts_table_flashers s ++ (if item_type =? 20 then [name] else []) |}.
Proof.
  destruct rc as [t p]. destruct s as [r ph im np tl tf].
  cbn [ts_reader ts_is_physics ts_item_images ts_needs_playfield_physics ts_table_lights
       ts_table_flashers fst snd].
  intros Hdata Hpos Hrem Hok.
  unfold record_ok in Hok. cbn [fst snd] in Hok.
  apply andb_true_iff in Hok as [Hok Hlayout]. apply andb_true_iff in Hok as [Ht Hsize].
  apply Z.eqb_eq in Ht. apply Z.ltb_lt in Hsize. pose proof (len_nonneg p) as Hp0.
  assert (Hdata' : data r = pre ++ le32 (4 + len p) ++ t ++ p ++ suf).
  { rewrite Hdata. unfold encode_record. cbn [fst snd]. rewrite <- !app_assoc. reflexivity. }
  unfold patch_tag. cbn [ts_reader].
  rewrite (next_at pre t (p ++ suf) (4 + len p) r Hdata' Hpos Hrem Ht) by lia.
  cbn [mbind option_bind]. replace (4 + len p - 4) with (len p) by lia.
  assert (Hlen : len (encode_record (t, p)) = 8 + len p).
  { rewrite len_encode_record. cbn [fst snd]. lia. }
  rewrite Hlen. clear Hlen.
  pose proof (get_bool_payload pre t p suf (4 + len p)
                {| data := data r; pos := len pre + 8; bytes_in_record_remaining := len p;
                   tag := t |} Hdata' eq_refl Ht) as Fbool.
  pose proof (get_string_payload pre t p suf (4 + len p)
                {| data := data r; pos := len pre + 8; bytes_in_record_remaining := len p;
                   tag := t |} Hdata' eq_refl Ht) as Fstring.
  pose proof (fun v => put_u32_payload pre t p suf (4 + len p)
                {| data := data r; pos := len pre + 8; bytes_in_record_remaining := len p;
                   tag := t |} Hdata' eq_refl Ht v) as Fput.
  pose proof (fun v => put_u32_tag pre t p suf (4 + len p)
                {| data := data r; pos := len pre + 8; bytes_in_record_remaining := len p;
                   tag := t |} Hdata' eq_refl Ht v) as Ftag.
  pose proof (fun v1 v2 => put_name_payload pre t p suf (4 + len p)
                {| data := data r; pos := len pre + 8; bytes_in_record_remaining := len p;
                   tag := t |} Hdata' eq_refl Ht v1 v2) as Fname.
  cbn [data pos bytes_in_record_remaining tag skip] in Fbool, Fstring, Fput, Ftag, Fname.
  clear Hdata Hpos Hrem.
  unfold classify_tag, patch_light, patch_flasher, put_bool, put_float, tag_is.
  unfold patch_record, physics_step, record_images, forced_false, bracket_hidden,
    visibility_part, light_word, height_over_tag, is_tag, encode_record.
  unfold word_tags, is_tag in Hlayout.
  state_simpl.
  tag_case t "NAME" idtac.
  { unfold renamed in *.
    destruct (bool_decide (name = str "playfield_mesh")
              && bool_decide (is_Some (sc_playfield_col sc))) eqn:Er; norm.
    - specialize (Fname 6815856 7536761 ltac:(lia) ltac:(lia) ltac:(lia)).
      match type of Fname with
      | mbind _ ?m = _ => destruct m as [ra|] eqn:Ea
      end; cbn [mbind option_bind] in *; [|discriminate Fname].
      rewrite Fname. norm. repeat lhs_step; finish.
    - repeat lhs_step; finish. }
  tag_case t "REEN" ltac:(repeat lhs_step; finish).
  tag_case t "CLDR" ltac:(repeat lhs_step; finish).
  tag_case t "CLDW" ltac:(repeat lhs_step; finish).
  tag_case t "ISTO" ltac:(repeat lhs_step; finish).
  tag_case t "IMAG" ltac:(repeat lhs_step; finish).
  tag_case t "SIMG" ltac:(repeat lhs_step; finish).
  tag_case t "IMAB" ltac:(repeat lhs_step; finish).
  tag_case t "VSBL" ltac:(repeat lhs_step; finish).
  tag_case t "SVBL" ltac:(repeat lhs_step; finish).
  tag_case t "RVIS" ltac:(repeat lhs_step; finish).
  tag_case t "GSUP" ltac:(repeat lhs_step; finish).
  tag_case t "SSUP" ltac:(repeat lhs_step; finish).
  tag_case t "TVIS" ltac:(repeat lhs_step; finish).
  tag_case t "FVIS" ltac:(repeat lhs_step; finish).
  tag_case t "CAVI" ltac:(repeat lhs_step; finish).
  tag_case t "BSVS" ltac:(repeat lhs_step; finish).
  tag_case t "RIVS" ltac:(repeat lhs_step; finish).
  tag_case t "SKVS" ltac:(repeat lhs_step; finish).
  tag_case t "BULT" ltac:(repeat lhs_step; finish).
  tag_case t "BHHI" ltac:(repeat lhs_step; finish).
  tag_case t "FHEI" ltac:(repeat lhs_step; finish).
  norm. repeat lhs_step; finish.
Qed.


(** ** The records of an item, one after the other *)

Ltac len_finish :=
  repeat rhs_step; cbn [fst snd];
  rewrite ?len_set_word, ?len_renamed, ?len_le32 by lia; lia.

Lemma len_patch_record (sc : scene) (item_type : Z) (name : list Z)
    (is_baked is_baked_light : bool) (rc : list Z * list Z) :
  record_ok sc name rc = true ->
  len (encode_record (patch_record sc item_type name is_baked is_baked_light rc))
  = len (encode_record rc).
Proof.
  destruct rc as [t p]. intros Hok.
  unfold record_ok in Hok. cbn [fst snd] in Hok.
  apply andb_true_iff in Hok as [Hok Hlayout]. apply andb_true_iff in Hok as [Ht Hsize].
  apply Z.eqb_eq in Ht. pose proof (len_nonneg p) as Hp0.
  rewrite !len_encode_record.
  unfold patch_record, forced_false, bracket_hidden, visibility_part, light_word,
    height_over_tag, renamed, is_tag in *.
  unfold word_tags, is_tag in Hlayout.
  cbn [fst snd] in *.
  tag_case t "NAME" len_finish.
  tag_case t "REEN" len_finish.
  tag_case t "CLDR" len_finish.
  tag_case t "CLDW" len_finish.
  tag_case t "ISTO" len_finish.
  tag_case t "IMAG" len_finish.
  tag_case t "SIMG" len_finish.
  tag_case t "IMAB" len_finish.
  tag_case t "VSBL" len_finish.
  tag_case t "SVBL" len_finish.
  tag_case t "RVIS" len_finish.
  tag_case t "GSUP" len_finish.
  tag_case t "SSUP" len_finish.
  tag_case t "TVIS" len_finish.
  tag_case t "FVIS" len_finish.
  tag_case t "CAVI" len_finish.
  tag_case t "BSVS" len_finish.
  tag_case t "RIVS" len_finish.
  tag_case t "SKVS" len_finish.
  tag_case t "BULT" len_finish.
  tag_case t "BHHI" len_finish.
  tag_case t "FHEI" len_finish.
  norm. len_finish.
Qed.

Lemma encode_records_cons (rc : list Z * list Z) (rs : list (list Z * list Z)) :
  encode_records (rc :: rs) = encode_record rc ++ encode_records rs.
Proof. reflexivity. Qed.

Lemma length_encode_records (rs : list (list Z * list Z)) :
  (length rs <= length (encode_records rs))%nat.
Proof.
  induction rs as [|rc rs IH]; [reflexivity|].
  rewrite encode_records_cons, length_app. unfold encode_record at 1.
  rewrite length_app. cbn [length le32]. change (length (le32 _)) with 4%nat. lia.
Qed.

Lemma is_eof_at_record (r : reader) (pre : list Z) (rc : list Z * list Z) (rest : list Z) :
  data r = pre ++ encode_record rc ++ rest ->
  pos r = len pre ->
  tag r <> str "ENDB" ->
  is_eof r = false.
Proof.
  intros Hdata Hpos Htag. unfold is_eof. apply orb_false_iff. split.
  - rewrite Hdata, Hpos, !len_app, len_encode_record.
    pose proof (len_nonneg rc.1). pose proof (len_nonneg rc.2). pose proof (len_nonneg rest).
    lia.
  - apply bool_decide_eq_false. exact Htag.
Qed.

Lemma is_eof_at_end (r : reader) (pre : list Z) :
  data r = pre -> pos r = len pre -> is_eof r = true.
Proof.
  intros Hdata Hpos. unfold is_eof. rewrite Hdata, Hpos.
  destruct (len pre <=? len pre) eqn:E; [reflexivity|lia].
Qed.

Section Records.

Variable sc : scene.
Variable name : list Z.

(** The first loop finds the name of the first NAME record. *)
Lemma find_name_records (rs : list (list Z * list Z)) :
  forall (pre : list Z) (r : reader) (fuel : nat),
    (length rs < fuel)%nat ->
    data r = pre ++ encode_records rs ->
    pos r = len pre ->
    bytes_in_record_remaining r <= 0 ->
    (tag r = str "ENDB" -> rs = []) ->
    forallb (record_ok sc name) rs = true ->
    sentinel_last (map fst rs) = true ->
    find_name fuel r = Some (records_name rs).
Proof.
  induction rs as [|[t p] rs IH]; intros pre r fuel Hfuel Hdata Hpos Hrem Hend Hok Hlast.
  - destruct fuel as [|fuel]; [simpl in Hfuel; lia|]. cbn [find_name].
    rewrite (is_eof_at_end r pre); [reflexivity| |exact Hpos].
    rewrite Hdata. apply app_nil_r.
  - destruct fuel as [|fuel]; [simpl in Hfuel; lia|]. cbn [length] in Hfuel.
    cbn [forallb] in Hok. apply andb_true_iff in Hok as [Hrc Hok].
    cbn [map sentinel_last fst] in Hlast. apply andb_true_iff in Hlast as [Hthis Hlast].
    rewrite encode_records_cons in Hdata.
    cbn [find_name].
    rewrite (is_eof_at_record r pre (t, p) (encode_records rs) Hdata Hpos)
      by (intros Ht; specialize (Hend Ht); discriminate).
    pose proof Hrc as Hrc'.
    unfold record_ok in Hrc. cbn [fst snd] in Hrc.
    apply andb_true_iff in Hrc as [Hrc Hlayout]. apply andb_true_iff in Hrc as [Ht Hsize].
    apply Z.eqb_eq in Ht. apply Z.ltb_lt in Hsize. pose proof (len_nonneg p) as Hp0.
    assert (Hdata' : data r = pre ++ le32 (4 + len p) ++ t ++ p ++ encode_records rs).
    { rewrite Hdata. unfold encode_record. cbn [fst snd]. rewrite <- !app_assoc.
      reflexivity. }
    rewrite (next_at pre t (p ++ encode_records rs) (4 + len p) r Hdata' Hpos Hrem Ht) by lia.
    cbn [mbind option_bind]. unfold tag_is. cbn [tag].
    unfold records_name. cbn [find fst]. unfold is_tag at 1. unfold is_tag in Hlayout.
    destruct (bool_decide (t = str "NAME")) eqn:En.
    + apply andb_true_iff in Hlayout as [Hlayout _].
      apply andb_true_iff in Hlayout as [Htext Hwide].
      apply bool_decide_eq_true in Hwide. destruct Hwide as [s Hs].
      rewrite (get_wide_string_payload pre t p (encode_records rs) (4 + len p)
                 {| data := data r; pos := len pre + 8;
                    bytes_in_record_remaining := 4 + len p - 4; tag := t |}
                 Hdata' eq_refl Ht s Htext Hs).
      cbn [mbind option_bind snd]. rewrite Hs. reflexivity.
    + fold (records_name rs).
      apply (IH (pre ++ encode_record (t, p))).
      * lia.
      * cbn [skip_tag data]. rewrite Hdata. rewrite <- app_assoc. reflexivity.
      * cbn [skip_tag pos bytes_in_record_remaining]. rewrite len_app, len_encode_record.
        cbn [fst snd]. lia.
      * cbn [skip_tag bytes_in_record_remaining]. lia.
      * cbn [skip_tag tag]. intros ->.
        apply orb_true_iff in Hthis as [Hthis|Hthis].
        -- rewrite bool_decide_eq_true_2 in Hthis by reflexivity. discriminate.
        -- apply bool_decide_eq_true in Hthis. destruct rs; [reflexivity|discriminate].
      * exact Hok.
      * exact Hlast.
Qed.

Variables (item_type : Z) (is_baked is_baked_light : bool).

(** The second loop patches the records one after the other. *)
Lemma patch_loop_records (rs : list (list Z * list Z)) :
  forall (pre : list Z) (s : tag_state) (fuel : nat),
    (length rs < fuel)%nat ->
    data (ts_reader s) = pre ++ encode_records rs ->
    pos (ts_reader s) = len pre ->
    bytes_in_record_remaining (ts_reader s) <= 0 ->
    (tag (ts_reader s) = str "ENDB" -> rs = []) ->
    forallb (record_ok sc name) rs = true ->
    sentinel_last (map fst rs) = true ->
    exists r' : reader,
      patch_loop sc fuel item_type name is_baked is_baked_light s
      = Some {| ts_reader := r';
                ts_is_physics := foldl physics_step (ts_is_physics s) rs;
                ts_item_images := ts_item_images s ++ flat_map record_images rs;
                ts_needs_playfield_physics :=
                  ts_needs_playfield_physics s
                  && negb (renamed sc name && existsb (fun rc => is_tag rc.1 "NAME") rs);
                ts_table_lights :=
                  ts_table_lights s
                  ++ (if item_type =? 7 then replicate (length rs) name else []);
                ts_table_flashers :=
                  ts_table_flashers s
                  ++ (if item_type =? 20 then replicate (length rs) name else []) |}
      /\ data r'
         = pre ++ encode_records
                    (map (patch_record sc item_type name is_baked is_baked_light) rs).
Proof.
  induction rs as [|rc rs IH]; intros pre s fuel Hfuel Hdata Hpos Hrem Hend Hok Hlast.
  - destruct fuel as [|fuel]; [simpl in Hfuel; lia|]. cbn [patch_loop].
    rewrite (is_eof_at_end (ts_reader s) pre);
      [| rewrite Hdata; apply app_nil_r | exact Hpos].
    exists (ts_reader s). split; [|exact Hdata].
    destruct s as [r ph im np tl tf].
    cbn [foldl flat_map existsb length replicate ts_reader ts_is_physics ts_item_images
         ts_needs_playfield_physics ts_table_lights ts_table_flashers].
    rewrite andb_false_r, andb_true_r, !app_nil_r.
    destruct (item_type =? 7), (item_type =? 20); rewrite ?app_nil_r; reflexivity.
  - destruct fuel as [|fuel]; [simpl in Hfuel; lia|]. cbn [length] in Hfuel.
    cbn [forallb] in Hok. apply andb_true_iff in Hok as [Hrc Hok].
    cbn [map sentinel_last] in Hlast. apply andb_true_iff in Hlast as [Hthis Hlast].
    rewrite encode_records_cons in Hdata.
    cbn [patch_loop].
    rewrite (is_eof_at_record (ts_reader s) pre rc (encode_records rs) Hdata Hpos)
      by (intros Ht; specialize (Hend Ht); discriminate).
    rewrite (patch_tag_record sc item_type name is_baked is_baked_light s pre
               (encode_records rs) rc Hdata Hpos Hrem Hrc).
    cbn [mbind option_bind].
    pose proof (len_patch_record sc item_type name is_baked is_baked_light rc Hrc) as Hlen.
    match goal with
    | |- exists r', patch_loop _ _ _ _ _ _ ?s1 = _ /\ _ =>
        destruct (IH (pre ++ encode_record
                               (patch_record sc item_type name is_baked is_baked_light rc))
                     s1 fuel) as [r' [Hloop Hr']]
    end.
    + lia.
    + cbn [ts_reader data]. rewrite <- app_assoc. reflexivity.
    + cbn [ts_reader pos]. rewrite len_app, Hlen. reflexivity.
    + cbn [ts_reader bytes_in_record_remaining]. lia.
    + cbn [ts_reader tag]. intros Ht.
      apply orb_true_iff in Hthis as [Hthis|Hthis].
      * cbn [fst] in Hthis. rewrite Ht in Hthis.
        rewrite bool_decide_eq_true_2 in Hthis by reflexivity. discriminate.
      * apply bool_decide_eq_true in Hthis. destruct rs; [reflexivity|discriminate].
    + exact Hok.
    + exact Hlast.
    + exists r'. split.
      * rewrite Hloop.
        cbn [ts_is_physics ts_item_images ts_needs_playfield_physics ts_table_lights
             ts_table_flashers foldl flat_map existsb length replicate map].
        rewrite <- !app_assoc.
        f_equal. f_equal.
        -- destruct (ts_needs_playfield_physics s), (renamed sc name),
             (is_tag rc.1 "NAME"), (existsb (fun rc0 => is_tag rc0.1 "NAME") rs);
             reflexivity.
        -- destruct (item_type =? 7); reflexivity.
        -- destruct (item_type =? 20); reflexivity.
      * rewrite Hr'. cbn [map]. rewrite encode_records_cons, <- app_assoc. reflexivity.
Qed.

End Records.

(** The body of the item loop on an item given by its records. *)
Lemma process_item_records (sc : scene) (item_type : Z) (rs : list (list Z * list Z))
    (st : pass_state) :
  0 <= item_type < 23 ->
  item_ok sc rs = true ->
  process_item sc (item_bytes item_type rs) st = Some (item_result sc item_type rs st).
Proof.
  intros Hty Hok. unfold item_ok in Hok. apply andb_true_iff in Hok as [Hok Hlast].
  unfold process_item, item_bytes.
  rewrite Z.mod_small by lia.
  assert (Hget : get_32 (BIFF_reader (le32 item_type ++ encode_records rs))
                 = Some (item_type, skip (BIFF_reader (le32 item_type ++ encode_records rs)) 4)).
  { unfold get_32.
    rewrite (get_u32_at [] (le32 item_type) (encode_records rs)
               (BIFF_reader (le32 item_type ++ encode_records rs)) eq_refl eq_refl item_type)
      by (apply unpack_le32; lia).
    cbn [mbind option_bind]. unfold to_signed32.
    destruct (2147483648 <=? item_type) eqn:E; [lia|reflexivity]. }
  rewrite Hget. cbn [mbind option_bind].
  change (Z.of_nat (length prefix)) with 23.
  assert (Hkind : (item_type <? 0) || (23 <=? item_type) = false)
    by (destruct (item_type <? 0) eqn:E1, (23 <=? item_type) eqn:E2; try reflexivity; lia).
  rewrite Hkind.
  assert (Hfuel : (length rs < S (length (le32 item_type ++ encode_records rs)))%nat).
  { rewrite length_app. pose proof (length_encode_records rs). lia. }
  rewrite (find_name_records sc (default (str "unknown") (records_name rs)) rs
             (le32 item_type) (skip (BIFF_reader (le32 item_type ++ encode_records rs)) 4)
             (S (length (le32 item_type ++ encode_records rs))) Hfuel eq_refl);
    [| cbn [skip pos BIFF_reader]; rewrite len_le32; reflexivity
     | cbn [skip bytes_in_record_remaining BIFF_reader]; lia
     | cbn [skip tag BIFF_reader]; discriminate
     | exact Hok | exact Hlast ].
  cbn [mbind option_bind].
  match goal with
  | |- context [patch_loop sc ?fuel item_type ?name ?b ?bl ?s] =>
      destruct (patch_loop_records sc name item_type b bl rs (le32 item_type) s fuel)
        as [r' [Hloop Hr']]
  end;
    [ exact Hfuel | reflexivity
    | cbn [ts_reader skip pos BIFF_reader]; rewrite len_le32; reflexivity
    | cbn [ts_reader skip bytes_in_record_remaining BIFF_reader]; lia
    | cbn [ts_reader skip tag BIFF_reader]; discriminate
    | exact Hok | exact Hlast | ].
  rewrite Hloop. cbn [mbind option_bind].
  cbn [ts_reader ts_is_physics ts_item_images ts_needs_playfield_physics ts_table_lights
       ts_table_flashers].
  rewrite Hr'. unfold item_result, item_bytes. rewrite Z.mod_small by lia.
  cbn [app]. reflexivity.
Qed.

(** ** The item loop, record by record *)

Lemma item_result_fields (sc : scene) (item_type : Z) (rs : list (list Z * list Z))
    (st : pass_state) :
  item_result sc item_type rs st
  = let remove := item_removed sc (item_name rs) (item_is_baked sc rs) (item_is_physics rs) in
    let as_removed := remove || (is_removal_mode (sc_export_mode sc) && item_is_baked sc rs) in
    {| ps_dst :=
         if remove then ps_dst st
         else create_gamestg (ps_dst st) (indexed "GameItem" (n_game_items st))
                (item_bytes item_type
                   (map (patch_record sc item_type (item_name rs) (item_is_baked sc rs)
                           (item_is_baked_light sc rs)) rs));
       n_game_items := if remove then n_game_items st else S (n_game_items st);
       used_images := if as_removed then used_images st
                      else mark_images (used_images st) (item_name rs) (item_images rs);
       removed_images := if as_removed
                         then mark_images (removed_images st) (item_name rs) (item_images rs)
                         else removed_images st;
       table_lights := table_lights st
                       ++ (if item_type =? 7 then replicate (length rs) (item_name rs) else []);
       table_flashers := table_flashers st
                         ++ (if item_type =? 20 then replicate (length rs) (item_name rs)
                             else []);
       needs_playfield_physics :=
         needs_playfield_physics st
         && negb (renamed sc (item_name rs) && existsb (fun rc => is_tag rc.1 "NAME") rs) |}.
Proof. reflexivity. Qed.

(** X1: for an item of a known kind whose records are within the format,
    the body of the item loop (lines 123 to 240) does what the record-wise
    description [item_result] says: the name is that of the first NAME
    record, every record is patched on its own by [patch_record], the item is
    written under the next free index unless line 218 or 219 removes it, and
    its images go to the used or to the removable images. *)
Theorem item_loop_by_records (sc : scene) (item_type : Z) (rs : list (list Z * list Z))
    (st : pass_state) :
  0 <= item_type < 23 ->
  item_ok sc rs = true ->
  process_item sc (item_bytes item_type rs) st = Some (item_result sc item_type rs st).
Proof. apply process_item_records. Qed.

Lemma item_loop_by_records_witness :
  process_item example_scene example_bumper (pass_init (mk_dst [] [] false))
  = Some (item_result example_scene 5
            [(str "NAME", wide_payload (str "Bumper1"));
             (str "CAVI", bool_payload true);
             (str "BSVS", bool_payload true);
             (str "RIVS", bool_payload true);
             (str "IMAG", string_payload (str "ringtex"));
             (str "REEN", bool_payload true);
             (str "ENDB", [])] (pass_init (mk_dst [] [] false))).
Proof.
  apply (item_loop_by_records example_scene 5); [lia | vm_compute; reflexivity].
Defined.

(** Without a baked part, no record changes. *)
Lemma patch_record_untouched (sc : scene) (item_type : Z) (name : list Z)
    (rc : list Z * list Z) :
  renamed sc name = false ->
  bake_free sc name = true ->
  patch_record sc item_type name false false rc = rc.
Proof.
  intros Hren Hfree.
  assert (Hsub : forall part, subpart_baked sc name part = false).
  { intros part. unfold subpart_baked, bake_free in *.
    induction (sc_bake_col sc) as [|o l IH]; [reflexivity|].
    cbn [existsb forallb] in *. apply andb_true_iff in Hfree as [Ho Hl].
    rewrite (IH Hl), orb_false_r.
    destruct (bool_decide (bo_vpx_object o = name)); [discriminate Ho|reflexivity]. }
  assert (Hin : in_bake_col sc (str "VPX.Gate.Bracket." ++ name) = false
                /\ in_bake_col sc (str "VPX.Spinner.Bracket." ++ name) = false).
  { unfold in_bake_col, bake_free in *.
    induction (sc_bake_col sc) as [|o l IH]; [split; reflexivity|].
    cbn [existsb forallb] in *. apply andb_true_iff in Hfree as [Ho Hl].
    destruct (IH Hl) as [IH1 IH2]. rewrite IH1, IH2, !orb_false_r.
    destruct (bool_decide (bo_vpx_object o = name)); [discriminate Ho|].
    destruct (bool_decide (bo_name o = str "VPX.Gate.Bracket." ++ name));
      [discriminate Ho|].
    destruct (bool_decide (bo_name o = str "VPX.Spinner.Bracket." ++ name));
      [discriminate Ho|]. split; reflexivity. }
  destruct Hin as [Hgate Hspin].
  assert (Hvis : forall t, default false (visibility_part sc item_type name false t) = false).
  { intros t. unfold visibility_part. rewrite !Hsub.
    repeat match goal with
           | |- default false (if ?c then _ else _) = false => destruct c
           end; reflexivity. }
  unfold patch_record, forced_false, bracket_hidden, light_word, height_over_tag.
  rewrite Hren, Hgate, Hspin, Hvis, !andb_false_r. cbn [andb orb].
  destruct (is_tag rc.1 "NAME"); reflexivity.
Qed.

Lemma renamed_baked (sc : scene) (rs : list (list Z * list Z)) :
  renamed sc (item_name rs) = true -> item_is_baked sc rs = true.
Proof.
  unfold renamed, item_name, item_is_baked. intros H.
  apply andb_true_iff in H as [Hn Hp].
  apply bool_decide_eq_true in Hn. apply bool_decide_eq_true in Hp.
  destruct (records_name rs) as [n|]; cbn [default from_option id] in Hn.
  - subst n. unfold str_in. apply bool_decide_eq_true. unfold baked_vpx_objects.
    destruct Hp as [c Hc]. rewrite Hc. apply elem_of_app. right. apply list_elem_of_singleton.
    reflexivity.
  - vm_compute in Hn. discriminate Hn.
Qed.

(** X2: an item of a known kind that the bake does not involve (its name is
    not among the baked parts or the baked lights, no bake object was made
    from it) and that is not an item of an earlier export is written byte for
    byte under the next free index, in every export mode; its images are
    recorded as used. *)
Theorem untouched_item_copied (sc : scene) (item_type : Z) (rs : list (list Z * list Z))
    (st : pass_state) :
  0 <= item_type < 23 ->
  item_ok sc rs = true ->
  item_is_baked sc rs = false ->
  item_is_baked_light sc rs = false ->
  bake_free sc (item_name rs) = true ->
  startswith (item_name rs) (str "VLM.") = false ->
  item_name rs <> str "VLMTimer" ->
  exists st' : pass_state,
    process_item sc (item_bytes item_type rs) st = Some st'
    /\ ps_dst st' = create_gamestg (ps_dst st) (indexed "GameItem" (n_game_items st))
                      (item_bytes item_type rs)
    /\ n_game_items st' = S (n_game_items st)
    /\ used_images st' = mark_images (used_images st) (item_name rs) (item_images rs)
    /\ removed_images st' = removed_images st.
Proof.
  intros Hty Hok Hbaked Hlight Hfree Hvlm Htimer.
  eexists. split; [apply process_item_records; assumption|].
  rewrite item_result_fields. cbv zeta. rewrite Hbaked, Hlight.
  unfold item_removed. rewrite Hvlm, andb_false_r.
  rewrite bool_decide_eq_false_2 by exact Htimer.
  cbn [andb orb ps_dst n_game_items used_images removed_images].
  repeat split.
  f_equal. f_equal.
  assert (Hren : renamed sc (item_name rs) = false).
  { destruct (renamed sc (item_name rs)) eqn:E; [|reflexivity].
    apply renamed_baked in E. congruence. }
  transitivity (map id rs); [|apply map_id].
  apply map_ext. intros rc. apply patch_record_untouched; assumption.
Qed.

Lemma untouched_item_copied_witness :
  exists st' : pass_state,
    process_item example_scene (item_bytes 0 (example_solid_wall "Wall7"))
      (pass_init (mk_dst [] [] false)) = Some st'
    /\ ps_dst st' = create_gamestg (mk_dst [] [] false) (indexed "GameItem" 0)
                      (item_bytes 0 (example_solid_wall "Wall7"))
    /\ n_game_items st' = 1%nat
    /\ used_images st' = mark_images ∅ (item_name (example_solid_wall "Wall7"))
                           (item_images (example_solid_wall "Wall7"))
    /\ removed_images st' = ∅.
Proof.
  apply (untouched_item_copied example_scene 0 (example_solid_wall "Wall7")
           (pass_init (mk_dst [] [] false)));
    [lia | vm_compute; reflexivity | vm_compute; reflexivity | vm_compute; reflexivity
    | vm_compute; reflexivity | vm_compute; reflexivity | vm_compute; discriminate].
Defined.

(** X3: an item of a known kind whose name starts with [VLM.] or is
    [VLMTimer] (an item of an earlier export) is left out of the destination
    in every export mode: no stream is written, the index of the next item
    stays, and its images are recorded as removable only. *)
Theorem earlier_export_item_dropped (sc : scene) (item_type : Z)
    (rs : list (list Z * list Z)) (st : pass_state) :
  0 <= item_type < 23 ->
  item_ok sc rs = true ->
  startswith (item_name rs) (str "VLM.") || bool_decide (item_name rs = str "VLMTimer") = true ->
  exists st' : pass_state,
    process_item sc (item_bytes item_type rs) st = Some st'
    /\ ps_dst st' = ps_dst st
    /\ n_game_items st' = n_game_items st
    /\ used_images st' = used_images st
    /\ removed_images st' = mark_images (removed_images st) (item_name rs) (item_images rs).
Proof.
  intros Hty Hok Hname.
  eexists. split; [apply process_item_records; assumption|].
  rewrite item_result_fields. cbv zeta.
  assert (Hrem : item_removed sc (item_name rs) (item_is_baked sc rs) (item_is_physics rs)
                 = true).
  { unfold item_removed. rewrite <- orb_assoc, Hname. apply orb_true_r. }
  rewrite Hrem. cbn [orb ps_dst n_game_items used_images removed_images].
  repeat split.
Qed.

(** The sync timer that an export writes is such an item: the next export
    drops it. *)
Lemma earlier_export_item_dropped_witness :
  timer_item = Some (item_bytes 2 timer_records)
  /\ exists st' : pass_state,
       process_item example_scene (item_bytes 2 timer_records)
         (pass_init (mk_dst [] [] false)) = Some st'
       /\ ps_dst st' = mk_dst [] [] false
       /\ n_game_items st' = 0%nat
       /\ used_images st' = ∅
       /\ removed_images st' = mark_images ∅ (item_name timer_records)
                                 (item_images timer_records).
Proof.
  split; [vm_compute; reflexivity|].
  apply (earlier_export_item_dropped example_scene 2 timer_records
           (pass_init (mk_dst [] [] false)));
    [lia | vm_compute; reflexivity | vm_compute; reflexivity].
Defined.

Lemma patch_record_tag (sc : scene) (item_type : Z) (name : list Z)
    (is_baked is_baked_light : bool) (rc : list Z * list Z) :
  (patch_record sc item_type name is_baked is_baked_light rc).1 = rc.1
  \/ (patch_record sc item_type name is_baked is_baked_light rc).1 = le32 f32_m2800.
Proof.
  unfold patch_record.
  destruct (is_tag rc.1 "NAME"); [destruct (renamed sc name); left; reflexivity|].
  destruct (forced_false sc item_type name is_baked rc.1 || bracket_hidden sc item_type name rc.1);
    [left; reflexivity|].
  destruct (light_word item_type is_baked_light rc.1); [left; reflexivity|].
  destruct (height_over_tag item_type is_baked_light rc.1); [right|left]; reflexivity.
Qed.

Lemma patch_record_lengths (sc : scene) (item_type : Z) (name : list Z)
    (is_baked is_baked_light : bool) (rc : list Z * list Z) :
  record_ok sc name rc = true ->
  len (patch_record sc item_type name is_baked is_baked_light rc).1 = len rc.1
  /\ len (patch_record sc item_type name is_baked is_baked_light rc).2 = len rc.2.
Proof.
  intros Hok.
  pose proof (len_patch_record sc item_type name is_baked is_baked_light rc Hok) as Hlen.
  rewrite !len_encode_record in Hlen.
  assert (Ht : len rc.1 = 4).
  { unfold record_ok in Hok. apply andb_true_iff in Hok as [Hok _].
    apply andb_true_iff in Hok as [Hok _]. apply Z.eqb_eq in Hok. exact Hok. }
  destruct (patch_record_tag sc item_type name is_baked is_baked_light rc) as [E|E];
    rewrite E in *; rewrite ?len_le32 in *; lia.
Qed.

Lemma item_output_records (sc : scene) (item_type : Z) (rs : list (list Z * list Z)) :
  0 <= item_type < 23 ->
  item_ok sc rs = true ->
  item_output sc (item_bytes item_type rs)
  = Some (if item_removed sc (item_name rs) (item_is_baked sc rs) (item_is_physics rs)
          then None
          else Some (item_bytes item_type
                       (map (patch_record sc item_type (item_name rs) (item_is_baked sc rs)
                               (item_is_baked_light sc rs)) rs))).
Proof.
  intros Hty Hok. unfold item_output.
  rewrite (process_item_records sc item_type rs _ Hty Hok). cbn [mbind option_bind].
  rewrite item_result_fields. cbv zeta. cbn [ps_dst].
  destruct (item_removed sc (item_name rs) (item_is_baked sc rs) (item_is_physics rs));
    reflexivity.
Qed.

Lemma len_encode_records_patched (sc : scene) (item_type : Z) (name : list Z)
    (is_baked is_baked_light : bool) (rs : list (list Z * list Z)) :
  forallb (record_ok sc name) rs = true ->
  len (encode_records (map (patch_record sc item_type name is_baked is_baked_light) rs))
  = len (encode_records rs).
Proof.
  induction rs as [|rc rs IH]; intros Hok; [reflexivity|].
  cbn [forallb] in Hok. apply andb_true_iff in Hok as [Hrc Hok].
  cbn [map]. rewrite !encode_records_cons, !len_app, (IH Hok).
  rewrite (len_patch_record _ _ _ _ _ _ Hrc). reflexivity.
Qed.

(** X4: the patch of a kept item of a known kind is made in place: the
    stream written has the records of the source, one for one, each with a tag
    and a payload of the length it had, and so the length of the source
    stream. *)
Theorem item_patched_in_place (sc : scene) (item_type : Z) (rs : list (list Z * list Z))
    (b : list Z) :
  0 <= item_type < 23 ->
  item_ok sc rs = true ->
  item_output sc (item_bytes item_type rs) = Some (Some b) ->
  len b = len (item_bytes item_type rs)
  /\ exists rs' : list (list Z * list Z),
       b = item_bytes item_type rs'
       /\ Forall2 (fun rc rc' => len rc'.1 = len rc.1 /\ len rc'.2 = len rc.2) rs rs'.
Proof.
  intros Hty Hok Hout. rewrite (item_output_records sc item_type rs Hty Hok) in Hout.
  destruct (item_removed sc (item_name rs) (item_is_baked sc rs) (item_is_physics rs));
    [discriminate Hout|].
  injection Hout as <-.
  unfold item_ok in Hok. apply andb_true_iff in Hok as [Hok _]. fold (item_name rs) in Hok.
  split.
  - unfold item_bytes. rewrite !len_app.
    rewrite (len_encode_records_patched _ _ _ _ _ _ Hok). reflexivity.
  - eexists. split; [reflexivity|].
    apply Forall2_fmap_r. apply Forall2_same_length_lookup_2; [reflexivity|].
    intros i rc rc' H1 H2. rewrite H1 in H2. injection H2 as <-.
    apply patch_record_lengths.
    rewrite forallb_forall in Hok. apply Hok. apply list_elem_of_In.
    apply (list_elem_of_lookup_2 _ _ _ H1).
Qed.

Lemma item_patched_in_place_witness :
  exists b : list Z,
    item_output example_scene example_bumper = Some (Some b)
    /\ len b = len example_bumper.
Proof.
  destruct (item_output example_scene example_bumper) as [[b|]|] eqn:E;
    [|vm_compute in E; discriminate E|vm_compute in E; discriminate E].
  exists b. split; [reflexivity|].
  refine (proj1 (item_patched_in_place example_scene 5
            [(str "NAME", wide_payload (str "Bumper1"));
             (str "CAVI", bool_payload true);
             (str "BSVS", bool_payload true);
             (str "RIVS", bool_payload true);
             (str "IMAG", string_payload (str "ringtex"));
             (str "REEN", bool_payload true);
             (str "ENDB", [])] b _ _ E)); [lia | vm_compute; reflexivity].
Defined.

Lemma stays_physics_foldl (rs : list (list Z * list Z)) :
  stays_physics rs = true -> foldl physics_step true rs = true.
Proof.
  induction rs as [|rc rs IH]; intros H; [reflexivity|].
  cbn [stays_physics forallb] in H. apply andb_true_iff in H as [Hrc Hrs].
  cbn [foldl]. unfold physics_step at 2.
  destruct (is_tag rc.1 "CLDR" || is_tag rc.1 "CLDW").
  - rewrite Hrc. apply IH, Hrs.
  - destruct (is_tag rc.1 "ISTO").
    + apply negb_true_iff in Hrc. rewrite Hrc. apply IH, Hrs.
    + apply IH, Hrs.
Qed.

(** X6: a baked item of a known kind that does not take part in the physics
    and is not an item of an earlier export is left out of the destination
    exactly in the export modes remove and remove_all; in the other modes it
    is written.  Where it is left out its images are recorded as removable. *)
Theorem mode_decides_removal (sc : scene) (item_type : Z) (rs : list (list Z * list Z))
    (st : pass_state) :
  0 <= item_type < 23 ->
  item_ok sc rs = true ->
  item_is_baked sc rs = true ->
  item_is_physics rs = false ->
  startswith (item_name rs) (str "VLM.") = false ->
  item_name rs <> str "VLMTimer" ->
  exists st' : pass_state,
    process_item sc (item_bytes item_type rs) st = Some st'
    /\ n_game_items st'
       = (if is_removal_mode (sc_export_mode sc) then n_game_items st
          else S (n_game_items st))
    /\ length (dst_gamestg (ps_dst st'))
       = (if is_removal_mode (sc_export_mode sc) then length (dst_gamestg (ps_dst st))
          else S (length (dst_gamestg (ps_dst st))))
    /\ (is_removal_mode (sc_export_mode sc) = true ->
        used_images st' = used_images st
        /\ removed_images st'
           = mark_images (removed_images st) (item_name rs) (item_images rs)).
Proof.
  intros Hty Hok Hbaked Hphys Hvlm Htimer.
  eexists. split; [apply process_item_records; assumption|].
  rewrite item_result_fields. cbv zeta.
  unfold item_removed. rewrite Hbaked, Hphys, Hvlm.
  rewrite bool_decide_eq_false_2 by exact Htimer.
  destruct (is_removal_mode (sc_export_mode sc));
    cbn [andb orb negb ps_dst n_game_items used_images removed_images dst_gamestg
         create_gamestg].
  - repeat split.
  - rewrite length_app. cbn [length]. repeat split; try lia; discriminate.
Qed.

Lemma mode_decides_removal_witness :
  exists st' : pass_state,
    process_item (example_scene_baking mode_remove "Deco")
      (item_bytes 0 (example_toy_wall "Deco")) (pass_init (mk_dst [] [] false)) = Some st'
    /\ n_game_items st' = 0%nat
    /\ dst_gamestg (ps_dst st') = []
    /\ removed_images st' = {[ str "toytex" := [str "Deco"] ]}.
Proof.
  destruct (mode_decides_removal (example_scene_baking mode_remove "Deco") 0
              (example_toy_wall "Deco") (pass_init (mk_dst [] [] false)))
    as (st' & H1 & H2 & H3 & H4);
    [lia | vm_compute; reflexivity | vm_compute; reflexivity | vm_compute; reflexivity
    | vm_compute; reflexivity | vm_compute; discriminate |].
  exists st'. split; [exact H1|]. split; [exact H2|].
  split; [apply nil_length_inv; exact H3|].
  destruct (H4 eq_refl) as [_ H5]. rewrite H5. vm_compute. reflexivity.
Defined.

(** ** The images an item uses *)

Lemma mark_image_lookup_same (d : gmap (list Z) (list (list Z))) (name image : list Z) :
  mark_image d name image !! image = Some (default [] (d !! image) ++ [name]).
Proof.
  unfold mark_image. destruct (d !! image) as [l|] eqn:E; rewrite lookup_insert_eq;
    reflexivity.
Qed.

Lemma mark_image_lookup_other (d : gmap (list Z) (list (list Z))) (name image k : list Z) :
  k <> image -> mark_image d name image !! k = d !! k.
Proof.
  intros H. unfold mark_image. destruct (d !! image); apply lookup_insert_ne; congruence.
Qed.

Lemma mark_image_extends (d : gmap (list Z) (list (list Z))) (name image k : list Z)
    (l : list (list Z)) :
  d !! k = Some l -> exists l', mark_image d name image !! k = Some (l ++ l').
Proof.
  intros H. destruct (decide (k = image)) as [->|Hne].
  - rewrite mark_image_lookup_same, H. exists [name]. reflexivity.
  - rewrite (mark_image_lookup_other _ _ _ _ Hne), H. exists []. rewrite app_nil_r.
    reflexivity.
Qed.

Lemma mark_images_extends (images : list (list Z)) :
  forall (d : gmap (list Z) (list (list Z))) (name k : list Z) (l : list (list Z)),
    d !! k = Some l -> exists l', mark_images d name images !! k = Some (l ++ l').
Proof.
  induction images as [|image images IH]; intros d name k l H.
  - exists []. rewrite app_nil_r. exact H.
  - unfold mark_images. cbn [foldl]. fold (mark_images (mark_image d name image) name images).
    destruct (mark_image_extends d name image k l H) as [l1 H1].
    destruct (IH _ name k _ H1) as [l2 H2].
    exists (l1 ++ l2). rewrite H2, app_assoc. reflexivity.
Qed.

(** X7: the dictionaries of the used and of the removable images only grow
    (lines 222 to 232): marking the images of an item keeps every key with
    the users it had, in their order, and gives every marked image an entry
    that ends with the name of the item. *)
Theorem mark_images_appends (d : gmap (list Z) (list (list Z))) (name : list Z)
    (images : list (list Z)) :
  (forall k l, d !! k = Some l ->
     exists l', mark_images d name images !! k = Some (l ++ l'))
  /\ (forall image, image ∈ images ->
        exists l, mark_images d name images !! image = Some (l ++ [name]))
  /\ (forall k, k ∉ images -> mark_images d name images !! k = d !! k).
Proof.
  split; [intros k l; apply mark_images_extends|]. split.
  - revert d. induction images as [|i images IH]; intros d image Hin.
    + apply elem_of_nil in Hin. contradiction.
    + unfold mark_images. cbn [foldl]. fold (mark_images (mark_image d name i) name images).
      destruct (decide (image ∈ images)) as [Hlater|Hnot].
      * apply IH, Hlater.
      * apply elem_of_cons in Hin as [->|Hin]; [|contradiction].
        assert (Hrest : forall d0, mark_images d0 name images !! i = d0 !! i).
        { clear -Hnot. induction images as [|j images IH]; intros d0; [reflexivity|].
          unfold mark_images. cbn [foldl]. fold (mark_images (mark_image d0 name j) name images).
          rewrite IH by (intros H; apply Hnot; right; exact H).
          apply mark_image_lookup_other. intros ->. apply Hnot. left. }
        rewrite Hrest, mark_image_lookup_same. eexists. reflexivity.
  - revert d. induction images as [|i images IH]; intros d k Hnot; [reflexivity|].
    unfold mark_images. cbn [foldl]. fold (mark_images (mark_image d name i) name images).
    rewrite IH by (intros H; apply Hnot; right; exact H).
    apply mark_image_lookup_other. intros ->. apply Hnot. left.
Qed.

Lemma process_item_used_grows (sc : scene) (data0 : list Z) (st st' : pass_state)
    (k : list Z) :
  process_item sc data0 st = Some st' ->
  is_Some (used_images st !! k) -> is_Some (used_images st' !! k).
Proof.
  unfold process_item. intros H [l Hl].
  destruct (get_32 (BIFF_reader data0)) as [[ty r0]|]; cbn [mbind option_bind] in H;
    [|discriminate].
  destruct ((ty <? 0) || (Z.of_nat (length prefix) <=? ty)).
  - injection H as <-. cbn [used_images]. eauto.
  - destruct (find_name (S (length data0)) r0) as [found|]; cbn [mbind option_bind] in H;
      [|discriminate].
    match type of H with
    | context [patch_loop ?a ?b ?c ?d ?e ?f ?g] =>
        destruct (patch_loop a b c d e f g) as [s|]
    end; cbn [mbind option_bind] in H; [|discriminate].
    injection H as <-. cbn [used_images].
    match goal with
    | |- context [if ?c then _ else _] => destruct c
    end; [eauto|].
    destruct (mark_images_extends (ts_item_images s) (used_images st)
                (default (str "unknown") found) k l Hl) as [l' Hl'].
    rewrite Hl'. eauto.
Qed.

Lemma item_pass_used_grows (sc : scene) (items : list (list Z)) :
  forall (st st' : pass_state) (k : list Z),
    item_pass sc items st = Some st' ->
    is_Some (used_images st !! k) -> is_Some (used_images st' !! k).
Proof.
  induction items as [|d items IH]; intros st st' k H Hk; cbn [item_pass] in H.
  - injection H as <-. exact Hk.
  - destruct (process_item sc d st) as [st1|] eqn:E; cbn [mbind option_bind] in H;
      [|discriminate].
    apply (IH st1 st' k H). apply (process_item_used_grows sc d st st1 k E Hk).
Qed.

Lemma item_pass_app (sc : scene) (l1 l2 : list (list Z)) (st : pass_state) :
  item_pass sc (l1 ++ l2) st = item_pass sc l1 st ≫= item_pass sc l2.
Proof.
  revert st. induction l1 as [|d l1 IH]; intros st; [reflexivity|].
  cbn [app item_pass]. destruct (process_item sc d st) as [st1|]; cbn [mbind option_bind];
    [apply IH|reflexivity].
Qed.

(** X8: an image that a written item of a known kind names in an IMAG, SIMG
    or IMAB record, the item not being a baked one under the modes remove and
    remove_all, is never removed by the image loop, whatever other items name
    it and whatever the export mode, unless its own name starts with [VLM.]:
    the test of lines 390 and 391 fails for it after the item loop. *)
Theorem used_image_is_kept (sc : scene) (before later : list (list Z)) (item_type : Z)
    (rs : list (list Z * list Z)) (st0 st : pass_state) (image : list Z) :
  0 <= item_type < 23 ->
  item_ok sc rs = true ->
  item_removed sc (item_name rs) (item_is_baked sc rs) (item_is_physics rs) = false ->
  is_removal_mode (sc_export_mode sc) && item_is_baked sc rs = false ->
  image ∈ item_images rs ->
  startswith image (str "VLM.") = false ->
  item_pass sc (before ++ item_bytes item_type rs :: later) st0 = Some st ->
  forall removed : gmap (list Z) (list (list Z)),
    image_removed (sc_export_mode sc) (used_images st) removed image = false.
Proof.
  intros Hty Hok Hkept Hmode Hin Hvlm Hpass removed.
  rewrite item_pass_app in Hpass.
  destruct (item_pass sc before st0) as [st1|]; cbn [mbind option_bind] in Hpass;
    [|discriminate].
  cbn [item_pass] in Hpass.
  rewrite (process_item_records sc item_type rs st1 Hty Hok) in Hpass.
  cbn [mbind option_bind] in Hpass.
  assert (Hused : is_Some (used_images (item_result sc item_type rs st1) !! image)).
  { rewrite item_result_fields. cbv zeta. rewrite Hkept, Hmode. cbn [orb used_images].
    destruct (mark_images_appends (used_images st1) (item_name rs) (item_images rs))
      as (_ & Hmarked & _).
    destruct (Hmarked image Hin) as [l Hl]. rewrite Hl. eauto. }
  pose proof (item_pass_used_grows sc later _ st image Hpass Hused) as [l Hl].
  unfold image_removed. rewrite Hvlm, Hl.
  rewrite (bool_decide_eq_false_2 (Some l = None)) by discriminate.
  rewrite andb_false_r. reflexivity.
Qed.

Lemma used_image_is_kept_witness :
    image_removed mode_remove_all
      (used_images
         (default (pass_init (mk_dst [] [] false))
            (item_pass (example_scene_baking mode_remove_all "Deco")
               [item_bytes 0 (example_toy_wall "Deco");
                item_bytes 0 (example_solid_wall "Wall7");
                item_bytes 0 (example_toy_wall "Deco")]
               (pass_init (mk_dst [] [] false)))))
      {[ str "walltex" := [str "Deco"] ]} (str "walltex") = false.
Proof.
  destruct (item_pass (example_scene_baking mode_remove_all "Deco")
              [item_bytes 0 (example_toy_wall "Deco");
               item_bytes 0 (example_solid_wall "Wall7");
               item_bytes 0 (example_toy_wall "Deco")]
              (pass_init (mk_dst [] [] false))) as [st|] eqn:E;
    [|vm_compute in E; discriminate E].
  cbn [default from_option id].
  refine (used_image_is_kept (example_scene_baking mode_remove_all "Deco")
            [item_bytes 0 (example_toy_wall "Deco")]
            [item_bytes 0 (example_toy_wall "Deco")] 0 (example_solid_wall "Wall7")
            (pass_init (mk_dst [] [] false)) st (str "walltex") _ _ _ _ _ _ E
            {[ str "walltex" := [str "Deco"] ]});
    [lia | vm_compute; reflexivity | vm_compute; reflexivity | vm_compute; reflexivity
    | vm_compute; apply list_elem_of_singleton; reflexivity | vm_compute; reflexivity].
Defined.

(** ** The names of the new items *)

(** X9: [export_name] keeps the length of a name and leaves no dot, space or
    dash in it; a name without these is not changed, so the function applied
    twice gives what it gives once. *)
Theorem export_name_identifier (object_name : list Z) :
  len (export_name object_name) = len object_name
  /\ (46 ∉ export_name object_name)
  /\ (32 ∉ export_name object_name)
  /\ (45 ∉ export_name object_name)
  /\ export_name (export_name object_name) = export_name object_name.
Proof.
  unfold export_name, len. rewrite length_map. split; [reflexivity|].
  assert (H : forall c, c = 46 \/ c = 32 \/ c = 45 ->
                c ∉ map (fun c => if (c =? 46) || (c =? 32) || (c =? 45) then 95 else c)
                        object_name).
  { intros c Hc Hin. apply list_elem_of_fmap in Hin as (x & Hx & _).
    destruct ((x =? 46) || (x =? 32) || (x =? 45)) eqn:E.
    - lia.
    - apply orb_false_iff in E as [E E3]. apply orb_false_iff in E as [E1 E2]. lia. }
  split; [apply H; auto|]. split; [apply H; auto|]. split; [apply H; auto|].
  rewrite map_map. apply map_ext. intros c.
  destruct ((c =? 46) || (c =? 32) || (c =? 45)) eqn:E; [reflexivity|]. rewrite E.
  reflexivity.
Qed.

Lemma startswith_lookup (s p : list Z) (i : nat) (c : Z) :
  startswith s p = true -> p !! i = Some c -> s !! i = Some c.
Proof.
  revert s i. induction p as [|x p IH]; intros s i H Hp; [discriminate Hp|].
  destruct s as [|y s]; [discriminate H|]. cbn [startswith] in H.
  apply andb_true_iff in H as [Hxy H]. apply Z.eqb_eq in Hxy. subst y.
  destruct i as [|i]; [exact Hp|]. cbn in *. apply (IH s i H Hp).
Qed.

(** X10: no name [export_name] gives starts with [VLM.] (its fourth
    character would be a dot), so the test [name.startswith('VLM.')] of line
    219 fails on the name that line 284 gives a bake item; and [elem_ref]
    never wraps such a name in [GetElementByName]: it is the name, cut to its
    first 31 characters. *)
Theorem export_name_escapes_prefix (object_name : list Z) :
  startswith (export_name object_name) (str "VLM.") = false
  /\ elem_ref (export_name object_name)
     = (if 31 <? len (export_name object_name)
        then take 31 (export_name object_name) else export_name object_name).
Proof.
  destruct (export_name_identifier object_name) as (_ & Hdot & Hspace & _ & _).
  split.
  - destruct (startswith (export_name object_name) (str "VLM.")) eqn:E; [|reflexivity].
    exfalso. apply Hdot.
    apply (list_elem_of_lookup_2 _ 3%nat).
    apply (startswith_lookup _ (str "VLM.") 3 46 E). reflexivity.
  - unfold elem_ref.
    set (name := if 31 <? len (export_name object_name)
                 then take 31 (export_name object_name) else export_name object_name).
    assert (Hsub : forall c, c ∈ name -> c ∈ export_name object_name).
    { intros c Hc. unfold name in Hc.
      destruct (31 <? len (export_name object_name)); [|exact Hc].
      apply elem_of_take in Hc as (i & Hi & _).
      apply (list_elem_of_lookup_2 _ i). exact Hi. }
    rewrite (bool_decide_eq_false_2 (32 ∈ name)) by (intros H; apply Hspace, Hsub, H).
    rewrite (bool_decide_eq_false_2 (46 ∈ name)) by (intros H; apply Hdot, Hsub, H).
    reflexivity.
Qed.

(** ** The mesh of a bake *)

Section MeshLoops.

Variable V : Type.
Variable vertex_eqb : V -> V -> bool.

(** What the loop keeps true: the counter is the number of the vertices, the
    dictionary gives every vertex its place, every index points into the
    vertices, no two of the vertices are equal, and, when the equality of the
    dictionary is reflexive, the indices stand for the loops visited. *)
Let mesh_inv (m : mesh_state V) (loops : list V) : Prop :=
  n_vertices m = Z.of_nat (length (vertices m))
  /\ vert_dict m = imap (fun i v => (v, Z.of_nat i)) (vertices m)
  /\ length (indices m) = length loops
  /\ Forall (fun idx => 0 <= idx < n_vertices m) (indices m)
  /\ (forall i j vi vj, (i < j)%nat -> vertices m !! i = Some vi ->
        vertices m !! j = Some vj -> vertex_eqb vi vj = false)
  /\ ((forall v, vertex_eqb v v = true) ->
      Forall2 (decodes vertex_eqb (vertices m)) (indices m) loops).

Lemma dict_get_Some (vs : list V) (v : V) (idx : Z) :
  dict_get V vertex_eqb (imap (fun i v => (v, Z.of_nat i)) vs) v = Some idx ->
  exists v', vs !! Z.to_nat idx = Some v' /\ vertex_eqb v' v = true
             /\ 0 <= idx < Z.of_nat (length vs).
Proof.
  unfold dict_get. intros H.
  destruct (find _ _) as [[v' i]|] eqn:E; [|discriminate H].
  cbn in H. injection H as <-.
  apply find_some in E as [Hin Hv]. cbn [fst] in Hv.
  apply list_elem_of_In in Hin. apply elem_of_lookup_imap in Hin as (k & y & Heq & Hk).
  injection Heq as -> ->. exists y. rewrite Nat2Z.id.
  split; [exact Hk|]. split; [exact Hv|].
  apply lookup_lt_Some in Hk. lia.
Qed.

Lemma dict_get_None (vs : list V) (v : V) (i : nat) (vi : V) :
  dict_get V vertex_eqb (imap (fun i v => (v, Z.of_nat i)) vs) v = None ->
  vs !! i = Some vi -> vertex_eqb vi v = false.
Proof.
  unfold dict_get. intros H Hi.
  destruct (find _ _) as [kv|] eqn:E; [discriminate H|].
  apply (find_none _ _ E (vi, Z.of_nat i)).
  apply list_elem_of_In. apply elem_of_lookup_imap. exists i, vi. split; [reflexivity|exact Hi].
Qed.

Lemma decodes_app (vs : list V) (extra : list V) (idx : Z) (v : V) :
  decodes vertex_eqb vs idx v -> decodes vertex_eqb (vs ++ extra) idx v.
Proof.
  intros (H0 & v' & Hv' & He). split; [exact H0|]. exists v'. split; [|exact He].
  apply lookup_app_l_Some. exact Hv'.
Qed.

Lemma add_vertex_inv (m : mesh_state V) (loops : list V) (v : V) :
  mesh_inv m loops -> mesh_inv (add_vertex V vertex_eqb m v) (loops ++ [v]).
Proof.
  unfold mesh_inv. intros (Hn & Hd & Hl & Hi & Hu & Hr). unfold add_vertex.
  destruct (dict_get V vertex_eqb (vert_dict m) v) as [idx|] eqn:E;
    cbn [n_vertices vertices vert_dict indices]; rewrite Hd in E.
  - apply dict_get_Some in E as (v' & Hv' & He & Hb).
    split; [exact Hn|]. split; [exact Hd|].
    split; [rewrite !length_app, Hl; reflexivity|].
    split; [apply Forall_app; split; [exact Hi|]; apply Forall_singleton; lia|].
    split; [exact Hu|].
    intros Hrefl. apply Forall2_app; [apply Hr, Hrefl|].
    constructor; [|constructor].
    split; [lia|]. exists v'. split; assumption.
  - split; [rewrite length_app; cbn [length]; lia|].
    split.
    { rewrite imap_app. cbn [imap]. rewrite Hd, Hn. f_equal. f_equal. f_equal. lia. }
    split; [rewrite !length_app, Hl; reflexivity|].
    split.
    { apply Forall_app. split.
      - eapply Forall_impl; [exact Hi|]. cbn. intros; lia.
      - apply Forall_singleton. pose proof (Zle_0_nat (length (vertices m))). lia. }
    split.
    { intros i j vi vj Hij Hvi Hvj.
      destruct (decide (j < length (vertices m))%nat) as [Hj|Hj].
      - rewrite lookup_app_l in Hvi by lia. rewrite lookup_app_l in Hvj by lia.
        apply (Hu i j vi vj Hij Hvi Hvj).
      - assert (Hjn : j = length (vertices m)).
        { apply lookup_lt_Some in Hvj. rewrite length_app in Hvj. cbn [length] in Hvj. lia. }
        subst j. rewrite lookup_app_l in Hvi by lia.
        rewrite lookup_app_r in Hvj by lia. rewrite Nat.sub_diag in Hvj.
        injection Hvj as <-. apply (dict_get_None _ _ _ _ E Hvi). }
    intros Hrefl. apply Forall2_app.
    + eapply Forall2_impl; [apply Hr, Hrefl|]. intros idx x. apply decodes_app.
    + constructor; [|constructor].
      split; [lia|]. exists v. rewrite Hn, Nat2Z.id.
      split; [|apply Hrefl]. rewrite lookup_app_r by lia. rewrite Nat.sub_diag. reflexivity.
Qed.

Lemma foldl_add_vertex_inv (l : list V) :
  forall (m : mesh_state V) (loops : list V),
    mesh_inv m loops -> mesh_inv (foldl (add_vertex V vertex_eqb) m l) (loops ++ l).
Proof.
  induction l as [|v l IH]; intros m loops H; cbn [foldl].
  - rewrite app_nil_r. exact H.
  - replace (loops ++ v :: l) with ((loops ++ [v]) ++ l) by (rewrite <- app_assoc; reflexivity).
    apply IH, add_vertex_inv, H.
Qed.

Lemma build_mesh_inv (polygons : list (list V)) :
  mesh_inv (build_mesh V vertex_eqb polygons) (mesh_loops polygons).
Proof.
  unfold build_mesh.
  assert (G : forall l m loops,
             mesh_inv m loops ->
             mesh_inv (foldl (add_polygon V vertex_eqb) m l) (loops ++ mesh_loops l)).
  { induction l as [|p l IH]; intros m loops H; cbn [foldl].
    - unfold mesh_loops. cbn. rewrite app_nil_r. exact H.
    - unfold mesh_loops. cbn [List.filter]. unfold add_polygon.
      destruct (bool_decide (length p = 3%nat)).
      + cbn [flat_map]. rewrite app_assoc. apply IH, foldl_add_vertex_inv, H.
      + apply IH, H. }
  apply (G polygons _ []).
  unfold mesh_inv. cbn [n_vertices vertices vert_dict indices length imap].
  repeat split; try reflexivity; try constructor.
  intros i j vi vj _ Hvi. discriminate Hvi.
Qed.

(** X11: the loop of lines 310 to 331 leaves a mesh in which every index
    points into the list of the vertices, the counter [n_vertices] is the
    number of the vertices kept, each polygon of three loops gave three
    indices (the other polygons none), and no two vertices kept are equal for
    the dictionary. *)
Theorem mesh_indices_in_range (polygons : list (list V)) :
  let m := build_mesh V vertex_eqb polygons in
  n_vertices m = Z.of_nat (length (vertices m))
  /\ Forall (fun idx => 0 <= idx < n_vertices m) (indices m)
  /\ length (indices m)
     = (3 * length (List.filter (fun poly => bool_decide (length poly = 3%nat)) polygons))%nat
  /\ (forall i j vi vj, (i < j)%nat -> vertices m !! i = Some vi ->
        vertices m !! j = Some vj -> vertex_eqb vi vj = false).
Proof.
  intros m. destruct (build_mesh_inv polygons) as (Hn & _ & Hl & Hi & Hu & _).
  fold m in Hn, Hl, Hi, Hu.
  split; [exact Hn|]. split; [exact Hi|]. split; [|exact Hu].
  rewrite Hl. unfold mesh_loops. clear.
  induction polygons as [|p l IH]; [reflexivity|].
  cbn [List.filter]. destruct (bool_decide (length p = 3%nat)) eqn:E; [|exact IH].
  apply bool_decide_eq_true in E.
  cbn [flat_map length]. rewrite length_app, length_reverse, IH, E. lia.
Qed.

(** X12: when the equality of the dictionary is reflexive, the mesh stands
    for the polygons it was made from: read through the list of the vertices,
    the indices give, loop for loop and in the order of the visit, a vertex
    equal to the one of the loop. *)
Theorem mesh_indices_decode (polygons : list (list V)) :
  (forall v, vertex_eqb v v = true) ->
  let m := build_mesh V vertex_eqb polygons in
  Forall2 (decodes vertex_eqb (vertices m)) (indices m) (mesh_loops polygons).
Proof.
  intros Hrefl m. destruct (build_mesh_inv polygons) as (_ & _ & _ & _ & _ & Hr).
  apply Hr, Hrefl.
Qed.

End MeshLoops.

Lemma mesh_indices_decode_witness :
  Forall2 (decodes Z.eqb (vertices (build_mesh Z Z.eqb [[1; 2; 3]; [3; 2; 4]; [5; 6]])))
          (indices (build_mesh Z Z.eqb [[1; 2; 3]; [3; 2; 4]; [5; 6]]))
          [3; 2; 1; 4; 2; 3].
Proof.
  apply (mesh_indices_decode Z Z.eqb [[1; 2; 3]; [3; 2; 4]; [5; 6]]).
  intros v. apply Z.eqb_refl.
Defined.

(** ** The script patch *)

Lemma Ret_inj {A : Type} (a b : A) : Ret a = Ret b -> a = b.
Proof. intros H. injection H as ->. reflexivity. Qed.

Section ScriptPatch.

Variable V : Type.
Variable is_rgb_led : list light_object -> bool.
Variable sc : scene.
Variable result_col : list (result_object V).
Variables lights flashers : list (list Z).

Lemma sync_statement_appends (line line_stripped : list Z) (s s' : script_state) :
  sync_statement line line_stripped s = Ret s' ->
  (exists t, code s' = code s ++ t) /\ move_updated s' = move_updated s.
Proof.
  unfold sync_statement. intros H.
  repeat match type of H with
         | match ?x with _ => _ end = _ => destruct x
         | (let '(_, _) := ?x in _) = _ => destruct x
         | (if ?c then _ else _) = _ => destruct c
         end;
    try discriminate H; injection H as <-; cbn [append_code code move_updated];
    (split; [eexists; reflexivity|reflexivity]).
Qed.

Lemma script_line_appends (line : list Z) (s s' : script_state) :
  script_line V result_col line s = Ret s' ->
  (exists t, code s' = code s ++ t) /\ move_updated s' = move_updated s.
Proof.
  unfold script_line. intros H.
  repeat match type of H with
         | (if ?c then _ else _) = _ => destruct c
         end;
    try (apply sync_statement_appends in H; exact H);
    injection H as <-; cbn [append_code set_block code move_updated];
    (split; [first [eexists; reflexivity | exists []; rewrite app_nil_r; reflexivity]
            |reflexivity]).
Qed.

Lemma script_lines_appends (lines : list (list Z)) :
  forall s s' : script_state,
    script_lines V result_col lines s = Ret s' ->
    (exists t, code s' = code s ++ t) /\ move_updated s' = move_updated s.
Proof.
  induction lines as [|line lines IH]; intros s s' H; cbn [script_lines] in H.
  - injection H as <-. split; [exists []; rewrite app_nil_r|]; reflexivity.
  - destruct (script_line V result_col line s) as [s1|e] eqn:E; cbn [py_bind] in H;
      [|discriminate H].
    apply script_line_appends in E as [[t1 H1] M1].
    apply IH in H as [[t2 H2] M2].
    split; [|congruence]. exists (t1 ++ t2). rewrite H2, H1, app_assoc. reflexivity.
Qed.

(** X13: the script patch only appends.  The script of the source stays,
    unchanged, at the front of the patched script (a routine found in it is
    not replaced: its new lines are added at the end), and since no line of
    the patch sets [move_updated] (line 584 sets [lampz_updated]) the routine
    [VLMMovableHelper] is added at the end of every patched script, also
    when the source holds one. *)
Theorem script_patch_appends (code0 c : list Z) :
  patch_script V is_rgb_led sc result_col lights flashers code0 = Ret c ->
  exists mid : list Z, c = code0 ++ mid ++ movable_helper result_col.
Proof.
  unfold patch_script. intros H.
  destruct (initial_updates V is_rgb_led sc lights flashers result_col) as [upd0|e];
    cbn [py_bind] in H; [|discriminate H].
  destruct (script_lines V result_col (splitlines code0) _) as [s|e] eqn:E;
    cbn [py_bind] in H; [|discriminate H].
  apply script_lines_appends in E as [[t Ht] Hm]. cbn [code move_updated] in Ht, Hm.
  rewrite Hm, Ht in H.
  destruct (sync_updated s), (lampz_updated s); apply Ret_inj in H; rewrite <- H.
  - exists t. unfold movable_helper. rewrite <- !app_assoc. reflexivity.
  - exists (t ++ lampz_helper result_col). unfold lampz_helper, movable_helper.
    rewrite <- !app_assoc. reflexivity.
  - exists (t ++ sync_header ++ push_updates (updates s) ++ sync_footer).
    unfold movable_helper. rewrite <- !app_assoc. reflexivity.
  - exists (t ++ sync_header ++ push_updates (updates s) ++ sync_footer
            ++ lampz_helper result_col).
    unfold lampz_helper, movable_helper. rewrite <- !app_assoc. reflexivity.
Qed.

Lemma script_line_unmanaged (line : list Z) (s : script_state) :
  in_block s = 0 -> starts_generated line = false ->
  script_line V result_col line s = Ret s.
Proof.
  unfold starts_generated, script_line. intros Hb H.
  apply orb_false_iff in H as [H H3]. apply orb_false_iff in H as [H1 H2].
  rewrite Hb, H1, H2, H3. reflexivity.
Qed.

Lemma script_lines_unmanaged (lines : list (list Z)) (s : script_state) :
  in_block s = 0 ->
  forallb (fun line => negb (starts_generated line)) lines = true ->
  script_lines V result_col lines s = Ret s.
Proof.
  intros Hb. induction lines as [|line lines IH]; intros H; [reflexivity|].
  cbn [forallb] in H. apply andb_true_iff in H as [Hl H]. apply negb_true_iff in Hl.
  cbn [script_lines]. rewrite (script_line_unmanaged line s Hb Hl). cbn [py_bind].
  apply IH, H.
Qed.

(** X14: for a script none of whose lines opens one of the three routines
    the patch looks for, the patched script is the script of the source, the
    header, one statement per lightmap to follow, the footer with the three
    helper functions, and the routines [VLMLampzHelper] and
    [VLMMovableHelper], in this order. *)
Theorem fresh_script_patch (code0 : list Z) (upd : list update) :
  forallb (fun line => negb (starts_generated line)) (splitlines code0) = true ->
  initial_updates V is_rgb_led sc lights flashers result_col = Ret upd ->
  patch_script V is_rgb_led sc result_col lights flashers code0
  = Ret (code0 ++ sync_header ++ push_updates upd ++ sync_footer
         ++ lampz_helper result_col ++ movable_helper result_col).
Proof.
  intros Hlines Hupd. unfold patch_script. rewrite Hupd. cbn [py_bind].
  rewrite script_lines_unmanaged by (reflexivity || exact Hlines).
  cbn [py_bind code sync_updated lampz_updated move_updated updates].
  unfold lampz_helper, movable_helper. rewrite <- !app_assoc. reflexivity.
Qed.

End ScriptPatch.

Lemma script_patch_appends_witness :
  exists c mid : list Z,
    patch_script Z (fun _ => false) example_scene [example_lightmap 0] [str "L1"] []
      example_script_with_helper = Ret c
    /\ c = example_script_with_helper ++ mid ++ movable_helper [example_lightmap 0].
Proof.
  destruct (patch_script Z (fun _ => false) example_scene [example_lightmap 0] [str "L1"] []
              example_script_with_helper) as [c|e] eqn:E; [|vm_compute in E; discriminate E].
  destruct (script_patch_appends Z (fun _ => false) example_scene [example_lightmap 0]
              [str "L1"] [] example_script_with_helper c E) as [mid Hmid].
  exists c, mid. split; [reflexivity|exact Hmid].
Defined.

Lemma fresh_script_patch_witness :
  patch_script Z (fun _ => false) example_scene [example_lightmap 0] [str "L1"] []
    (str "Dim x" ++ nl)
  = Ret (str "Dim x" ++ nl ++ sync_header
         ++ push_updates [mk_update (Some (str "L1")) 0 (str "LM1") false]
         ++ sync_footer ++ lampz_helper [example_lightmap 0]
         ++ movable_helper [example_lightmap 0]).
Proof.
  rewrite (fresh_script_patch Z (fun _ => false) example_scene [example_lightmap 0]
             [str "L1"] [] (str "Dim x" ++ nl)
             [mk_update (Some (str "L1")) 0 (str "LM1") false]);
    [rewrite <- app_assoc; reflexivity | vm_compute; reflexivity | vm_compute; reflexivity].
Defined.

(** ** The table of the materials *)

(** X15: the loop of lines 480 to 488 reads the names the import reads from
    the table of the materials (lines 388 to 390 of [vlm_import.py]) and ends
    where it ends; it sets [has_solid_bake_mat] and [has_active_bake_mat]
    when the table holds [VLM.Bake.Solid] and [VLM.Bake.Active], and
    [has_light_mat] when it holds a material named [VLM.Light]: a material
    named [VLM.Lightmap], the name lines 285 and 687 write, does not set it.
    The positions and the count the loop of GameData noted stay. *)
Theorem scan_materials_flags (n : nat) :
  forall (s : gd_state) (names : list (list Z)) (r' : reader),
    read_material_names n (gd_reader s) = Some (names, r') ->
    exists s' : gd_state,
      scan_materials n s = Some s'
      /\ gd_reader s' = r'
      /\ has_solid_bake_mat s'
         = has_solid_bake_mat s || bool_decide (str "VLM.Bake.Solid" ∈ names)
      /\ has_active_bake_mat s'
         = has_active_bake_mat s || bool_decide (str "VLM.Bake.Active" ∈ names)
      /\ has_light_mat s' = has_light_mat s || bool_decide (str "VLM.Light" ∈ names)
      /\ masi_pos s' = masi_pos s /\ n_materials s' = n_materials s
      /\ mate_pos s' = mate_pos s /\ phma_pos s' = phma_pos s.
Proof.
  induction n as [|n IH]; intros s names r' H; cbn [read_material_names scan_materials] in *.
  - injection H as <- <-. exists s. repeat split.
    all: rewrite bool_decide_eq_false_2 by apply not_elem_of_nil.
    all: rewrite orb_false_r; reflexivity.
  - destruct (get_str (gd_reader s) 32) as [[raw r1]|]; cbn [mbind option_bind] in *;
      [|discriminate H].
    match goal with
    | |- context [scan_materials n ?s1] => set (s1' := s1)
    end.
    destruct (read_material_names n (skip r1 (11 * 4))) as [[names' r2]|] eqn:E;
      cbn [mbind option_bind] in H; [|discriminate H].
    injection H as <- <-.
    assert (Hr : gd_reader s1' = skip r1 (11 * 4)).
    { unfold s1'. repeat match goal with
                         | |- context [if ?c then _ else _] => destruct c
                         end; reflexivity. }
    rewrite <- Hr in E. destruct (IH s1' names' r2 E)
      as (s' & Hs & Hrd & H1 & H2 & H3 & H4 & H5 & H6 & H7).
    exists s'. split; [exact Hs|]. split; [exact Hrd|].
    rewrite H1, H2, H3, H4, H5, H6, H7. clear.
    assert (Hin : forall x : list Z,
               bool_decide (x ∈ rstrip0 raw :: names')
               = bool_decide (rstrip0 raw = x) || bool_decide (x ∈ names')).
    { intros x. destruct (decide (rstrip0 raw = x)) as [->|Hne].
      - rewrite !bool_decide_eq_true_2 by (reflexivity || left). reflexivity.
      - rewrite (bool_decide_eq_false_2 (rstrip0 raw = x)) by exact Hne. cbn [orb].
        apply bool_decide_ext. rewrite elem_of_cons. intuition congruence. }
    rewrite !Hin. unfold s1'.
    destruct (bool_decide (rstrip0 raw = str "VLM.Bake.Solid")) eqn:E1.
    { apply bool_decide_eq_true in E1. rewrite ?E1. tag_tests.
      cbn [has_solid_bake_mat has_active_bake_mat has_light_mat masi_pos n_materials
           mate_pos phma_pos orb].
      rewrite ?orb_true_r. repeat split. }
    destruct (bool_decide (rstrip0 raw = str "VLM.Bake.Active")) eqn:E2.
    { apply bool_decide_eq_true in E2. rewrite ?E2. tag_tests.
      cbn [has_solid_bake_mat has_active_bake_mat has_light_mat masi_pos n_materials
           mate_pos phma_pos orb].
      rewrite ?orb_true_r. repeat split. }
    destruct (bool_decide (rstrip0 raw = str "VLM.Light")) eqn:E3.
    { apply bool_decide_eq_true in E3. rewrite ?E3. tag_tests.
      cbn [has_solid_bake_mat has_active_bake_mat has_light_mat masi_pos n_materials
           mate_pos phma_pos orb].
      rewrite ?orb_true_r. repeat split. }
    cbn [gd_with_reader has_solid_bake_mat has_active_bake_mat has_light_mat masi_pos
         n_materials mate_pos phma_pos orb]. repeat split.
Qed.

Lemma scan_materials_flags_witness :
  exists s' : gd_state,
    scan_materials 2
      (mk_gd (BIFF_reader (padded_name "VLM.Lightmap" ++ replicate 44 7
                           ++ padded_name "VLM.Bake.Solid" ++ replicate 44 7))
         false false false None None None None) = Some s'
    /\ has_solid_bake_mat s' = true
    /\ has_active_bake_mat s' = false
    /\ has_light_mat s' = false.
Proof.
  destruct (scan_materials_flags 2
              (mk_gd (BIFF_reader (padded_name "VLM.Lightmap" ++ replicate 44 7
                                   ++ padded_name "VLM.Bake.Solid" ++ replicate 44 7))
                 false false false None None None None)
              [str "VLM.Lightmap"; str "VLM.Bake.Solid"]
              (mk_reader (padded_name "VLM.Lightmap" ++ replicate 44 7
                          ++ padded_name "VLM.Bake.Solid" ++ replicate 44 7) 152 (-152) []))
    as (s' & Hs & _ & H1 & H2 & H3 & _); [vm_compute; reflexivity|].
  exists s'. split; [exact Hs|]. rewrite H1, H2, H3. vm_compute. repeat split.
Defined.

Lemma length_str (s : string) : length (str s) = String.length s.
Proof.
  unfold str. rewrite length_map. induction s as [|a s IH]; [reflexivity|].
  cbn. rewrite IH. reflexivity.
Qed.

Lemma len_padded_name (name : string) :
  (String.length name <= 32)%nat -> len (padded_name name) = 32.
Proof.
  intros H. unfold padded_name, len. rewrite length_app, length_replicate, length_str. lia.
Qed.

Lemma drop_zeros_replicate (k : nat) (l : list Z) :
  drop_zeros (replicate k 0 ++ l) = drop_zeros l.
Proof. induction k as [|k IH]; [reflexivity|]. cbn [replicate app drop_zeros]. exact IH. Qed.

Lemma drop_zeros_head (l : list Z) : head l <> Some 0 -> drop_zeros l = l.
Proof.
  destruct l as [|x l]; [reflexivity|]. cbn [head]. intros H.
  destruct x; [contradiction H; reflexivity|reflexivity|reflexivity].
Qed.

Lemma rstrip0_padded (s : list Z) (k : nat) :
  last s <> Some 0 -> rstrip0 (s ++ replicate k 0) = s.
Proof.
  intros H. unfold rstrip0. rewrite reverse_app, reverse_replicate, drop_zeros_replicate.
  rewrite drop_zeros_head; [apply reverse_involutive|].
  rewrite head_reverse. exact H.
Qed.

(** X16: a record the export adds to the table of the materials (lines 649
    to 661, 668 to 680 and 687 to 699) has the 76 bytes that line 708 counts
    per material and that the loops over the table step over (a name of 32
    bytes and eleven fields of four bytes), its record in the table of the
    physics the 48 bytes of line 714; read back by the loop of the import,
    the record gives the name it was written with, and the loop ends behind
    it. *)
Theorem added_material_reads_back (name : string) (alpha : Z) (b rest : list Z) :
  material_record name alpha = Some b ->
  (String.length name <= 32)%nat ->
  last (str name) <> Some 0 ->
  len b = 76
  /\ (exists p : list Z, physics_record name = Some p /\ len p = 48)
  /\ read_material_names 1 (BIFF_reader (b ++ rest))
     = Some ([str name],
             {| data := b ++ rest; pos := 76; bytes_in_record_remaining := -76; tag := [] |}).
Proof.
  intros Hb Hlen Hlast.
  unfold material_record, write_float, write_bool, write_u32 in Hb.
  unfold f32_0, f32_1 in Hb.
  rewrite (pack_u32_le32 0x7F7F7F), (pack_u32_le32 0), (pack_u32_le32 0x0c),
    (pack_u32_le32 0x3F800000) in Hb by lia.
  cbn [mbind option_bind] in Hb.
  destruct (pack_u32 alpha) as [a|] eqn:Ea; cbn [mbind option_bind] in Hb; [|discriminate Hb].
  apply pack_u32_Some in Ea. subst a.
  cbn [write_data wopen wdata BIFF_writer get_data app] in Hb. apply Some_inj in Hb.
  pose proof (len_padded_name name Hlen) as Hpad.
  assert (Hb76 : len b = 76).
  { rewrite <- Hb. rewrite !len_app, !len_le32, Hpad. reflexivity. }
  split; [exact Hb76|]. split.
  - unfold physics_record, write_float, write_u32, f32_0.
    rewrite !pack_u32_le32 by lia. cbn [mbind option_bind].
    eexists. split; [reflexivity|].
    cbn [write_data wopen wdata BIFF_writer get_data app].
    rewrite !len_app, !len_le32, Hpad. reflexivity.
  - cbn [read_material_names]. unfold get_str.
    rewrite (get_at [] (padded_name name) (drop 32 b ++ rest) (BIFF_reader (b ++ rest)))
      with (n := 32).
    + cbn [mbind option_bind]. unfold padded_name.
      rewrite (rstrip0_padded _ _ Hlast). reflexivity.
    + cbn [BIFF_reader data app]. rewrite <- !app_assoc in Hb.
      rewrite <- Hb. rewrite drop_app_length' by (unfold len in Hpad; lia).
      rewrite <- !app_assoc. reflexivity.
    + reflexivity.
    + exact Hpad.
Qed.

Lemma added_material_reads_back_witness :
  exists b : list Z,
    material_record "VLM.Lightmap" 1 = Some b
    /\ len b = 76
    /\ read_material_names 1 (BIFF_reader (b ++ [1; 2; 3]))
       = Some ([str "VLM.Lightmap"],
               {| data := b ++ [1; 2; 3]; pos := 76; bytes_in_record_remaining := -76;
                  tag := [] |}).
Proof.
  destruct (material_record "VLM.Lightmap" 1) as [b|] eqn:E; [|vm_compute in E; discriminate E].
  exists b. split; [reflexivity|].
  destruct (added_material_reads_back "VLM.Lightmap" 1 b [1; 2; 3] E)
    as (H1 & _ & H3); [vm_compute; lia | vm_compute; discriminate |].
  split; [exact H1|exact H3].
Defined.

(** ** Baked items that stay (C6, C10) *)

Lemma forced_false_not_name (sc : scene) (item_type : Z) (name : list Z) (b : bool)
    (t : list Z) :
  is_tag t "NAME" = true ->
  forced_false sc item_type name b t = false /\ bracket_hidden sc item_type name t = false.
Proof.
  unfold is_tag at 1. intros H. apply bool_decide_eq_true in H. subst t.
  unfold forced_false, bracket_hidden, visibility_part, is_tag. tag_tests.
  cbn [andb orb]. rewrite !andb_false_r. cbn [andb orb].
  split; [|reflexivity].
  repeat match goal with
         | |- default false (if ?c then _ else _) = false => destruct c
         end; reflexivity.
Qed.

Lemma patch_record_hide (sc : scene) (item_type : Z) (name : list Z) (rc : list Z * list Z) :
  renamed sc name = false ->
  patch_record sc item_type name true false rc = hide_record sc item_type name rc.
Proof.
  intros Hren. unfold patch_record, hide_record. rewrite Hren.
  destruct (is_tag rc.1 "NAME") eqn:En.
  - destruct (forced_false_not_name sc item_type name true rc.1 En) as [-> ->].
    reflexivity.
  - destruct (forced_false sc item_type name true rc.1 || bracket_hidden sc item_type name rc.1);
      [reflexivity|].
    unfold light_word, height_over_tag. rewrite !andb_false_r. cbn [andb]. reflexivity.
Qed.

(** C6, as the code has it: a kept item of a known kind that a bake covers,
    other than the playfield mesh that a playfield bake renames and other
    than an item that is a baked light too, is written with exactly these
    payloads overwritten to false in place: the reflection tag, the
    visibility tags of its kind whose part is baked, and the bracket tag of a
    gate or spinner whose bracket is baked; every other byte of the stream
    is the byte of the source. *)
Theorem baked_item_hidden_in_place (sc : scene) (item_type : Z)
    (rs : list (list Z * list Z)) (st : pass_state) :
  0 <= item_type < 23 ->
  item_ok sc rs = true ->
  item_is_baked sc rs = true ->
  item_is_baked_light sc rs = false ->
  renamed sc (item_name rs) = false ->
  item_removed sc (item_name rs) true (item_is_physics rs) = false ->
  exists st' : pass_state,
    process_item sc (item_bytes item_type rs) st = Some st'
    /\ n_game_items st' = S (n_game_items st)
    /\ ps_dst st'
       = create_gamestg (ps_dst st) (indexed "GameItem" (n_game_items st))
           (item_bytes item_type (map (hide_record sc item_type (item_name rs)) rs)).
Proof.
  intros Hty Hok Hbaked Hlight Hren Hkept.
  eexists. split; [apply process_item_records; assumption|].
  rewrite item_result_fields. cbv zeta. rewrite Hbaked, Hlight, Hkept.
  cbn [ps_dst n_game_items]. split; [reflexivity|].
  f_equal. f_equal. apply map_ext. intros rc. apply patch_record_hide, Hren.
Qed.

(** The bumper of the specification: only its ring is baked; the payload of
    RIVS is forced to false, those of CAVI and BSVS stay true, and the
    reflection, a tag of the whole item, is forced to false. *)
Lemma baked_item_hidden_in_place_witness :
  exists st' : pass_state,
    process_item example_scene example_bumper (pass_init (mk_dst [] [] false)) = Some st'
    /\ n_game_items st' = 1%nat
    /\ ps_dst st'
       = create_gamestg (mk_dst [] [] false) (indexed "GameItem" 0)
           (item_bytes 5 [(str "NAME", wide_payload (str "Bumper1"));
                          (str "CAVI", bool_payload true);
                          (str "BSVS", bool_payload true);
                          (str "RIVS", bool_payload false);
                          (str "IMAG", string_payload (str "ringtex"));
                          (str "REEN", bool_payload false);
                          (str "ENDB", [])]).
Proof.
  apply (baked_item_hidden_in_place example_scene 5
           [(str "NAME", wide_payload (str "Bumper1"));
            (str "CAVI", bool_payload true);
            (str "BSVS", bool_payload true);
            (str "RIVS", bool_payload true);
            (str "IMAG", string_payload (str "ringtex"));
            (str "REEN", bool_payload true);
            (str "ENDB", [])] (pass_init (mk_dst [] [] false)));
    [lia | vm_compute; reflexivity | vm_compute; reflexivity | vm_compute; reflexivity
    | vm_compute; reflexivity | vm_compute; reflexivity].
Defined.

(** The claim as it was stated fails for two kept items that a bake covers.
    The playfield mesh of a table with a playfield collection is written
    with bytes of its name overwritten (it is renamed to playfield_phys),
    which is no payload of a visibility or reflection tag; and a light that
    is a baked part and a baked light has the payload of BULT set to true. *)
Lemma baked_item_counterexample :
  (item_is_baked example_scene_playfield example_playfield_mesh = true
   /\ item_output example_scene_playfield (item_bytes 19 example_playfield_mesh)
      = Some (Some (item_bytes 19
                      [(str "NAME", wide_payload (str "playfield_phys"));
                       (str "TVIS", bool_payload false); (str "CLDR", bool_payload true);
                       (str "ENDB", [])]))
   /\ wide_payload (str "playfield_phys") <> wide_payload (str "playfield_mesh"))
  /\ (item_is_baked example_scene_light example_baked_light = true
      /\ item_output example_scene_light (item_bytes 7 example_baked_light)
         = Some (Some (item_bytes 7
                         [(str "NAME", wide_payload (str "L9"));
                          (str "BULT", bool_payload true); (str "ENDB", [])]))).
Proof.
  split; [split; [vm_compute; reflexivity|split; [vm_compute; reflexivity
                                                 |vm_compute; discriminate]]|].
  split; vm_compute; reflexivity.
Qed.

(** C10: a baked item of a known kind that takes part in the physics (every
    collidable flag CLDR or CLDW set, no toy flag ISTO set) and whose name
    neither starts with [VLM.] nor is [VLMTimer] is written in every export
    mode, remove and remove_all included: it takes the next free index, and
    every record of the reflection tag or of a visibility tag of its kind
    whose part is baked is written with its payload forced to false. *)
Theorem physics_item_never_dropped (sc : scene) (item_type : Z)
    (rs : list (list Z * list Z)) (st : pass_state) :
  0 <= item_type < 23 ->
  item_ok sc rs = true ->
  item_is_baked sc rs = true ->
  stays_physics rs = true ->
  startswith (item_name rs) (str "VLM.") = false ->
  item_name rs <> str "VLMTimer" ->
  exists st' : pass_state,
    process_item sc (item_bytes item_type rs) st = Some st'
    /\ n_game_items st' = S (n_game_items st)
    /\ ps_dst st'
       = create_gamestg (ps_dst st) (indexed "GameItem" (n_game_items st))
           (item_bytes item_type
              (map (patch_record sc item_type (item_name rs) true
                      (item_is_baked_light sc rs)) rs))
    /\ Forall (fun rc =>
                 forced_false sc item_type (item_name rs) true rc.1 = true ->
                 patch_record sc item_type (item_name rs) true (item_is_baked_light sc rs) rc
                 = (rc.1, set_word 0 rc.2)) rs.
Proof.
  intros Hty Hok Hbaked Hphys Hvlm Htimer.
  eexists. split; [apply process_item_records; assumption|].
  rewrite item_result_fields. cbv zeta.
  unfold item_removed, item_is_physics. rewrite (stays_physics_foldl rs Hphys), Hvlm, Hbaked.
  rewrite bool_decide_eq_false_2 by exact Htimer.
  rewrite andb_false_r. cbn [orb ps_dst n_game_items].
  split; [reflexivity|]. split; [reflexivity|].
  apply Forall_forall. intros rc _ Hforced. unfold patch_record.
  destruct (is_tag rc.1 "NAME") eqn:En.
  - destruct (forced_false_not_name sc item_type (item_name rs) true rc.1 En) as [Hf _].
    congruence.
  - rewrite Hforced. reflexivity.
Qed.

Lemma physics_item_never_dropped_witness :
  exists st' : pass_state,
    process_item (example_scene_baking mode_remove_all "Wall7")
      (item_bytes 0 (example_solid_wall "Wall7")) (pass_init (mk_dst [] [] false)) = Some st'
    /\ n_game_items st' = 1%nat
    /\ ps_dst st'
       = create_gamestg (mk_dst [] [] false) (indexed "GameItem" 0)
           (item_bytes 0 [(str "NAME", wide_payload (str "Wall7"));
                          (str "VSBL", bool_payload false);
                          (str "CLDR", bool_payload true);
                          (str "IMAG", string_payload (str "walltex"));
                          (str "ENDB", [])]).
Proof.
  destruct (physics_item_never_dropped (example_scene_baking mode_remove_all "Wall7") 0
              (example_solid_wall "Wall7") (pass_init (mk_dst [] [] false)))
    as (st' & H1 & H2 & H3 & _);
    [lia | vm_compute; reflexivity | vm_compute; reflexivity | vm_compute; reflexivity
    | vm_compute; reflexivity | vm_compute; discriminate |].
  exists st'. split; [exact H1|]. split; [exact H2|]. rewrite H3. reflexivity.
Defined.
